(** * perc-webrtc: delay-based bandwidth estimator and RTP header extensions

    A shallow embedding of
    - [modules/congestion_controller/delay_based_bwe.cc]: the probe
      analyser ([ComputeClusters], [FindBestProbe], [ProcessClusters]),
      the SSRC liveness map and the per-packet pipeline of [DelayBasedBwe];
    - [modules/rtp_rtcp/source/rtp_utility.cc]: the one-byte RTP header
      extension parser [RtpHeaderParser::ParseOneByteExtensionHeader].

    Conventions.  C++ integers are values of [Z]; unsigned arithmetic and
    narrowing conversions are reduced explicitly ([u32], [u64], [s32]),
    signed arithmetic, whose overflow is undefined, is exact.  [float] and
    [double] are IEEE-754 binary32 and binary64 values with round to
    nearest even, through the executable operations of [SpecFloat].
    [std::list] is [list], [std::map<uint32_t, int64_t>] is [gmap Z Z].
    The classes whose code lives in other translation units (the rate
    controller, the inter-arrival filter, the over-use estimator and
    detector, the rate statistics, the extension map) are parameters. *)

From Stdlib Require Import ZArith List Bool.
From Stdlib Require Import Init.Byte Strings.Byte.
From Stdlib Require Import Floats.SpecFloat.
From stdpp Require Import base tactics option list gmap sorting strings.

Local Open Scope Z_scope.

(** ** Machine integers *)

Definition u32 (z : Z) : Z := z mod 2 ^ 32.
Definition u64 (z : Z) : Z := z mod 2 ^ 64.

(** Conversion to [int]: the value modulo 2^32 in the signed range. *)
Definition s32 (z : Z) : Z := (z + 2 ^ 31) mod 2 ^ 32 - 2 ^ 31.

(** ** IEEE-754 arithmetic *)

Module F32.
Definition prec : Z := 24.
Definition emax : Z := 128.
Definition of_Z (z : Z) : spec_float := binary_normalize prec emax z 0 false.
Definition add : spec_float -> spec_float -> spec_float := SFadd prec emax.
Definition sub : spec_float -> spec_float -> spec_float := SFsub prec emax.
Definition div : spec_float -> spec_float -> spec_float := SFdiv prec emax.
Definition zero : spec_float := S754_zero false.
End F32.

Module F64.
Definition prec : Z := 53.
Definition emax : Z := 1024.
Definition of_Z (z : Z) : spec_float := binary_normalize prec emax z 0 false.
Definition mul : spec_float -> spec_float -> spec_float := SFmul prec emax.
Definition div : spec_float -> spec_float -> spec_float := SFdiv prec emax.
End F64.

(** Floating to integral conversion discards the fractional part.  The
    conversion of a NaN or an infinity is undefined in C++; the model
    yields 0 there. *)
Definition float_to_int (x : spec_float) : Z :=
  match x with
  | S754_finite s m e =>
      let v := if 0 <=? e then Z.pos m * 2 ^ e else Z.pos m `quot` 2 ^ (- e) in
      if s then - v else v
  | _ => 0
  end.

(** Conversion of a [float] to [int], as in [int bps = size / mean].  The
    conversion is undefined in C++ when the integral part does not fit an
    [int] and for an infinity or a NaN; the compiled code then holds the
    result of the conversion instruction of x86 (cvttss2si), which is
    [INT_MIN], and so does the model. *)
Definition INT_MIN : Z := - 2 ^ 31.

Definition float_to_int32 (x : spec_float) : Z :=
  match x with
  | S754_zero _ => 0
  | S754_finite _ _ _ =>
      let v := float_to_int x in
      if (- 2 ^ 31 <=? v) && (v <? 2 ^ 31) then v else INT_MIN
  | _ => INT_MIN
  end.

(** ** RTP headers (rtp_utility.cc)

    [RTPHeader] and [RTPHeaderExtension] are declared in common_types.h;
    the records have the fields that the parser assigns.  The frame-marking
    members receive the value of the masked byte as the source computes
    it. *)

Inductive VideoRotation :=
  kVideoRotation_0 | kVideoRotation_90 | kVideoRotation_180 | kVideoRotation_270.

Record PlayoutDelay := mkPlayoutDelay { min_ms : Z; max_ms : Z }.

Record FrameMarks := mkFrameMarks {
  startOfFrame : Z;
  endOfFrame : Z;
  independent : Z;
  discardable : Z;
  baseLayerSync : Z;
  temporalLayerId : Z;
  spatialLayerId : Z;
  tl0PicIdx : Z
}.

Record RTPHeaderExtension := mkExtension {
  hasTransmissionTimeOffset : bool;
  transmissionTimeOffset : Z;
  hasAbsoluteSendTime : bool;
  absoluteSendTime : Z;
  hasTransportSequenceNumber : bool;
  transportSequenceNumber : Z;
  hasAudioLevel : bool;
  voiceActivity : bool;
  audioLevel : Z;
  hasVideoRotation : bool;
  videoRotation : VideoRotation;
  playout_delay : PlayoutDelay;
  frameMarks : FrameMarks
}.

Record RTPHeader := mkRTPHeader {
  markerBit : bool;
  payloadType : Z;
  sequenceNumber : Z;
  timestamp : Z;
  ssrc : Z;
  numCSRCs : Z;
  arrOfCSRCs : list Z;
  paddingLength : Z;
  headerLength : Z;
  extension : RTPHeaderExtension
}.

Definition with_extension (h : RTPHeader) (e : RTPHeaderExtension) : RTPHeader :=
  mkRTPHeader (markerBit h) (payloadType h) (sequenceNumber h) (timestamp h)
              (ssrc h) (numCSRCs h) (arrOfCSRCs h) (paddingLength h)
              (headerLength h) e.

Inductive RTPExtensionType :=
| kRtpExtensionNone
| kRtpExtensionTransmissionTimeOffset
| kRtpExtensionAudioLevel
| kRtpExtensionAbsoluteSendTime
| kRtpExtensionVideoRotation
| kRtpExtensionTransportSequenceNumber
| kRtpExtensionPlayoutDelay
| kRtpExtensionFrameMarking
| kRtpExtensionNumberOfExtensions.

Global Instance RTPExtensionType_eq_dec : EqDecision RTPExtensionType.
Proof. solve_decision. Defined.

(** Modelled from the spec: [kPlayoutDelayGranularityMs], declared with the
    extension: playout-delay has "granularity 10 ms". *)
Definition kPlayoutDelayGranularityMs : Z := 10.

(** The lines the parser writes to the log. *)
Inductive ParseLog :=
| Verbose_Terminate
    (* "RTP extension header 15 encountered. Terminate parsing." *)
| Warning_OneByteLen (len_plus_1 bytes_left : Z)
    (* "Incorrect one-byte extension len: " ... *)
| Warning_UnknownId (id : Z)
    (* "Failed to find extension id: " *)
| Warning_Len (text : string) (len : Z).

Definition byte_val (b : byte) : Z := Z.of_N (Byte.to_N b).

(** [ptr[i]] *)
Definition at_ (ptr : list byte) (i : nat) : Z :=
  byte_val (nth i ptr Byte.x00).

(** [ByteReader<uint32_t, 3>::ReadBigEndian] and, for the signed offset,
    [ByteReader<int32_t, 3>::ReadBigEndian] of byte_io.h: three bytes, most
    significant first, the signed reader extending the sign of bit 23. *)
Definition ReadBigEndian_u24 (ptr : list byte) : Z :=
  Z.lor (Z.lor (at_ ptr 0 ≪ 16) (at_ ptr 1 ≪ 8)) (at_ ptr 2).
Definition ReadBigEndian_s24 (ptr : list byte) : Z :=
  let u := ReadBigEndian_u24 ptr in
  if Z.testbit u 23 then u - 2 ^ 24 else u.

Section OneByteExtensions.
(** [RtpHeaderExtensionMap::kInvalidType] and
    [ConvertCVOByteToVideoRotation] (rtp_cvo.h) are declared elsewhere. *)
Variable kInvalidType : RTPExtensionType.
Variable ConvertCVOByteToVideoRotation : Z -> VideoRotation.

(** The [switch]: the extension after the element is applied, or the
    warning logged before the early [return]. *)
Definition ParseElement (type : RTPExtensionType) (len : Z)
    (ptr : list byte) (e : RTPHeaderExtension)
  : RTPHeaderExtension + option ParseLog :=
  match type with
  | kRtpExtensionTransmissionTimeOffset =>
      if negb (len =? 2) then
        inr (Some (Warning_Len "Incorrect transmission time offset len: " len))
      else
        inl (mkExtension true (ReadBigEndian_s24 ptr)
               (hasAbsoluteSendTime e) (absoluteSendTime e)
               (hasTransportSequenceNumber e) (transportSequenceNumber e)
               (hasAudioLevel e) (voiceActivity e) (audioLevel e)
               (hasVideoRotation e) (videoRotation e)
               (playout_delay e) (frameMarks e))
  | kRtpExtensionAudioLevel =>
      if negb (len =? 0) then
        inr (Some (Warning_Len "Incorrect audio level len: " len))
      else
        inl (mkExtension
               (hasTransmissionTimeOffset e) (transmissionTimeOffset e)
               (hasAbsoluteSendTime e) (absoluteSendTime e)
               (hasTransportSequenceNumber e) (transportSequenceNumber e)
               true (negb (Z.land (at_ ptr 0) 0x80 =? 0))
               (Z.land (at_ ptr 0) 0x7f)
               (hasVideoRotation e) (videoRotation e)
               (playout_delay e) (frameMarks e))
  | kRtpExtensionAbsoluteSendTime =>
      if negb (len =? 2) then
        inr (Some (Warning_Len "Incorrect absolute send time len: " len))
      else
        inl (mkExtension
               (hasTransmissionTimeOffset e) (transmissionTimeOffset e)
               true (ReadBigEndian_u24 ptr)
               (hasTransportSequenceNumber e) (transportSequenceNumber e)
               (hasAudioLevel e) (voiceActivity e) (audioLevel e)
               (hasVideoRotation e) (videoRotation e)
               (playout_delay e) (frameMarks e))
  | kRtpExtensionVideoRotation =>
      if negb (len =? 0) then
        inr (Some (Warning_Len
                     "Incorrect coordination of video coordination len: " len))
      else
        inl (mkExtension
               (hasTransmissionTimeOffset e) (transmissionTimeOffset e)
               (hasAbsoluteSendTime e) (absoluteSendTime e)
               (hasTransportSequenceNumber e) (transportSequenceNumber e)
               (hasAudioLevel e) (voiceActivity e) (audioLevel e)
               true (ConvertCVOByteToVideoRotation (at_ ptr 0))
               (playout_delay e) (frameMarks e))
  | kRtpExtensionTransportSequenceNumber =>
      if negb (len =? 1) then
        inr (Some (Warning_Len "Incorrect transport sequence number len: " len))
      else
        let sequence_number := (at_ ptr 0 ≪ 8) mod 2 ^ 16 in
        let sequence_number := (sequence_number + at_ ptr 1) mod 2 ^ 16 in
        inl (mkExtension
               (hasTransmissionTimeOffset e) (transmissionTimeOffset e)
               (hasAbsoluteSendTime e) (absoluteSendTime e)
               true sequence_number
               (hasAudioLevel e) (voiceActivity e) (audioLevel e)
               (hasVideoRotation e) (videoRotation e)
               (playout_delay e) (frameMarks e))
  | kRtpExtensionPlayoutDelay =>
      if negb (len =? 2) then
        inr (Some (Warning_Len "Incorrect playout delay len: " len))
      else
        let min_playout_delay :=
          Z.lor (at_ ptr 0 ≪ 4) (Z.land (at_ ptr 1 ≫ 4) 0xf) in
        let max_playout_delay :=
          Z.lor (Z.land (at_ ptr 1) 0xf ≪ 8) (at_ ptr 2) in
        inl (mkExtension
               (hasTransmissionTimeOffset e) (transmissionTimeOffset e)
               (hasAbsoluteSendTime e) (absoluteSendTime e)
               (hasTransportSequenceNumber e) (transportSequenceNumber e)
               (hasAudioLevel e) (voiceActivity e) (audioLevel e)
               (hasVideoRotation e) (videoRotation e)
               (mkPlayoutDelay
                  (min_playout_delay * kPlayoutDelayGranularityMs)
                  (max_playout_delay * kPlayoutDelayGranularityMs))
               (frameMarks e))
  | kRtpExtensionFrameMarking =>
      if negb (len =? 1) && negb (len =? 3) then
        inr (Some (Warning_Len "Incorrect playout delay len: " len))
      else
        let fm := frameMarks e in
        let marks :=
          if len =? 1 then
            mkFrameMarks (Z.land (at_ ptr 0) 0x80) (Z.land (at_ ptr 0) 0x40)
                         (Z.land (at_ ptr 0) 0x20) (Z.land (at_ ptr 0) 0x10)
                         0 0 0 0
          else if len =? 3 then
            mkFrameMarks (Z.land (at_ ptr 0) 0x80) (Z.land (at_ ptr 0) 0x40)
                         (Z.land (at_ ptr 0) 0x20) (Z.land (at_ ptr 0) 0x10)
                         (Z.land (at_ ptr 0) 0x08) (Z.land (at_ ptr 0) 0x07)
                         (at_ ptr 1) (at_ ptr 2)
          else
            mkFrameMarks (Z.land (at_ ptr 0) 0x80) (Z.land (at_ ptr 0) 0x40)
                         (Z.land (at_ ptr 0) 0x20) (Z.land (at_ ptr 0) 0x10)
                         (baseLayerSync fm) (temporalLayerId fm)
                         (spatialLayerId fm) (tl0PicIdx fm) in
        inl (mkExtension
               (hasTransmissionTimeOffset e) (transmissionTimeOffset e)
               (hasAbsoluteSendTime e) (absoluteSendTime e)
               (hasTransportSequenceNumber e) (transportSequenceNumber e)
               (hasAudioLevel e) (voiceActivity e) (audioLevel e)
               (hasVideoRotation e) (videoRotation e)
               (playout_delay e) marks)
  | kRtpExtensionNone | kRtpExtensionNumberOfExtensions =>
      (* RTC_NOTREACHED(); return *)
      inr None
  end.

(** The [while] loop.  [ptr] is the list of the bytes from the pointer to
    [ptrRTPDataExtensionEnd]; every iteration consumes at least one byte,
    so a fuel equal to the number of bytes is never used up. *)
Fixpoint ParseOneByteExtensionHeader_loop (fuel : nat)
    (GetType : Z -> RTPExtensionType) (e : RTPHeaderExtension)
    (ptr : list byte) : RTPHeaderExtension * list ParseLog :=
  match fuel, ptr with
  | O, _ | _, [] => (e, [])
  | S fuel', b :: ptr =>
      let id := Z.land (byte_val b) 0xf0 ≫ 4 in
      let len := Z.land (byte_val b) 0x0f in
      if id =? 0 then
        ParseOneByteExtensionHeader_loop fuel' GetType e ptr
      else if id =? 15 then (e, [Verbose_Terminate])
      else if Z.of_nat (length ptr) <? len + 1 then
        (e, [Warning_OneByteLen (len + 1) (Z.of_nat (length ptr))])
      else
        let type := GetType id in
        let next := drop (Z.to_nat (len + 1)) ptr in
        if decide (type = kInvalidType) then
          let '(e', log) :=
            ParseOneByteExtensionHeader_loop fuel' GetType e next in
          (e', Warning_UnknownId id :: log)
        else
          match ParseElement type len ptr e with
          | inl e' => ParseOneByteExtensionHeader_loop fuel' GetType e' next
          | inr (Some w) => (e, [w])
          | inr None => (e, [])
          end
  end.

(** [ptrExtensionMap] may be null; a map is its [GetType]. *)
Definition ParseOneByteExtensionHeader (header : RTPHeader)
    (ptrExtensionMap : option (Z -> RTPExtensionType))
    (ptr : list byte) : RTPHeader * list ParseLog :=
  match ptrExtensionMap with
  | None => (header, [])
  | Some GetType =>
      let '(e, log) :=
        ParseOneByteExtensionHeader_loop (length ptr) GetType
          (extension header) ptr in
      (with_extension header e, log)
  end.

End OneByteExtensions.

(** The length that each case of the [switch] lets through, and the text
    of its warning. *)
Definition accepted_len (type : RTPExtensionType) (len : Z) : bool :=
  match type with
  | kRtpExtensionTransmissionTimeOffset => len =? 2
  | kRtpExtensionAudioLevel => len =? 0
  | kRtpExtensionAbsoluteSendTime => len =? 2
  | kRtpExtensionVideoRotation => len =? 0
  | kRtpExtensionTransportSequenceNumber => len =? 1
  | kRtpExtensionPlayoutDelay => len =? 2
  | kRtpExtensionFrameMarking => (len =? 1) || (len =? 3)
  | kRtpExtensionNone | kRtpExtensionNumberOfExtensions => false
  end.




(** The header as [Parse] leaves it before it looks at the extensions. *)
Definition extension_init : RTPHeaderExtension :=
  mkExtension false 0 false 0 false 0 false false 0 false kVideoRotation_0
              (mkPlayoutDelay (-1) (-1)) (mkFrameMarks 0 0 0 0 0 0 0 0).

Definition header_init : RTPHeader :=
  mkRTPHeader false 0 0 0 0 0 [] 0 12 extension_init.

(** A negotiated map and the rotation decoder, for closed instances: ids 1
    to 3 are the transmission offset, the absolute send time and the frame
    marking. *)
Definition GetType_123 (id : Z) : RTPExtensionType :=
  if id =? 1 then kRtpExtensionTransmissionTimeOffset
  else if id =? 2 then kRtpExtensionAbsoluteSendTime
  else if id =? 3 then kRtpExtensionFrameMarking
  else kRtpExtensionNone.

Definition cvo_rotation (b : Z) : VideoRotation :=
  match Z.land b 3 with
  | 0 => kVideoRotation_0
  | 1 => kVideoRotation_90
  | 2 => kVideoRotation_180
  | _ => kVideoRotation_270
  end.


(** ** The fixed part of the header (rtp_utility.cc) *)

Definition kRtcpExpectedVersion : Z := 2.
Definition kRtcpMinHeaderLength : Z := 4.
Definition kRtcpMinParseLength : Z := 8.
Definition kRtpExpectedVersion : Z := 2.
Definition kRtpMinParseLength : Z := 12.

Definition Word32Align (size : Z) : Z :=
  let remainder := u32 (size `mod` 4) in
  if negb (remainder =? 0) then u64 (u64 (size + 4) - remainder) else size.

(** [ByteReader<uint16_t>::ReadBigEndian] and
    [ByteReader<uint32_t>::ReadBigEndian] of byte_io.h, most significant
    byte first. *)
Definition ReadBigEndian_u16 (ptr : list byte) : Z :=
  Z.lor (at_ ptr 0 ≪ 8) (at_ ptr 1).
Definition ReadBigEndian_u32 (ptr : list byte) : Z :=
  Z.lor (Z.lor (Z.lor (at_ ptr 0 ≪ 24) (at_ ptr 1 ≪ 16)) (at_ ptr 2 ≪ 8))
        (at_ ptr 3).

(** An [RtpHeaderParser] is the sequence of the bytes from
    [_ptrRTPDataBegin] to [_ptrRTPDataEnd]; a null [rtpData] is the empty
    sequence. *)
Definition RTCP (data : list byte) : bool :=
  let length := Z.of_nat (length data) in
  if length <? kRtcpMinHeaderLength then false
  else
    let V := at_ data 0 ≫ 6 in
    if negb (V =? kRtcpExpectedVersion) then false
    else
      let payloadType := at_ data 1 in
      match payloadType with
      | 192 => true
      | 193 => false
      | 195 | 200 | 201 | 202 | 203 | 204 | 205 | 206 | 207 => true
      | _ => false
      end.

(** [ParseRtcp] and [Parse] return their [bool] together with the header
    as the call leaves it, which on some failures is partly written. *)
Definition ParseRtcp (data : list byte) (header : RTPHeader)
  : bool * RTPHeader :=
  let length := Z.of_nat (length data) in
  if length <? kRtcpMinParseLength then (false, header)
  else
    let V := at_ data 0 ≫ 6 in
    if negb (V =? kRtcpExpectedVersion) then (false, header)
    else
      let PT := at_ data 1 in
      let len := (at_ data 2 ≪ 8) + at_ data 3 in
      let SSRC := ReadBigEndian_u32 (drop 4 data) in
      (true,
       mkRTPHeader (markerBit header) PT (sequenceNumber header)
                   (timestamp header) SSRC (numCSRCs header)
                   (arrOfCSRCs header) (paddingLength header)
                   (4 + (len ≪ 2)) (extension header)).

(** The [for] loop over the CSRCs: entry [i] of the array receives the
    word at [ptr + 4 * i]. *)
Fixpoint read_CSRCs (CC : nat) (i : nat) (ptr : list byte) (arr : list Z)
  : list Z :=
  match CC with
  | O => arr
  | S CC' =>
      read_CSRCs CC' (S i) (drop 4 ptr) (<[i := ReadBigEndian_u32 ptr]> arr)
  end.

(** The assignments that [Parse] makes to the extension before it looks
    for one in the packet.  The transport sequence number and the frame
    marks are not among them. *)
Definition reset_extension (e : RTPHeaderExtension) : RTPHeaderExtension :=
  mkExtension false 0 false 0
              (hasTransportSequenceNumber e) (transportSequenceNumber e)
              false false 0 false kVideoRotation_0
              (mkPlayoutDelay (-1) (-1)) (frameMarks e).

Definition with_headerLength (h : RTPHeader) (n : Z) : RTPHeader :=
  mkRTPHeader (markerBit h) (payloadType h) (sequenceNumber h) (timestamp h)
              (ssrc h) (numCSRCs h) (arrOfCSRCs h) (paddingLength h)
              n (extension h).

Section RtpHeaderParser.
(** [kRtpOneByteHeaderExtensionId] is declared outside these sources, like
    the two parameters of the extension parser. *)
Variable kRtpOneByteHeaderExtensionId : Z.
Variable kInvalidType : RTPExtensionType.
Variable ConvertCVOByteToVideoRotation : Z -> VideoRotation.

Definition Parse (data : list byte) (header : RTPHeader)
    (ptrExtensionMap : option (Z -> RTPExtensionType))
  : bool * RTPHeader * list ParseLog :=
  let length := Z.of_nat (length data) in
  if length <? kRtpMinParseLength then (false, header, [])
  else
    let V := at_ data 0 ≫ 6 in
    let P := negb (Z.land (at_ data 0) 0x20 =? 0) in
    let X := negb (Z.land (at_ data 0) 0x10 =? 0) in
    let CC := Z.land (at_ data 0) 0x0f in
    let M := negb (Z.land (at_ data 1) 0x80 =? 0) in
    let PT := Z.land (at_ data 1) 0x7f in
    let sequenceNumber := ((at_ data 2 ≪ 8) + at_ data 3) `mod` 2 ^ 16 in
    let RTPTimestamp := ReadBigEndian_u32 (drop 4 data) in
    let SSRC := ReadBigEndian_u32 (drop 8 data) in
    if negb (V =? kRtpExpectedVersion) then (false, header, [])
    else
      let CSRCocts := CC * 4 in
      if length <? 12 + CSRCocts then (false, header, [])
      else
        let h1 :=
          mkRTPHeader M PT sequenceNumber RTPTimestamp SSRC CC
            (read_CSRCs (Z.to_nat CC) 0 (drop 12 data) (arrOfCSRCs header))
            (if P then at_ data (Nat.pred (List.length data)) else 0)
            (12 + CSRCocts)
            (reset_extension (extension header)) in
        if X then
          let ptr := drop (Z.to_nat (12 + CSRCocts)) data in
          let remain := length - (12 + CSRCocts) in
          if remain <? 4 then (false, h1, [])
          else
            let h2 := with_headerLength h1 (headerLength h1 + 4) in
            let definedByProfile := ReadBigEndian_u16 ptr in
            let XLen := ReadBigEndian_u16 (drop 2 ptr) * 4 in
            if remain <? 4 + XLen then (false, h2, [])
            else
              let '(h3, log) :=
                if definedByProfile =? kRtpOneByteHeaderExtensionId then
                  ParseOneByteExtensionHeader kInvalidType
                    ConvertCVOByteToVideoRotation h2 ptrExtensionMap
                    (take (Z.to_nat XLen) (drop 4 ptr))
                else (h2, []) in
              let h4 := with_headerLength h3 (headerLength h3 + XLen) in
              if length <? headerLength h4 + paddingLength h4
              then (false, h4, log) else (true, h4, log)
        else
          if length <? headerLength h1 + paddingLength h1
          then (false, h1, []) else (true, h1, []).

End RtpHeaderParser.

(** An RTP packet of stream 0x01020304 without extension, and the same
    packet with the extension bit and one absolute-send-time element of
    id 2 in a one-byte block. *)
Definition plain_packet : list byte :=
  [x80; x60; x00; x07; x00; x00; x03; xe8; x01; x02; x03; x04; xaa; xbb].

Definition abs_send_time_packet : list byte :=
  [x90; x60; x00; x07; x00; x00; x03; xe8; x01; x02; x03; x04;
   xbe; xde; x00; x01; x22; x00; x05; x1f; xaa; xbb].

(** A sender report of 28 bytes from stream 0x01020304. *)
Definition sender_report : list byte :=
  [x80; xc8; x00; x06; x01; x02; x03; x04] ++ repeat x00 20.

(** ** Constants of delay_based_bwe.cc *)

Definition kTimestampGroupLengthMs : Z := 5.
Definition kAbsSendTimeFraction : Z := 18.
Definition kAbsSendTimeInterArrivalUpshift : Z := 8.
Definition kInterArrivalShift : Z :=
  kAbsSendTimeFraction + kAbsSendTimeInterArrivalUpshift.
Definition kInitialProbingIntervalMs : Z := 2000.
Definition kMinClusterSize : Z := 4.
Definition kMaxProbePackets : Z := 15.
Definition kExpectedNumberOfProbes : Z := 3.

Definition kTimestampToMs : spec_float :=
  F64.div (F64.of_Z 1000) (F64.of_Z (1 ≪ kInterArrivalShift)).

(** Modelled from the spec: [PacketInfo::kNotAProbe], declared with
    [PacketInfo] outside these sources.  The spec names it [NOT_A_PROBE];
    [ComputeClusters] uses the same -1 as its "no cluster seen" marker. *)
Definition kNotAProbe : Z := -1.

(** Modelled from the spec: [PacedSender::kMinProbePacketSize], declared
    in paced_sender.h: a probe must have "payload_size > 200 bytes". *)
Definition kMinProbePacketSize : Z := 200.

(** Modelled from the spec: [kStreamTimeOutMs], declared in
    remote_bitrate_estimator.h: "an SSRC times out after 2000 ms". *)
Definition kStreamTimeOutMs : Z := 2000.

Definition ConvertMsTo24Bits (time_ms : Z) : Z :=
  Z.land
    (u32 (u64 (u64 (u64 time_ms ≪ kAbsSendTimeFraction) + 500) `div` 1000))
    0x00FFFFFF.

(** ** Probes and clusters

    The two structs are declared in delay_based_bwe.h; their fields are the
    ones the functions below read and write. *)

Record Probe := mkProbe {
  send_time_ms : Z;
  recv_time_ms : Z;
  payload_size : Z;
  cluster_id : Z
}.

Record Cluster := mkCluster {
  send_mean_ms : spec_float;
  recv_mean_ms : spec_float;
  mean_size : Z;
  count : Z;
  num_above_min_delta : Z
}.

(** [Cluster()] *)
Definition Cluster0 : Cluster := mkCluster F32.zero F32.zero 0 0 0.

(** The expression [mean_size * 8 * 1000 / mean_ms] of [FindBestProbe]:
    [size_t] product, converted to [float], divided, converted to [int]. *)
Definition bitrate_bps (size : Z) (mean_ms : spec_float) : Z :=
  float_to_int32 (F32.div (F32.of_Z (u64 (size * 8 * 1000))) mean_ms).

(** Modelled from the spec: [Cluster::GetSendBitrateBps] and
    [Cluster::GetRecvBitrateBps], defined with the struct:
    "send_bps = mean_size*8*1000/mean_send_delta_ms; likewise recv_bps". *)
Definition GetSendBitrateBps (c : Cluster) : Z :=
  bitrate_bps (mean_size c) (send_mean_ms c).
Definition GetRecvBitrateBps (c : Cluster) : Z :=
  bitrate_bps (mean_size c) (recv_mean_ms c).

Definition AddCluster (clusters : list Cluster) (cluster : Cluster)
  : list Cluster :=
  clusters ++
  [ {| send_mean_ms := F32.div (send_mean_ms cluster) (F32.of_Z (count cluster));
       recv_mean_ms := F32.div (recv_mean_ms cluster) (F32.of_Z (count cluster));
       mean_size := mean_size cluster `div` u64 (count cluster);
       count := count cluster;
       num_above_min_delta := num_above_min_delta cluster |} ].

(** *** ComputeClusters: the loop over [probes_] *)

Record ClusterScan := mkScan {
  scan_clusters : list Cluster;
  current : Cluster;
  prev_send_time : Z;
  prev_recv_time : Z;
  last_probe_cluster_id : Z
}.

Definition scan_init (clusters : list Cluster) : ClusterScan :=
  mkScan clusters Cluster0 (-1) (-1) (-1).

(** One iteration of the [for] loop, [it] being the probe visited. *)
Definition scan_step (s : ClusterScan) (it : Probe) : ClusterScan :=
  let last_id :=
    if last_probe_cluster_id s =? -1 then cluster_id it
    else last_probe_cluster_id s in
  if 0 <=? prev_send_time s then
    let send_delta_ms := s32 (send_time_ms it - prev_send_time s) in
    let recv_delta_ms := s32 (recv_time_ms it - prev_recv_time s) in
    let cur := current s in
    let cur1 :=
      if (1 <=? send_delta_ms) && (1 <=? recv_delta_ms)
      then mkCluster (send_mean_ms cur) (recv_mean_ms cur) (mean_size cur)
                     (count cur) (num_above_min_delta cur + 1)
      else cur in
    let clusters1 :=
      if negb (cluster_id it =? last_id) && (kMinClusterSize <=? count cur1)
      then AddCluster (scan_clusters s) cur1
      else scan_clusters s in
    let cur2 := if negb (cluster_id it =? last_id) then Cluster0 else cur1 in
    let cur3 :=
      mkCluster (F32.add (send_mean_ms cur2) (F32.of_Z send_delta_ms))
                (F32.add (recv_mean_ms cur2) (F32.of_Z recv_delta_ms))
                (u64 (mean_size cur2 + payload_size it))
                (count cur2 + 1)
                (num_above_min_delta cur2) in
    mkScan clusters1 cur3 (send_time_ms it) (recv_time_ms it) (cluster_id it)
  else
    mkScan (scan_clusters s) (current s) (send_time_ms it) (recv_time_ms it)
           last_id.

(** After the loop: the cluster under construction is emitted if it has
    at least [kMinClusterSize] deltas. *)
Definition scan_finish (s : ClusterScan) : list Cluster :=
  if kMinClusterSize <=? count (current s)
  then AddCluster (scan_clusters s) (current s)
  else scan_clusters s.

Definition ComputeClusters (clusters : list Cluster) (probes : list Probe)
  : list Cluster :=
  scan_finish (fold_left scan_step probes (scan_init clusters)).

(** *** FindBestProbe *)

(** The guard of the [continue]: a mean equal to zero. *)
Definition zero_mean (c : Cluster) : bool :=
  SFeqb (send_mean_ms c) F32.zero || SFeqb (recv_mean_ms c) F32.zero.

(** The condition of the [if] that accepts a cluster. *)
Definition probe_ok (c : Cluster) : bool :=
  (count c `quot` 2 <? num_above_min_delta c) &&
  (SFleb (F32.sub (recv_mean_ms c) (send_mean_ms c)) (F32.of_Z 2) &&
   SFleb (F32.sub (send_mean_ms c) (recv_mean_ms c)) (F32.of_Z 5)).

Definition probe_bitrate_bps (c : Cluster) : Z :=
  GetSendBitrateBps c `min` GetRecvBitrateBps c.

(** The loop, with its two variables; an iterator is the cluster it points
    to, [None] is [clusters.end()]. *)
Fixpoint FindBestProbe_from (highest_probe_bitrate_bps : Z)
    (best_it : option Cluster) (clusters : list Cluster) : option Cluster :=
  match clusters with
  | [] => best_it
  | it :: rest =>
      if zero_mean it then
        FindBestProbe_from highest_probe_bitrate_bps best_it rest
      else if probe_ok it then
        if highest_probe_bitrate_bps <? probe_bitrate_bps it
        then FindBestProbe_from (probe_bitrate_bps it) (Some it) rest
        else FindBestProbe_from highest_probe_bitrate_bps best_it rest
      else best_it
  end.

Definition FindBestProbe (clusters : list Cluster) : option Cluster :=
  FindBestProbe_from 0 None clusters.

(** ** Collaborators of the coordinator

    The classes below are defined in other translation units; the
    coordinator is verified against their interfaces.  Methods that the
    source calls from [const] members are functions of the state; the
    others return the new state. *)

Inductive BandwidthUsage := kBwNormal | kBwUnderusing | kBwOverusing.

Global Instance BandwidthUsage_eq_dec : EqDecision BandwidthUsage.
Proof. solve_decision. Defined.

(** [RateControlInput(bw_state, incoming_bitrate, noise_var)] *)
Record RateControlInput := mkRateControlInput {
  bw_state : BandwidthUsage;
  incoming_bitrate : option Z;
  noise_var : spec_float
}.

Class AimdRateControlOps (RC : Type) := {
  ValidEstimate : RC -> bool;
  LatestEstimate : RC -> Z;
  SetEstimate : RC -> Z -> Z -> RC;
  GetFeedbackInterval : RC -> Z;
  TimeToReduceFurther : RC -> Z -> Z -> bool;
  rc_Update : RC -> RateControlInput -> Z -> RC;
  UpdateBandwidthEstimate : RC -> Z -> RC * Z;
  SetRtt : RC -> Z -> RC;
  rc_SetMinBitrate : RC -> Z -> RC
}.

Class InterArrivalOps (IA : Type) := {
  (** [new InterArrival(timestamp_group_length_ticks, timestamp_to_ms_coeff,
      enable_burst_grouping)] *)
  InterArrival_new : Z -> spec_float -> bool -> IA;
  (** the result is [None] when the call returns [false], else the three
      values stored through the pointers *)
  ComputeDeltas : IA -> Z -> Z -> Z -> IA * option (Z * Z * Z)
}.

Class OveruseEstimatorOps (OE : Type) := {
  (** [new OveruseEstimator(OverUseDetectorOptions())] *)
  OveruseEstimator_new : OE;
  est_Update : OE -> Z -> spec_float -> Z -> BandwidthUsage -> OE;
  offset : OE -> spec_float;
  num_of_deltas : OE -> Z;
  var_noise : OE -> spec_float
}.

Class OveruseDetectorOps (OD : Type) := {
  Detect : OD -> spec_float -> spec_float -> Z -> Z -> OD;
  State : OD -> BandwidthUsage
}.

Class RateStatisticsOps (RS : Type) := {
  rate_Update : RS -> Z -> Z -> RS;
  Rate : RS -> Z -> RS * option Z
}.


(** ** The coordinator's state

    [inter_arrival_] and [estimator_] are [unique_ptr]s, null from
    construction until the first [TimeoutStreams] call assigns them, which
    comes before their first use; the record holds the pointees. *)

Record DelayBasedBwe (IA OE OD RS RC : Type) := mkBwe {
  inter_arrival_ : IA;
  estimator_ : OE;
  detector_ : OD;
  incoming_bitrate_ : RS;
  remote_rate_ : RC;
  probes_ : list Probe;
  total_probes_received_ : Z;
  first_packet_time_ms_ : Z;
  last_update_ms_ : Z;
  ssrcs_ : gmap Z Z
}.

Arguments mkBwe {IA OE OD RS RC}.
Arguments inter_arrival_ {IA OE OD RS RC}.
Arguments estimator_ {IA OE OD RS RC}.
Arguments detector_ {IA OE OD RS RC}.
Arguments incoming_bitrate_ {IA OE OD RS RC}.
Arguments remote_rate_ {IA OE OD RS RC}.
Arguments probes_ {IA OE OD RS RC}.
Arguments total_probes_received_ {IA OE OD RS RC}.
Arguments first_packet_time_ms_ {IA OE OD RS RC}.
Arguments last_update_ms_ {IA OE OD RS RC}.
Arguments ssrcs_ {IA OE OD RS RC}.

(** What an operation makes visible outside the object: the warnings it
    logs and the calls of the observer.  The [LS_INFO] lines, which print
    the measured deltas and bitrates, have no effect on the state and are
    left out. *)
Inductive Event :=
| LogWarning (text : string)
| OnReceiveBitrateChanged (ssrcs : list Z) (bitrate_bps : Z).

Inductive ProbeResult := kBitrateUpdated | kNoUpdate.

Global Instance ProbeResult_eq_dec : EqDecision ProbeResult.
Proof. solve_decision. Defined.

(** [Keys(map)]: the keys in the order of the iteration of [std::map],
    that is ascending. *)
Definition Keys (m : gmap Z Z) : list Z :=
  merge_sort Z.le (map fst (map_to_list m)).

(** [PacketInfo], the fields read by [IncomingPacketFeedbackVector]. *)
Record PacketInfo := mkPacketInfo {
  pi_arrival_time_ms : Z;
  pi_send_time_ms : Z;
  pi_payload_size : Z;
  pi_probe_cluster_id : Z
}.

Definition missing_abs_send_time_warning : string :=
  "RemoteBitrateEstimatorAbsSendTime: Incoming packet " ++
  "is missing absolute send time extension!".

Section Coordinator.
Context {IA OE OD RS RC : Type}.
Context `{!InterArrivalOps IA, !OveruseEstimatorOps OE,
          !OveruseDetectorOps OD, !RateStatisticsOps RS,
          !AimdRateControlOps RC}.

Abbreviation Bwe := (DelayBasedBwe IA OE OD RS RC).

Definition set_probes (b : Bwe) (ps : list Probe) : Bwe :=
  mkBwe (inter_arrival_ b) (estimator_ b) (detector_ b)
        (incoming_bitrate_ b) (remote_rate_ b) ps
        (total_probes_received_ b) (first_packet_time_ms_ b)
        (last_update_ms_ b) (ssrcs_ b).

Definition set_remote_rate (b : Bwe) (rc : RC) : Bwe :=
  mkBwe (inter_arrival_ b) (estimator_ b) (detector_ b)
        (incoming_bitrate_ b) rc (probes_ b)
        (total_probes_received_ b) (first_packet_time_ms_ b)
        (last_update_ms_ b) (ssrcs_ b).

Definition set_incoming_bitrate (b : Bwe) (rs : RS) : Bwe :=
  mkBwe (inter_arrival_ b) (estimator_ b) (detector_ b)
        rs (remote_rate_ b) (probes_ b)
        (total_probes_received_ b) (first_packet_time_ms_ b)
        (last_update_ms_ b) (ssrcs_ b).

Definition set_ssrcs (b : Bwe) (m : gmap Z Z) : Bwe :=
  mkBwe (inter_arrival_ b) (estimator_ b) (detector_ b)
        (incoming_bitrate_ b) (remote_rate_ b) (probes_ b)
        (total_probes_received_ b) (first_packet_time_ms_ b)
        (last_update_ms_ b) m.

Definition set_filters (b : Bwe) (ia : IA) (oe : OE) (od : OD) : Bwe :=
  mkBwe ia oe od
        (incoming_bitrate_ b) (remote_rate_ b) (probes_ b)
        (total_probes_received_ b) (first_packet_time_ms_ b)
        (last_update_ms_ b) (ssrcs_ b).

Definition set_first_packet_time_ms (b : Bwe) (t : Z) : Bwe :=
  mkBwe (inter_arrival_ b) (estimator_ b) (detector_ b)
        (incoming_bitrate_ b) (remote_rate_ b) (probes_ b)
        (total_probes_received_ b) t
        (last_update_ms_ b) (ssrcs_ b).

Definition set_last_update_ms (b : Bwe) (t : Z) : Bwe :=
  mkBwe (inter_arrival_ b) (estimator_ b) (detector_ b)
        (incoming_bitrate_ b) (remote_rate_ b) (probes_ b)
        (total_probes_received_ b) (first_packet_time_ms_ b)
        t (ssrcs_ b).

(** [probes_.push_back(...); ++total_probes_received_] *)
Definition push_probe (b : Bwe) (p : Probe) : Bwe :=
  mkBwe (inter_arrival_ b) (estimator_ b) (detector_ b)
        (incoming_bitrate_ b) (remote_rate_ b) (probes_ b ++ [p])
        (u64 (total_probes_received_ b + 1)) (first_packet_time_ms_ b)
        (last_update_ms_ b) (ssrcs_ b).

Definition IsBitrateImproving (b : Bwe) (new_bitrate_bps : Z) : bool :=
  let initial_probe :=
    negb (ValidEstimate (remote_rate_ b)) && (0 <? new_bitrate_bps) in
  let bitrate_above_estimate :=
    ValidEstimate (remote_rate_ b) &&
    (s32 (LatestEstimate (remote_rate_ b)) <? new_bitrate_bps) in
  initial_probe || bitrate_above_estimate.

(** The tail of [ProcessClusters], reached when no probe updated the
    estimate. *)
Definition finish_probing (b : Bwe) (clusters : list Cluster)
  : Bwe * ProbeResult :=
  (if kExpectedNumberOfProbes <=? Z.of_nat (length clusters)
   then set_probes b [] else b,
   kNoUpdate).

Definition ProcessClusters (b : Bwe) (now_ms : Z) : Bwe * ProbeResult :=
  let clusters := ComputeClusters [] (probes_ b) in
  match clusters with
  | [] =>
      (if kMaxProbePackets <=? Z.of_nat (length (probes_ b))
       then set_probes b (tail (probes_ b)) else b,
       kNoUpdate)
  | _ :: _ =>
      match FindBestProbe clusters with
      | Some best_it =>
          let probe_bitrate_bps :=
            GetSendBitrateBps best_it `min` GetRecvBitrateBps best_it in
          if IsBitrateImproving b probe_bitrate_bps then
            (set_remote_rate b
               (SetEstimate (remote_rate_ b) probe_bitrate_bps now_ms),
             kBitrateUpdated)
          else finish_probing b clusters
      | None => finish_probing b clusters
      end
  end.

Definition TimeoutStreams (b : Bwe) (now_ms : Z) : Bwe :=
  let live :=
    filter (fun kv : Z * Z => ¬ (kStreamTimeOutMs < now_ms - kv.2))
           (ssrcs_ b) in
  let b1 := set_ssrcs b live in
  if decide (live = ∅) then
    set_filters b1
      (InterArrival_new
         ((kTimestampGroupLengthMs ≪ kInterArrivalShift) `quot` 1000)
         kTimestampToMs true)
      OveruseEstimator_new
      (detector_ b1)
  else b1.

Definition IncomingPacketInfo (b0 : Bwe)
    (arrival_time_ms send_time_24bits payload_size ssrc probe_cluster_id : Z)
  : Bwe * list Event :=
  let timestamp := u32 (send_time_24bits ≪ kAbsSendTimeInterArrivalUpshift) in
  let send_time_ms :=
    float_to_int (F64.mul (F64.of_Z timestamp) kTimestampToMs) in
  let now_ms := arrival_time_ms in
  let b1 :=
    set_incoming_bitrate b0
      (rate_Update (incoming_bitrate_ b0) payload_size now_ms) in
  let b2 :=
    if first_packet_time_ms_ b1 =? -1
    then set_first_packet_time_ms b1 arrival_time_ms else b1 in
  let b3 := TimeoutStreams b2 now_ms in
  let b4 := set_ssrcs b3 (<[ssrc := now_ms]> (ssrcs_ b3)) in
  let '(b5, update_estimate1) :=
    if negb (probe_cluster_id =? kNotAProbe) &&
       (kMinProbePacketSize <? payload_size) &&
       (negb (ValidEstimate (remote_rate_ b4)) ||
        (now_ms - first_packet_time_ms_ b4 <? kInitialProbingIntervalMs))
    then
      let bp :=
        push_probe b4
          (mkProbe send_time_ms arrival_time_ms payload_size
                   probe_cluster_id) in
      let '(bq, r) := ProcessClusters bp now_ms in
      (bq, bool_decide (r = kBitrateUpdated))
    else (b4, false) in
  let '(ia, deltas) :=
    ComputeDeltas (inter_arrival_ b5) timestamp arrival_time_ms
                  payload_size in
  let b6 :=
    match deltas with
    | Some (ts_delta, t_delta, size_delta) =>
        let ts_delta_ms :=
          F64.div (F64.mul (F64.of_Z 1000) (F64.of_Z ts_delta))
                  (F64.of_Z (1 ≪ kInterArrivalShift)) in
        let oe :=
          est_Update (estimator_ b5) t_delta ts_delta_ms size_delta
                     (State (detector_ b5)) in
        let od :=
          Detect (detector_ b5) (offset oe) ts_delta_ms (num_of_deltas oe)
                 arrival_time_ms in
        set_filters b5 ia oe od
    | None => set_filters b5 ia (estimator_ b5) (detector_ b5)
    end in
  let '(b7, update_estimate2) :=
    if update_estimate1 then (b6, true)
    else if (last_update_ms_ b6 =? -1) ||
            (GetFeedbackInterval (remote_rate_ b6)
               <? now_ms - last_update_ms_ b6)
    then (b6, true)
    else if bool_decide (State (detector_ b6) = kBwOverusing) then
      let '(rs, incoming_rate) := Rate (incoming_bitrate_ b6) now_ms in
      (set_incoming_bitrate b6 rs,
       match incoming_rate with
       | Some r => TimeToReduceFurther (remote_rate_ b6) now_ms r
       | None => false
       end)
    else (b6, false) in
  if update_estimate2 then
    let '(rs, incoming_rate) := Rate (incoming_bitrate_ b7) now_ms in
    let input :=
      mkRateControlInput (State (detector_ b7)) incoming_rate
                         (var_noise (estimator_ b7)) in
    let rc1 := rc_Update (remote_rate_ b7) input now_ms in
    let '(rc2, target_bitrate_bps) := UpdateBandwidthEstimate rc1 now_ms in
    let b8 := set_remote_rate (set_incoming_bitrate b7 rs) rc2 in
    if ValidEstimate rc2 then
      (set_last_update_ms b8 now_ms,
       [OnReceiveBitrateChanged (Keys (ssrcs_ b8)) target_bitrate_bps])
    else (b8, [])
  else (b7, []).

(** The two overloads of [IncomingPacket]; the first is the second at
    [PacketInfo::kNotAProbe]. *)
Definition IncomingPacket_probe (b : Bwe) (arrival_time_ms payload_size : Z)
    (header : RTPHeader) (probe_cluster_id : Z) : Bwe * list Event :=
  if negb (hasAbsoluteSendTime (extension header)) then
    (b, [LogWarning missing_abs_send_time_warning])
  else
    IncomingPacketInfo b arrival_time_ms (absoluteSendTime (extension header))
                       payload_size (ssrc header) probe_cluster_id.

Definition IncomingPacket (b : Bwe) (arrival_time_ms payload_size : Z)
    (header : RTPHeader) : Bwe * list Event :=
  if negb (hasAbsoluteSendTime (extension header)) then
    (b, [LogWarning missing_abs_send_time_warning])
  else
    IncomingPacketInfo b arrival_time_ms (absoluteSendTime (extension header))
                       payload_size (ssrc header) kNotAProbe.

Definition IncomingPacketFeedbackVector (b : Bwe)
    (packet_feedback_vector : list PacketInfo) : Bwe * list Event :=
  fold_left
    (fun (acc : Bwe * list Event) packet_info =>
       let '(b', evs) :=
         IncomingPacketInfo acc.1 (pi_arrival_time_ms packet_info)
           (ConvertMsTo24Bits (pi_send_time_ms packet_info))
           (pi_payload_size packet_info) 0
           (pi_probe_cluster_id packet_info) in
       (b', acc.2 ++ evs))
    packet_feedback_vector (b, []).

Definition OnRttUpdate (b : Bwe) (avg_rtt_ms max_rtt_ms : Z) : Bwe :=
  set_remote_rate b (SetRtt (remote_rate_ b) avg_rtt_ms).

Definition RemoveStream (b : Bwe) (ssrc : Z) : Bwe :=
  set_ssrcs b (delete ssrc (ssrcs_ b)).

(** [LatestEstimate] is a [const] member: it returns no state.  [None]
    is the result [false], which leaves both out-parameters untouched. *)
Definition Bwe_LatestEstimate (b : Bwe) : option (list Z * Z) :=
  if negb (ValidEstimate (remote_rate_ b)) then None
  else
    Some (Keys (ssrcs_ b),
          if decide (ssrcs_ b = ∅) then 0
          else LatestEstimate (remote_rate_ b)).

Definition SetMinBitrate (b : Bwe) (min_bitrate_bps : Z) : Bwe :=
  set_remote_rate b (rc_SetMinBitrate (remote_rate_ b) min_bitrate_bps).

(** The state [IncomingPacketInfo] has reached when it tests whether the
    packet is a probe: the rate meter fed, the time of the first packet
    recorded, the silent streams timed out, the stream of the packet
    entered. *)
Definition register_packet (b0 : Bwe) (arrival_time_ms payload_size ssrc : Z)
  : Bwe :=
  let b1 :=
    set_incoming_bitrate b0
      (rate_Update (incoming_bitrate_ b0) payload_size arrival_time_ms) in
  let b2 :=
    if first_packet_time_ms_ b1 =? -1
    then set_first_packet_time_ms b1 arrival_time_ms else b1 in
  let b3 := TimeoutStreams b2 arrival_time_ms in
  set_ssrcs b3 (<[ssrc := arrival_time_ms]> (ssrcs_ b3)).

(** The test that routes a packet to the probe analyser. *)
Definition is_probe (b : Bwe) (now_ms payload_size probe_cluster_id : Z)
  : bool :=
  negb (probe_cluster_id =? kNotAProbe) &&
  (kMinProbePacketSize <? payload_size) &&
  (negb (ValidEstimate (remote_rate_ b)) ||
   (now_ms - first_packet_time_ms_ b <? kInitialProbingIntervalMs)).

(** [send_time_ms] as [IncomingPacketInfo] derives it from the 24 bits. *)
Definition send_time_ms_of (send_time_24bits : Z) : Z :=
  float_to_int
    (F64.mul
       (F64.of_Z (u32 (send_time_24bits ≪ kAbsSendTimeInterArrivalUpshift)))
       kTimestampToMs).

(** The ways a packet reaches the estimator. *)
Inductive Ingress :=
| Packet (arrival_time_ms payload_size : Z) (header : RTPHeader)
| ProbePacket (arrival_time_ms payload_size : Z) (header : RTPHeader)
              (probe_cluster_id : Z)
| FeedbackVector (packet_feedback_vector : list PacketInfo).

Definition deliver (b : Bwe) (i : Ingress) : Bwe * list Event :=
  match i with
  | Packet t n h => IncomingPacket b t n h
  | ProbePacket t n h id => IncomingPacket_probe b t n h id
  | FeedbackVector v => IncomingPacketFeedbackVector b v
  end.

(** A sequence of calls, with the events in the order they occur. *)
Definition run (b : Bwe) (calls : list Ingress) : Bwe * list Event :=
  fold_left
    (fun (acc : Bwe * list Event) i =>
       let '(b', evs) := deliver acc.1 i in (b', acc.2 ++ evs))
    calls (b, []).

(** What holds of [probes_] between calls: fewer than [kMaxProbePackets]
    entries, unless the entries already form a cluster. *)
Definition probes_capped (b : Bwe) : Prop :=
  (length (probes_ b) <= 14)%nat \/ ComputeClusters [] (probes_ b) <> [].

End Coordinator.

(** ** Scenario S3 *)

Definition S3_probe (i : Z) : Probe := mkProbe (5 * i) (6 * i) 1200 0.
Definition S3_probes (n : nat) : list Probe :=
  map (fun i => S3_probe (Z.of_nat i)) (seq 0 n).


(** ** Vocabulary of the statements about [FindBestProbe] *)

(** A cluster that can be selected: it passes the zero-mean guard and the
    acceptance test. *)
Definition eligible (c : Cluster) : bool := negb (zero_mean c) && probe_ok c.

(** A cluster that takes the [else] branch, where the loop [break]s. *)
Definition ends_scan (c : Cluster) : bool :=
  negb (zero_mean c) && negb (probe_ok c).

(** The clusters the loop visits: those before the first [break]. *)
Fixpoint scanned (clusters : list Cluster) : list Cluster :=
  match clusters with
  | [] => []
  | c :: rest => if ends_scan c then [] else c :: scanned rest
  end.

(** The selection in the words of C3: a cluster qualifies iff it passes the
    three comparisons, the qualifying cluster of highest bitrate is kept, and
    the first cluster that does not qualify ends the scan. *)
Fixpoint FindBestProbe_claimed_from (best : option Cluster)
    (clusters : list Cluster) : option Cluster :=
  match clusters with
  | [] => best
  | c :: rest =>
      if probe_ok c then
        FindBestProbe_claimed_from
          (match best with
           | Some b =>
               if probe_bitrate_bps b <? probe_bitrate_bps c
               then Some c else Some b
           | None => Some c
           end) rest
      else best
  end.

Definition FindBestProbe_claimed (clusters : list Cluster) : option Cluster :=
  FindBestProbe_claimed_from None clusters.

(** Five probes of cluster 0 sent within the same millisecond and received
    3 ms apart, then four probes of cluster 1 sent 5 ms and received 6 ms
    apart. *)
Definition burst_then_paced : list Probe :=
  [ mkProbe 0 0 1200 0; mkProbe 0 3 1200 0; mkProbe 0 6 1200 0;
    mkProbe 0 9 1200 0; mkProbe 0 12 1200 0;
    mkProbe 5 18 1200 1; mkProbe 10 24 1200 1; mkProbe 15 30 1200 1;
    mkProbe 20 36 1200 1 ].

(** ** Collaborators for closed instances *)

(** A rate controller for the closed instances.  [AimdRateControl] is
    defined outside these sources and every statement about the coordinator
    is proved for all implementations of its interface; where a statement is
    evaluated on concrete packets, this implementation is the input.  It
    keeps the bitrate it was last seeded with, never below its minimum, and
    an update leaves it as it is.  It is not the controller of section 4.D
    of the spec, whose state leaves Hold on an update under a normal
    detector and whose bitrate then grows with the time elapsed; at the
    instant of a seeding, where no time has elapsed, both report the
    seed. *)
Record HeldRate := mkHeld {
  held_bitrate_bps : Z;
  held_min_bitrate_bps : Z;
  held_valid : bool
}.

Global Instance HeldRate_ops : AimdRateControlOps HeldRate := {|
  ValidEstimate := held_valid;
  LatestEstimate := held_bitrate_bps;
  SetEstimate r bitrate _ :=
    mkHeld (u32 bitrate `max` held_min_bitrate_bps r)
           (held_min_bitrate_bps r) true;
  GetFeedbackInterval _ := 1000;
  TimeToReduceFurther _ _ _ := false;
  rc_Update r _ _ := r;
  UpdateBandwidthEstimate r _ := (r, held_bitrate_bps r);
  SetRtt r _ := r;
  rc_SetMinBitrate r m :=
    mkHeld (held_bitrate_bps r `max` m) m (held_valid r)
|}.

(** Filters that never complete a group and a meter that never has a rate:
    the collaborators before the first timestamp group closes. *)
Global Instance idle_inter_arrival : InterArrivalOps unit := {|
  InterArrival_new _ _ _ := ();
  ComputeDeltas _ _ _ _ := ((), None)
|}.

Global Instance idle_estimator : OveruseEstimatorOps unit := {|
  OveruseEstimator_new := ();
  est_Update _ _ _ _ _ := ();
  offset _ := S754_zero false;
  num_of_deltas _ := 0;
  var_noise _ := S754_zero false
|}.

Global Instance idle_detector : OveruseDetectorOps unit := {|
  Detect _ _ _ _ _ := ();
  State _ := kBwNormal
|}.

Global Instance idle_rate : RateStatisticsOps unit := {|
  rate_Update _ _ _ := ();
  Rate _ _ := ((), None)
|}.

Abbreviation HeldBwe := (DelayBasedBwe unit unit unit unit HeldRate).

(** The estimator before its first packet, with a rate controller that has
    no estimate. *)
Definition fresh : HeldBwe :=
  mkBwe () () () () (mkHeld 0 0 false) [] 0 (-1) (-1) ∅.

(** Scenario S4 as a feedback vector: probes of cluster 0 sent 5 ms and
    received 12 ms apart. *)
Definition S4_feedback (n : nat) : list PacketInfo :=
  map (fun i => mkPacketInfo (12 * Z.of_nat i) (5 * Z.of_nat i) 1200 0)
      (seq 0 n).

(** The loop of [ComputeClusters] has produced a cluster, or is about to. *)
Definition emitting (s : ClusterScan) : Prop :=
  scan_clusters s <> [] \/ kMinClusterSize <= count (current s).

(** ** Scenario S3 on the wire

    Absolute send times whose millisecond values are 0, 5, 10, 15 and 20,
    in packets of stream 1 received 6 ms apart. *)
Definition S3_abs_send_time (i : nat) : Z :=
  nth i [0; 1311; 2622; 3933; 5243] 0.

Definition S3_header (i : nat) : RTPHeader :=
  mkRTPHeader false 96 (Z.of_nat i) 0 1 0 [] 0 20
    (mkExtension false 0 true (S3_abs_send_time i) false 0 false false 0 false
       kVideoRotation_0 (mkPlayoutDelay (-1) (-1))
       (mkFrameMarks 0 0 0 0 0 0 0 0)).

Definition S3_packets (n : nat) : list Ingress :=
  map (fun i => ProbePacket (6 * Z.of_nat i) 1200 (S3_header i) 0) (seq 0 n).


(** Probes of 201 bytes received 2000 s apart: a receive bitrate below
    1 bps. *)
Definition slow_probes : list Probe :=
  map (fun i => mkProbe (5 * Z.of_nat i) (2000000 * Z.of_nat i) 201 0)
      (seq 0 5).

Definition slow_bwe : HeldBwe :=
  mkBwe () () () () (mkHeld 0 0 false) slow_probes 5 0 (-1) {[ 1 := 8000000 ]}.

(** A state with a valid estimate of 0 bps and one live stream. *)
Definition zero_rate_bwe : HeldBwe :=
  mkBwe () () () () (mkHeld 0 0 true) [] 0 0 0 {[ 1 := 0 ]}.

(** Five probes of cluster 0 sent 5 ms and received 12 ms apart, as in
    scenario S4, then four probes of cluster 1 received 6 ms apart. *)
Definition congested_then_paced : list Probe :=
  [ mkProbe 0 0 1200 0; mkProbe 5 12 1200 0; mkProbe 10 24 1200 0;
    mkProbe 15 36 1200 0; mkProbe 20 48 1200 0;
    mkProbe 25 54 1200 1; mkProbe 30 60 1200 1; mkProbe 35 66 1200 1;
    mkProbe 40 72 1200 1 ].

(** Stream 1 last seen at 0 ms and stream 2 at 1500 ms. *)
Definition two_streams_bwe : HeldBwe :=
  mkBwe () () () () (mkHeld 0 0 false) [] 0 0 (-1) {[ 1 := 0; 2 := 1500 ]}.

(** ** Well-formed probes *)

(** A finite value with the sign bit set is the only one that converts to
    a negative integer. *)
Definition not_negative (x : spec_float) : Prop :=
  match x with
  | S754_finite true _ _ => False
  | _ => True
  end.

(** What [IncomingPacketInfo] ensures of every probe it stores. *)
Definition well_formed_probe (p : Probe) : Prop :=
  0 <= send_time_ms p /\ cluster_id p <> kNotAProbe.

(** ** Vocabulary of the further properties *)

(** The packet types for which [RTCP] answers [true]. *)
Definition rtcp_packet_type (pt : Z) : Prop :=
  pt = 192 \/ pt = 195 \/ 200 <= pt <= 207.

(** The values that the one-byte elements can decode to. *)
Definition playout_value (ms : Z) : Prop :=
  ms = -1 \/ (0 <= ms <= 40950 /\ ms `mod` 10 = 0).

Definition extension_in_range (e : RTPHeaderExtension) : Prop :=
  0 <= absoluteSendTime e < 2 ^ 24 /\
  - 2 ^ 23 <= transmissionTimeOffset e < 2 ^ 23 /\
  0 <= transportSequenceNumber e < 2 ^ 16 /\
  0 <= audioLevel e < 128 /\
  playout_value (min_ms (playout_delay e)) /\
  playout_value (max_ms (playout_delay e)).

(** The fields of the first byte of an RTP packet and the two lengths that
    [Parse] derives from the packet. *)
Definition rtp_P (data : list byte) : bool :=
  negb (Z.land (at_ data 0) 0x20 =? 0).
Definition rtp_X (data : list byte) : bool :=
  negb (Z.land (at_ data 0) 0x10 =? 0).
Definition rtp_CC (data : list byte) : Z := Z.land (at_ data 0) 0x0f.

Definition rtp_padding (data : list byte) : Z :=
  if rtp_P data then at_ data (Nat.pred (length data)) else 0.

Definition rtp_extension_block (data : list byte) : list byte :=
  drop (Z.to_nat (12 + rtp_CC data * 4)) data.

Definition rtp_header_length (data : list byte) : Z :=
  12 + rtp_CC data * 4 +
  (if rtp_X data
   then 4 + ReadBigEndian_u16 (drop 2 (rtp_extension_block data)) * 4
   else 0).

(** The number of deltas held by the loop of [ComputeClusters]: those of
    the clusters emitted and those of the cluster under construction. *)
Definition deltas_held (s : ClusterScan) : Z :=
  foldr (fun c n => count c + n) 0 (scan_clusters s) + count (current s).

(** ** Vocabulary of the statement about cluster boundaries *)

(** The test that increments [num_above_min_delta], for the delta between
    [prev] and [it]. *)
Definition above_min_delta (prev it : Probe) : bool :=
  (1 <=? s32 (send_time_ms it - send_time_ms prev)) &&
  (1 <=? s32 (recv_time_ms it - recv_time_ms prev)).

Definition count_above_min_delta (c : Cluster) (prev it : Probe) : Cluster :=
  if above_min_delta prev it
  then mkCluster (send_mean_ms c) (recv_mean_ms c) (mean_size c) (count c)
                 (num_above_min_delta c + 1)
  else c.

(** The four statements that add the delta between [prev] and [it] to a
    cluster: the two deltas to the sums of the means, the payload size of
    [it] to the sum of the sizes, and one to the count. *)
Definition add_delta (c : Cluster) (prev it : Probe) : Cluster :=
  mkCluster
    (F32.add (send_mean_ms c)
             (F32.of_Z (s32 (send_time_ms it - send_time_ms prev))))
    (F32.add (recv_mean_ms c)
             (F32.of_Z (s32 (recv_time_ms it - recv_time_ms prev))))
    (u64 (mean_size c + payload_size it))
    (count c + 1)
    (num_above_min_delta c).

(** The cluster after the probes [its], which follow [prev] and are of
    its cluster. *)
Fixpoint add_deltas (c : Cluster) (prev : Probe) (its : list Probe) : Cluster :=
  match its with
  | [] => c
  | it :: rest =>
      add_deltas (add_delta (count_above_min_delta c prev it) prev it) it rest
  end.

(** Four probes of cluster 0 and four probes of cluster 1, all sent 5 ms
    and received 6 ms apart. *)
Definition two_clusters_of_four : list PacketInfo :=
  map (fun i => mkPacketInfo (6 * Z.of_nat i) (5 * Z.of_nat i) 1200
                             (Z.of_nat (i / 4)))
      (seq 0 8).

(** ** States for the statement about clusters of bitrate 0 *)

(** Five probes of 201 bytes sent and received 2000 s apart: a cluster
    that passes the test of [FindBestProbe], with a bitrate below 1 bps. *)
Definition crawling_probes : list Probe :=
  map (fun i => mkProbe (2000000 * Z.of_nat i) (2000000 * Z.of_nat i) 201 0)
      (seq 0 5).



(** A cluster whose bitrate, 8 Gbps, does not fit an [int]. *)
Definition eight_gbps_cluster : Cluster :=
  mkCluster (F32.of_Z 1) (F32.of_Z 1) 1000000 4 4.

(** ** Closed instances for the further properties *)

(** A header whose CSRC array has its 15 entries and whose transport
    sequence number is set, as a previous packet may have left it. *)
Definition used_header : RTPHeader :=
  mkRTPHeader false 0 0 0 0 0 (repeat 0 15) 0 0
    (mkExtension false 0 true 77 true 1234 false false 0 false
       kVideoRotation_0 (mkPlayoutDelay (-1) (-1))
       (mkFrameMarks 0 0 0 0 0 0 0 0)).

(** [plain_packet] with one CSRC, 0x0a0b0c0d. *)
Definition csrc_packet : list byte :=
  [x81; x60; x00; x07; x00; x00; x03; xe8; x01; x02; x03; x04;
   x0a; x0b; x0c; x0d; xaa; xbb].

(** The first 14 bytes of [abs_send_time_packet]: the extension bit is set
    and the extension is cut after its profile word. *)
Definition truncated_packet : list byte :=
  [x90; x60; x00; x07; x00; x00; x03; xe8; x01; x02; x03; x04; xbe; xde].

(** The parser with the one-byte profile 0xBEDE and the map of ids 1
    to 3. *)
Definition Parse_BEDE (data : list byte) (header : RTPHeader)
  : bool * RTPHeader * list ParseLog :=
  Parse 0xBEDE kRtpExtensionNone cvo_rotation data header (Some GetType_123).

(** * Proofs *)

Example S3_four : ComputeClusters [] (S3_probes 4) = [].
Proof. vm_compute. reflexivity. Qed.

Example S3_five :
  map (fun c => (count c, mean_size c, probe_bitrate_bps c, probe_ok c))
      (ComputeClusters [] (S3_probes 5)) = [(4, 1200, 1600000, true)].
Proof. vm_compute. reflexivity. Qed.

(** * Properties of the one-byte extension parser *)

Section OneByteExtensionFacts.
Variable kInvalidType : RTPExtensionType.
Variable ConvertCVO : Z -> VideoRotation.

Abbreviation loop := (ParseOneByteExtensionHeader_loop kInvalidType ConvertCVO).

(** The loop terminates within the fuel it is started with: any larger
    fuel gives the same result, so the parser is a total function of the
    bytes. *)
Lemma ParseOneByteExtensionHeader_loop_fuel GetType :
  forall (fuel : nat) (ptr : list byte) (e : RTPHeaderExtension),
    (length ptr <= fuel)%nat ->
    loop fuel GetType e ptr = loop (length ptr) GetType e ptr.
Proof.
  induction fuel as [fuel IH] using lt_wf_ind.
  intros ptr e Hlen.
  destruct ptr as [|b ptr]; [by destruct fuel|].
  destruct fuel as [|fuel]; [simpl in Hlen; lia|].
  simpl in Hlen.
  assert (Hdrop : forall n, (length (drop n ptr) <= length ptr)%nat)
    by (intros n; rewrite length_drop; lia).
  cbn [ParseOneByteExtensionHeader_loop length].
  set (len := Z.land (byte_val b) 15).
  pose proof (Hdrop (Z.to_nat (len + 1))) as Hd.
  destruct (_ =? 0); [apply IH; lia|].
  destruct (_ =? 15); [done|].
  destruct (_ <? _); [done|].
  destruct (decide _).
  - rewrite (IH fuel), (IH (length ptr)) by lia. done.
  - destruct (ParseElement _ _ _ _) as [e'|[w|]]; try done.
    rewrite (IH fuel), (IH (length ptr)) by lia. done.
Qed.

Lemma ParseElement_accepted type len ptr e :
  accepted_len type len = true ->
  exists e', ParseElement ConvertCVO type len ptr e = inl e'.
Proof.
  destruct type; cbn [accepted_len ParseElement]; intros Hlen;
    try discriminate; rewrite ?Hlen; cbn [negb]; eauto.
  apply orb_true_iff in Hlen as [->| ->]; cbn [negb andb]; eauto.
  rewrite andb_false_r. eauto.
Qed.


End OneByteExtensionFacts.

Example parse_abs_send_time :
  ParseOneByteExtensionHeader kRtpExtensionNone cvo_rotation header_init
    (Some GetType_123) [x22; x01; x02; x03]
  = (with_extension header_init
       (mkExtension false 0 true 0x010203 false 0 false false 0 false
          kVideoRotation_0 (mkPlayoutDelay (-1) (-1))
          (mkFrameMarks 0 0 0 0 0 0 0 0)), []).
Proof. vm_compute. reflexivity. Qed.

(** ** C7 *)




(** ** C8 *)

(** C8: the frame-marking case lets through the length fields 1 and 3 and
    no other; the length fields 0 and 2 of the two layouts drawn in the
    comment of that case are rejected with the warning of the case. *)
Theorem C8_frame_marking_length_check :
  forall (cvo : Z -> VideoRotation) (len : Z) (ptr : list byte)
         (e : RTPHeaderExtension),
    ((exists e', ParseElement cvo kRtpExtensionFrameMarking len ptr e = inl e')
     <-> len = 1 \/ len = 3) /\
    ParseElement cvo kRtpExtensionFrameMarking 0 ptr e
    = inr (Some (Warning_Len "Incorrect playout delay len: " 0)) /\
    ParseElement cvo kRtpExtensionFrameMarking 2 ptr e
    = inr (Some (Warning_Len "Incorrect playout delay len: " 2)).
Proof.
  intros cvo len ptr e. split; [|done].
  split.
  - intros [e' He']. cbn [ParseElement] in He'.
    destruct (Z.eqb_spec len 1), (Z.eqb_spec len 3); auto; discriminate.
  - intros [->| ->]; cbn; eauto.
Qed.

(** The frame-marking element with length field 0 and one byte of data,
    and the same with length field 2 and three bytes: both end the parsing
    without setting any frame mark. *)
Example frame_marking_L0_L2_rejected :
  ParseOneByteExtensionHeader kRtpExtensionNone cvo_rotation header_init
    (Some GetType_123) [x30; xc0]
  = (header_init, [Warning_Len "Incorrect playout delay len: " 0]) /\
  ParseOneByteExtensionHeader kRtpExtensionNone cvo_rotation header_init
    (Some GetType_123) [x32; xc9; x05; x07]
  = (header_init, [Warning_Len "Incorrect playout delay len: " 2]).
Proof. split; vm_compute; reflexivity. Qed.

(** With length field 1 the parser reads the marks and steps over two
    bytes; with length field 3 it reads three bytes and steps over four. *)
Example frame_marking_L1_L3_accepted :
  frameMarks (extension
    (ParseOneByteExtensionHeader kRtpExtensionNone cvo_rotation header_init
       (Some GetType_123) [x31; xc0; x00]).1)
  = mkFrameMarks 0x80 0x40 0 0 0 0 0 0 /\
  frameMarks (extension
    (ParseOneByteExtensionHeader kRtpExtensionNone cvo_rotation header_init
       (Some GetType_123) [x33; xc9; x05; x07; x00]).1)
  = mkFrameMarks 0x80 0x40 0 0 0x08 1 5 7.
Proof. split; vm_compute; reflexivity. Qed.

(** * The probe analyser *)

(** ** C3 *)

Example burst_then_paced_clusters :
  map (fun c => (zero_mean c, probe_ok c, count c, num_above_min_delta c))
      (ComputeClusters [] burst_then_paced)
  = [(true, false, 4, 1); (false, true, 4, 3)].
Proof. vm_compute. reflexivity. Qed.

(** C3, as stated, fails: the first cluster of [burst_then_paced] does not
    qualify, yet the scan goes on and selects the second one. *)
Lemma C3_zero_mean_cluster_does_not_end_scan :
  FindBestProbe (ComputeClusters [] burst_then_paced)
  <> FindBestProbe_claimed (ComputeClusters [] burst_then_paced).
Proof. vm_compute. discriminate. Qed.

(** In [ProcessClusters] the divergence decides the result: the probe of
    the second cluster updates the bitrate. *)
Example burst_then_paced_updates :
  (ProcessClusters
     (mkBwe () () () () (mkHeld 0 0 false) burst_then_paced 9 0 (-1)
            {[ 1 := 36 ]}) 36).2
  = kBitrateUpdated.
Proof. vm_compute. reflexivity. Qed.

(** The [break]: a cluster with non-zero means that fails the test hides
    the cluster behind it, which would pass. *)
Example congested_then_paced_no_probe :
  map (fun c => (zero_mean c, probe_ok c))
      (ComputeClusters [] congested_then_paced)
  = [(false, false); (false, true)] /\
  FindBestProbe (ComputeClusters [] congested_then_paced) = None.
Proof. vm_compute. done. Qed.

Lemma FindBestProbe_from_scanned clusters :
  forall h best,
    FindBestProbe_from h best clusters
    = FindBestProbe_from h best (scanned clusters).
Proof.
  induction clusters as [|c rest IH]; intros h best; [done|].
  cbn [FindBestProbe_from scanned]. unfold ends_scan.
  destruct (zero_mean c) eqn:Hz; cbn [negb andb]; [by cbn; rewrite Hz|].
  destruct (probe_ok c) eqn:Hok; cbn [negb]; [|done].
  cbn [FindBestProbe_from]. rewrite Hz, Hok.
  by destruct (_ <? _).
Qed.

Lemma scanned_app_end pre c post :
  ends_scan c = true -> scanned (pre ++ c :: post) = scanned pre.
Proof.
  intros Hc. induction pre as [|x pre IH]; cbn [scanned app].
  - by rewrite Hc.
  - destruct (ends_scan x); by rewrite ?IH.
Qed.

(** The loop invariant: [H'] is the final value of
    [highest_probe_bitrate_bps]. *)
Lemma FindBestProbe_from_spec clusters :
  forall h best,
  exists H',
    h <= H' /\
    (forall x, x ∈ scanned clusters -> eligible x = true ->
               probe_bitrate_bps x <= H') /\
    ((FindBestProbe_from h best clusters = best /\ H' = h) \/
     (exists r, FindBestProbe_from h best clusters = Some r /\
                r ∈ scanned clusters /\ eligible r = true /\
                probe_bitrate_bps r = H' /\ h < H')).
Proof.
  induction clusters as [|c rest IH]; intros h best.
  { exists h. split; [lia|]. split; [|by left].
    intros x Hx. by apply elem_of_nil in Hx. }
  cbn [FindBestProbe_from scanned]. unfold ends_scan.
  destruct (zero_mean c) eqn:Hz; cbn [negb andb].
  - destruct (IH h best) as (H' & Hle & Hmax & Hres).
    exists H'. split; [done|]. split.
    + intros x Hx Hel. apply elem_of_cons in Hx as [->|Hx]; [|by apply Hmax].
      unfold eligible in Hel. by rewrite Hz in Hel.
    + destruct Hres as [?|(r & ? & ? & ?)]; [by left|right].
      exists r. split; [done|]. split; [by apply list_elem_of_further|done].
  - destruct (probe_ok c) eqn:Hok; cbn [negb].
    + destruct (Z.ltb_spec h (probe_bitrate_bps c)) as [Hlt|Hge].
      * destruct (IH (probe_bitrate_bps c) (Some c)) as (H' & Hle & Hmax & Hres).
        exists H'. split; [lia|]. split.
        { intros x Hx Hel. apply elem_of_cons in Hx as [->|Hx]; [done|].
          by apply Hmax. }
        right. destruct Hres as [[-> ->]|(r & ? & ? & ? & ? & ?)].
        { exists c. split; [done|]. split; [by apply list_elem_of_here|].
          unfold eligible. by rewrite Hz, Hok. }
        exists r. split; [done|]. split; [by apply list_elem_of_further|].
        split; [done|]. split; [done|lia].
      * destruct (IH h best) as (H' & Hle & Hmax & Hres).
        exists H'. split; [done|]. split.
        { intros x Hx Hel. apply elem_of_cons in Hx as [->|Hx]; [lia|].
          by apply Hmax. }
        destruct Hres as [?|(r & ? & ? & ?)]; [by left|right].
        exists r. split; [done|]. split; [by apply list_elem_of_further|done].
    + exists h. split; [lia|]. split; [|by left].
      intros x Hx. by apply elem_of_nil in Hx.
Qed.

Lemma float_to_int32_range x : - 2 ^ 31 <= float_to_int32 x < 2 ^ 31.
Proof.
  unfold float_to_int32, INT_MIN. destruct x as [| | |sg m e]; try lia.
  cbv zeta.
  destruct (Z.leb_spec (- 2 ^ 31) (float_to_int (S754_finite sg m e)));
    cbn [andb]; [|lia].
  destruct (Z.ltb_spec (float_to_int (S754_finite sg m e)) (2 ^ 31)); lia.
Qed.

(** C3 (amended): the scan visits the clusters in order up to the first one
    that has two non-zero means and fails the test of [num_above_min_delta]
    and of the two mean differences; no cluster from that one on has any
    influence.  A cluster with a zero mean is passed over: it is neither
    selected nor does it end the scan.  The bitrates compared are the [int]
    values of min(send_bps, recv_bps).  The result is a visited cluster that
    passes the guard and the test, has a strictly positive bitrate, and no
    visited cluster that passes both has a higher one; there is no result
    exactly when no such cluster has a positive bitrate. *)
Theorem C3_FindBestProbe_selection :
  forall clusters : list Cluster,
    (forall pre c post,
        clusters = pre ++ c :: post -> ends_scan c = true ->
        FindBestProbe clusters = FindBestProbe pre) /\
    (forall pre c post,
        clusters = pre ++ c :: post -> zero_mean c = true ->
        FindBestProbe clusters = FindBestProbe (pre ++ post)) /\
    match FindBestProbe clusters with
    | Some best =>
        best ∈ scanned clusters /\ eligible best = true /\
        0 < probe_bitrate_bps best /\
        forall x, x ∈ scanned clusters -> eligible x = true ->
                  probe_bitrate_bps x <= probe_bitrate_bps best
    | None =>
        forall x, x ∈ scanned clusters -> eligible x = true ->
                  probe_bitrate_bps x <= 0
    end /\
    (forall c, - 2 ^ 31 <= probe_bitrate_bps c < 2 ^ 31).
Proof.
  intros clusters. split; [|split; [|split]].
  - intros pre c post -> Hc. unfold FindBestProbe.
    rewrite FindBestProbe_from_scanned, scanned_app_end by done.
    by rewrite <- FindBestProbe_from_scanned.
  - intros pre c post -> Hz. unfold FindBestProbe.
    generalize 0 (@None Cluster).
    induction pre as [|x pre IH]; intros h best; cbn [app FindBestProbe_from].
    + by rewrite Hz.
    + repeat case_match; by rewrite ?IH.
  - unfold FindBestProbe.
    destruct (FindBestProbe_from_spec clusters 0 None)
      as (H' & Hle & Hmax & [[-> ->]|(r & -> & Hin & Hel & <- & Hpos)]); done.
  - intros c. unfold probe_bitrate_bps, GetSendBitrateBps, GetRecvBitrateBps,
      bitrate_bps.
    pose proof (float_to_int32_range
                  (F32.div (F32.of_Z (u64 (mean_size c * 8 * 1000)))
                           (send_mean_ms c))).
    pose proof (float_to_int32_range
                  (F32.div (F32.of_Z (u64 (mean_size c * 8 * 1000)))
                           (recv_mean_ms c))).
    lia.
Qed.

(** A cluster that passes the test and whose quotient, 8 Gbps, does not fit
    an [int] is not selected. *)
Example eight_gbps_cluster_not_selected :
  eligible eight_gbps_cluster = true /\
  probe_bitrate_bps eight_gbps_cluster = INT_MIN /\
  FindBestProbe [eight_gbps_cluster] = None.
Proof. vm_compute. done. Qed.

(** ** C9 *)

Lemma scan_step_prev s it :
  prev_send_time (scan_step s it) = send_time_ms it /\
  prev_recv_time (scan_step s it) = recv_time_ms it.
Proof. unfold scan_step. by destruct (0 <=? prev_send_time s). Qed.

Lemma scan_step_last s it :
  0 <= prev_send_time s \/
  (last_probe_cluster_id s = -1 /\ cluster_id it <> -1) ->
  last_probe_cluster_id (scan_step s it) = cluster_id it.
Proof.
  unfold scan_step. intros [Hprev|[Hlast Hid]].
  - by destruct (Z.leb_spec 0 (prev_send_time s)); [|lia].
  - rewrite Hlast. by destruct (0 <=? prev_send_time s).
Qed.

(** After a non-empty list of probes with non-negative send times, the
    loop remembers the times and the cluster of the last one. *)
Lemma scan_after_last clusters ps p :
  Forall (fun x => 0 <= send_time_ms x) (ps ++ [p]) ->
  cluster_id p <> -1 ->
  let s := fold_left scan_step (ps ++ [p]) (scan_init clusters) in
  prev_send_time s = send_time_ms p /\ prev_recv_time s = recv_time_ms p /\
  last_probe_cluster_id s = cluster_id p.
Proof.
  intros Hall Hid. cbn zeta. rewrite fold_left_app. cbn [fold_left].
  pose proof (scan_step_prev (fold_left scan_step ps (scan_init clusters)) p)
    as [-> ->].
  split; [done|]. split; [done|].
  apply scan_step_last.
  destruct ps as [|x ps _] using rev_ind; [by right|left].
  rewrite fold_left_app. cbn [fold_left].
  rewrite (proj1 (scan_step_prev _ x)).
  apply Forall_app in Hall as [Hall _].
  apply Forall_app in Hall as [_ Hx]. by inversion Hx.
Qed.

(** At a change of cluster id the loop starts from [Cluster()] and adds
    the delta between the two probes. *)
Lemma scan_boundary_delta :
  forall (clusters : list Cluster) (ps : list Probe) (p q : Probe),
    Forall (fun x => 0 <= send_time_ms x) (ps ++ [p]) ->
    cluster_id p <> kNotAProbe ->
    cluster_id q <> cluster_id p ->
    current (fold_left scan_step (ps ++ [p; q]) (scan_init clusters))
    = {| send_mean_ms :=
           F32.add F32.zero
             (F32.of_Z (s32 (send_time_ms q - send_time_ms p)));
         recv_mean_ms :=
           F32.add F32.zero
             (F32.of_Z (s32 (recv_time_ms q - recv_time_ms p)));
         mean_size := u64 (payload_size q);
         count := 1;
         num_above_min_delta := 0 |}.
Proof.
  intros clusters ps p q Hall Hp Hq.
  replace (ps ++ [p; q]) with ((ps ++ [p]) ++ [q]) by by rewrite <- app_assoc.
  rewrite fold_left_app. cbn [fold_left].
  destruct (scan_after_last clusters ps p Hall Hp) as (Hs & Hr & Hl).
  cbv zeta in Hs, Hr, Hl.
  set (s := fold_left scan_step (ps ++ [p]) (scan_init clusters)) in *.
  assert (0 <= send_time_ms p) as Hp0.
  { apply Forall_app in Hall as [_ Hx]. by inversion Hx. }
  unfold scan_step. rewrite Hs, Hr, Hl.
  destruct (Z.leb_spec 0 (send_time_ms p)); [|lia].
  destruct (Z.eqb_spec (cluster_id p) (-1)); [done|].
  destruct (Z.eqb_spec (cluster_id q) (cluster_id p)); [done|].
  cbn. done.
Qed.

(** ** C2 *)

Lemma AddCluster_nonempty clusters c : AddCluster clusters c <> [].
Proof. unfold AddCluster. by destruct clusters. Qed.

Lemma scan_finish_nonempty s : scan_finish s <> [] <-> emitting s.
Proof.
  unfold scan_finish, emitting.
  destruct (Z.leb_spec kMinClusterSize (count (current s))).
  - split; [by right|]. intros _. apply AddCluster_nonempty.
  - split; [by left|]. intros [?|?]; [done|lia].
Qed.

(** Visiting one more probe never takes a cluster away. *)
Lemma emitting_step s it : emitting s -> emitting (scan_step s it).
Proof.
  unfold emitting, scan_step. intros Hs.
  destruct (0 <=? prev_send_time s); [|done]. cbn zeta.
  set (cur1 := if _ && _ then _ else current s).
  assert (count cur1 = count (current s)) as Hc
    by (subst cur1; by destruct (_ && _)).
  destruct (negb _) eqn:Hid; cbn [andb scan_clusters current count].
  - left. destruct (Z.leb_spec kMinClusterSize (count cur1)).
    + apply AddCluster_nonempty.
    + destruct Hs; [done|lia].
  - destruct Hs; [by left|right]. lia.
Qed.

Lemma ComputeClusters_snoc clusters ps p :
  ComputeClusters clusters (ps ++ [p])
  = scan_finish (scan_step (fold_left scan_step ps (scan_init clusters)) p).
Proof. unfold ComputeClusters. by rewrite fold_left_app. Qed.

Lemma ComputeClusters_nonempty_snoc clusters ps p :
  ComputeClusters clusters ps <> [] ->
  ComputeClusters clusters (ps ++ [p]) <> [].
Proof.
  rewrite ComputeClusters_snoc. unfold ComputeClusters.
  rewrite !scan_finish_nonempty. apply emitting_step.
Qed.

Section ProbeListBound.
Context {IA OE OD RS RC : Type}.
Context `{!InterArrivalOps IA, !OveruseEstimatorOps OE,
          !OveruseDetectorOps OD, !RateStatisticsOps RS,
          !AimdRateControlOps RC}.

Abbreviation Bwe := (DelayBasedBwe IA OE OD RS RC).

Lemma ProcessClusters_capped (b : Bwe) (p : Probe) (now_ms : Z) :
  probes_capped b -> probes_capped (ProcessClusters (push_probe b p) now_ms).1.
Proof.
  unfold probes_capped, ProcessClusters. cbn [push_probe probes_].
  intros Hb.
  destruct (ComputeClusters [] (probes_ b ++ [p])) as [|c cs] eqn:HC.
  - destruct Hb as [Hlen|Hne];
      [|by apply (ComputeClusters_nonempty_snoc _ _ p) in Hne].
    left. cbn [fst].
    destruct (Z.leb_spec kMaxProbePackets
                (Z.of_nat (length (probes_ b ++ [p]))));
      cbn [set_probes push_probe probes_]; [|unfold kMaxProbePackets in *; lia].
    pose proof (length_app (probes_ b) [p]) as Hl. cbn [length] in Hl.
    destruct (probes_ b ++ [p]); cbn [tail length] in *; lia.
  - assert (forall b' : Bwe, probes_ b' = probes_ b ++ [p] ->
              (length (probes_ (finish_probing b' (c :: cs)).1) <= 14)%nat \/
              ComputeClusters [] (probes_ (finish_probing b' (c :: cs)).1) <> [])
      as Hfin.
    { intros b' Hb'. unfold finish_probing. cbn [fst].
      destruct (_ <=? _); cbn [set_probes probes_ length]; [left; lia|right].
      by rewrite Hb', HC. }
    destruct (FindBestProbe (c :: cs)); [|by apply Hfin].
    destruct (IsBitrateImproving _ _); [|by apply Hfin].
    right. cbn [fst set_remote_rate push_probe probes_]. by rewrite HC.
Qed.

Lemma TimeoutStreams_probes (b : Bwe) now_ms :
  probes_ (TimeoutStreams b now_ms) = probes_ b.
Proof. unfold TimeoutStreams. by destruct (decide _). Qed.

(** [probes_] after a packet: the result of [ProcessClusters] on the list
    with the new probe appended, or the list untouched when the packet is
    not a probe. *)
Lemma IncomingPacketInfo_probes (b : Bwe) t st n ssrc id :
  probes_ (IncomingPacketInfo b t st n ssrc id).1
  = if is_probe (register_packet b t n ssrc) t n id
    then probes_ (ProcessClusters
                    (push_probe (register_packet b t n ssrc)
                                (mkProbe (send_time_ms_of st) t n id)) t).1
    else probes_ b.
Proof.
  unfold IncomingPacketInfo.
  fold (register_packet b t n ssrc). fold (send_time_ms_of st).
  set (b4 := register_packet b t n ssrc).
  assert (probes_ b4 = probes_ b) as H4.
  { subst b4. unfold register_packet. cbn [set_ssrcs probes_].
    rewrite TimeoutStreams_probes. by destruct (_ =? _). }
  set (p := mkProbe _ t n id).
  unfold is_probe.
  destruct (_ && _ && _).
  - destruct (ProcessClusters (push_probe b4 p) t) as [bq r].
    cbn [fst].
    destruct (ComputeDeltas _ _ _ _) as [ia [[[ts_delta t_delta] size_delta]|]];
      repeat (case_match; simplify_eq); by cbn.
  - rewrite <- H4.
    destruct (ComputeDeltas _ _ _ _) as [ia [[[ts_delta t_delta] size_delta]|]];
      repeat (case_match; simplify_eq); by cbn.
Qed.

Lemma register_packet_probes (b : Bwe) t n ssrc :
  probes_ (register_packet b t n ssrc) = probes_ b.
Proof.
  unfold register_packet. cbn [set_ssrcs probes_].
  rewrite TimeoutStreams_probes. by destruct (_ =? _).
Qed.

Lemma IncomingPacketInfo_capped (b : Bwe) t st n ssrc id :
  probes_capped b -> probes_capped (IncomingPacketInfo b t st n ssrc id).1.
Proof.
  intros Hb. unfold probes_capped.
  rewrite IncomingPacketInfo_probes.
  destruct (is_probe _ _ _ _); [|done].
  apply ProcessClusters_capped. unfold probes_capped.
  by rewrite register_packet_probes.
Qed.

Lemma IncomingPacketFeedbackVector_capped (v : list PacketInfo) :
  forall (b : Bwe) (evs : list Event),
    probes_capped b ->
    probes_capped
      (fold_left
         (fun (acc : Bwe * list Event) packet_info =>
            let '(b', evs) :=
              IncomingPacketInfo acc.1 (pi_arrival_time_ms packet_info)
                (ConvertMsTo24Bits (pi_send_time_ms packet_info))
                (pi_payload_size packet_info) 0
                (pi_probe_cluster_id packet_info) in
            (b', acc.2 ++ evs))
         v (b, evs)).1.
Proof.
  induction v as [|x v IH]; intros b evs Hb; [done|].
  cbn [fold_left fst snd].
  pose proof (IncomingPacketInfo_capped b (pi_arrival_time_ms x)
                (ConvertMsTo24Bits (pi_send_time_ms x)) (pi_payload_size x) 0
                (pi_probe_cluster_id x) Hb) as Hx.
  destruct (IncomingPacketInfo _ _ _ _ _ _) as [b' evs']. by apply IH.
Qed.

Lemma deliver_capped (b : Bwe) (i : Ingress) :
  probes_capped b -> probes_capped (deliver b i).1.
Proof.
  intros Hb. destruct i as [t n h|t n h id|v]; cbn [deliver].
  - unfold IncomingPacket. destruct (negb _); [done|].
    by apply IncomingPacketInfo_capped.
  - unfold IncomingPacket_probe. destruct (negb _); [done|].
    by apply IncomingPacketInfo_capped.
  - by apply IncomingPacketFeedbackVector_capped.
Qed.

Lemma run_capped (calls : list Ingress) :
  forall (b : Bwe) (evs : list Event),
    probes_capped b ->
    probes_capped
      (fold_left
         (fun (acc : Bwe * list Event) i =>
            let '(b', evs) := deliver acc.1 i in (b', acc.2 ++ evs))
         calls (b, evs)).1.
Proof.
  induction calls as [|i calls IH]; intros b evs Hb; [done|].
  cbn [fold_left fst snd].
  pose proof (deliver_capped b i Hb) as Hi.
  destruct (deliver b i) as [b' evs']. by apply IH.
Qed.

(** What [ProcessClusters] leaves of the probe list. *)
Lemma ProcessClusters_probes (b : Bwe) (now_ms : Z) :
  let clusters := ComputeClusters [] (probes_ b) in
  let after := probes_ (ProcessClusters b now_ms).1 in
  (clusters = [] ->
   after = if kMaxProbePackets <=? Z.of_nat (length (probes_ b))
           then tail (probes_ b) else probes_ b) /\
  (clusters <> [] ->
   after = probes_ b \/
   (after = [] /\ kExpectedNumberOfProbes <= Z.of_nat (length clusters) /\
    (ProcessClusters b now_ms).2 = kNoUpdate)).
Proof.
  cbv zeta. unfold ProcessClusters.
  destruct (ComputeClusters [] (probes_ b)) as [|c cs] eqn:HC.
  { split; [|done]. intros _. cbn [fst]. by destruct (_ <=? _). }
  split; [done|]. intros _.
  assert (probes_ (finish_probing b (c :: cs)).1 = probes_ b \/
          (probes_ (finish_probing b (c :: cs)).1 = [] /\
           kExpectedNumberOfProbes <= Z.of_nat (length (c :: cs)) /\
           (finish_probing b (c :: cs)).2 = kNoUpdate)) as Hfin.
  { unfold finish_probing. cbn [fst snd].
    destruct (Z.leb_spec kExpectedNumberOfProbes (Z.of_nat (length (c :: cs))));
      [by right|by left]. }
  destruct (FindBestProbe (c :: cs)); [|exact Hfin].
  destruct (IsBitrateImproving _ _); [by left|exact Hfin].
Qed.

(** C2 (amended): in every sequence of calls that starts with an empty
    probe list, the stored list holds at most 14 probes after each call, or
    its probes form a cluster.  A packet that is not admitted as a probe
    leaves the list as it is; one that is admitted is appended.  If the
    list then forms no cluster and has 15 entries or more, its oldest entry
    is removed; if it forms a cluster, no single entry is removed: the list
    is kept whole, or it is cleared, which happens only when it forms 3
    clusters or more.  The length is not bounded once a cluster is
    there. *)
Theorem C2_probe_list_capped_until_cluster :
  forall (b : Bwe) (calls : list Ingress),
    probes_ b = [] ->
    ((length (probes_ (run b calls).1) <= 14)%nat \/
     ComputeClusters [] (probes_ (run b calls).1) <> []) /\
    forall (b' : Bwe) (t st n ssrc id : Z),
      let stored := probes_ b' ++ [mkProbe (send_time_ms_of st) t n id] in
      let after := probes_ (IncomingPacketInfo b' t st n ssrc id).1 in
      (is_probe (register_packet b' t n ssrc) t n id = false ->
       after = probes_ b') /\
      (is_probe (register_packet b' t n ssrc) t n id = true ->
       (ComputeClusters [] stored = [] ->
        after = if kMaxProbePackets <=? Z.of_nat (length stored)
                then tail stored else stored) /\
       (ComputeClusters [] stored <> [] ->
        after = stored \/
        (after = [] /\
         kExpectedNumberOfProbes
         <= Z.of_nat (length (ComputeClusters [] stored))))).
Proof.
  intros b calls Hb. split.
  { apply run_capped. left. rewrite Hb. cbn. lia. }
  intros b' t st n ssrc id stored after. subst stored after.
  rewrite IncomingPacketInfo_probes.
  split; [by intros ->|]. intros ->.
  pose proof (ProcessClusters_probes
                (push_probe (register_packet b' t n ssrc)
                            (mkProbe (send_time_ms_of st) t n id)) t)
    as [Hnone Hsome].
  cbn [push_probe probes_] in Hnone, Hsome.
  rewrite register_packet_probes in Hnone, Hsome.
  split; [exact Hnone|].
  intros Hne. destruct (Hsome Hne) as [?|(? & ? & _)]; [by left|by right].
Qed.

End ProbeListBound.

(** C2, as stated, fails: sixteen probes of scenario S4 leave sixteen
    entries in the list.  Their cluster forms with the fifth probe and does
    not pass the test of [FindBestProbe], so that neither the removal of the
    oldest probe nor the clearing of the list applies. *)
Lemma C2_sixteen_probes_stored :
  ~ (length (probes_ (run fresh [FeedbackVector (S4_feedback 16)]).1) <= 15)%nat.
Proof. vm_compute. lia. Qed.

Example S4_probe_list_length :
  length (probes_ (run fresh [FeedbackVector (S4_feedback 16)]).1) = 16%nat /\
  map (fun c => (count c, probe_ok c))
      (ComputeClusters []
         (probes_ (run fresh [FeedbackVector (S4_feedback 16)]).1))
  = [(15, false)].
Proof. vm_compute. done. Qed.

Example paired_probes_run :
  length (probes_ (run fresh
     [FeedbackVector
        (map (fun i => mkPacketInfo (6 * Z.of_nat i) (5 * Z.of_nat i) 1200
                                    (Z.of_nat (i / 2)))
             (seq 0 40))]).1) = 14%nat /\
  ComputeClusters [] (probes_ (run fresh
     [FeedbackVector
        (map (fun i => mkPacketInfo (6 * Z.of_nat i) (5 * Z.of_nat i) 1200
                                    (Z.of_nat (i / 2)))
             (seq 0 40))]).1) = [].
Proof. vm_compute. done. Qed.

(** The theorem on a run that does reach the cap: forty probes sent in
    pairs, each pair with a cluster id of its own, so that no cluster ever
    has four deltas; and on the first probe of a call, which is stored. *)
Lemma C2_probe_list_capped_until_cluster_witness :
  ((length (probes_ (run fresh
      [FeedbackVector
         (map (fun i => mkPacketInfo (6 * Z.of_nat i) (5 * Z.of_nat i) 1200
                                     (Z.of_nat (i / 2)))
              (seq 0 40))]).1) <= 14)%nat \/
   ComputeClusters [] (probes_ (run fresh
      [FeedbackVector
         (map (fun i => mkPacketInfo (6 * Z.of_nat i) (5 * Z.of_nat i) 1200
                                     (Z.of_nat (i / 2)))
              (seq 0 40))]).1) <> []) /\
  probes_ (IncomingPacketInfo fresh 0 0 1200 0 0).1 = [mkProbe 0 0 1200 0].
Proof.
  destruct (C2_probe_list_capped_until_cluster fresh
              [FeedbackVector
                 (map (fun i => mkPacketInfo (6 * Z.of_nat i) (5 * Z.of_nat i)
                                             1200 (Z.of_nat (i / 2)))
                      (seq 0 40))] eq_refl) as [Hcap Hstep].
  split; [exact Hcap|].
  destruct (Hstep fresh 0 0 1200 0 0) as [_ Hadmitted].
  destruct Hadmitted as [Hnone _]; [by vm_compute|].
  rewrite Hnone by (by vm_compute). by vm_compute.
Defined.

(** * The coordinator *)




Section CoordinatorFacts.
Context {IA OE OD RS RC : Type}.
Context `{!InterArrivalOps IA, !OveruseEstimatorOps OE,
          !OveruseDetectorOps OD, !RateStatisticsOps RS,
          !AimdRateControlOps RC}.

Abbreviation Bwe := (DelayBasedBwe IA OE OD RS RC).

(** ** C10 *)




(** ** C4 *)

(** C4: a packet whose header has no absolute send time is dropped by both
    overloads of [IncomingPacket]: the state is returned as it was, the only
    event is the warning with the text of the source, and the observer is
    not called. *)
Theorem C4_missing_abs_send_time_dropped :
  forall (b : Bwe) (arrival_time_ms payload_size : Z) (header : RTPHeader)
         (probe_cluster_id : Z),
    hasAbsoluteSendTime (extension header) = false ->
    IncomingPacket b arrival_time_ms payload_size header
    = (b, [LogWarning
             "RemoteBitrateEstimatorAbsSendTime: Incoming packet is missing absolute send time extension!"]) /\
    IncomingPacket_probe b arrival_time_ms payload_size header probe_cluster_id
    = (b, [LogWarning
             "RemoteBitrateEstimatorAbsSendTime: Incoming packet is missing absolute send time extension!"]).
Proof.
  intros b t n header id Hno.
  unfold IncomingPacket, IncomingPacket_probe. by rewrite Hno.
Qed.

(** ** C5 *)

Lemma TimeoutStreams_ssrcs (b : Bwe) (now_ms : Z) :
  ssrcs_ (TimeoutStreams b now_ms)
  = filter (fun kv : Z * Z => ¬ (kStreamTimeOutMs < now_ms - kv.2)) (ssrcs_ b).
Proof. unfold TimeoutStreams. by destruct (decide _). Qed.

Lemma register_packet_ssrcs (b : Bwe) (t n ssrc : Z) :
  ssrcs_ (register_packet b t n ssrc)
  = <[ssrc := t]> (ssrcs_ (TimeoutStreams b t)).
Proof.
  unfold register_packet. cbn [set_ssrcs ssrcs_].
  rewrite !TimeoutStreams_ssrcs. by destruct (_ =? _).
Qed.

Lemma ProcessClusters_ssrcs (b : Bwe) (now_ms : Z) :
  ssrcs_ (ProcessClusters b now_ms).1 = ssrcs_ b.
Proof.
  unfold ProcessClusters, finish_probing.
  repeat case_match; by cbn.
Qed.

Lemma IncomingPacketInfo_ssrcs (b : Bwe) t st n ssrc id :
  ssrcs_ (IncomingPacketInfo b t st n ssrc id).1
  = <[ssrc := t]> (ssrcs_ (TimeoutStreams b t)).
Proof.
  rewrite <- (register_packet_ssrcs b t n ssrc).
  unfold IncomingPacketInfo. fold (register_packet b t n ssrc).
  set (b4 := register_packet b t n ssrc).
  set (p := mkProbe _ t n id).
  pose proof (ProcessClusters_ssrcs (push_probe b4 p) t) as HP.
  destruct (ProcessClusters (push_probe b4 p) t) as [bq r].
  cbn [fst push_probe ssrcs_] in HP.
  destruct (_ && _ && _);
    destruct (ComputeDeltas _ _ _ _) as [ia [[[ts_delta t_delta] size_delta]|]];
    repeat (case_match; simplify_eq); by cbn.
Qed.

(** C5: [TimeoutStreams] keeps exactly the streams last seen at most
    2000 ms before [now_ms].  When none is left, [inter_arrival_] and
    [estimator_] are new objects; otherwise they are the old ones.  No other
    member changes, [first_packet_time_ms_] among them.  Every packet that
    enters [IncomingPacketInfo] goes through it, with its arrival time as
    [now_ms], before its own stream is entered in the map. *)
Theorem C5_TimeoutStreams_effect :
  forall (b : Bwe) (now_ms : Z),
    let b' := TimeoutStreams b now_ms in
    (forall ssrc last_seen,
        ssrcs_ b' !! ssrc = Some last_seen <->
        ssrcs_ b !! ssrc = Some last_seen /\ ¬ (2000 < now_ms - last_seen)) /\
    (ssrcs_ b' = ∅ ->
     inter_arrival_ b'
     = InterArrival_new ((5 ≪ 26) `quot` 1000) kTimestampToMs true /\
     estimator_ b' = OveruseEstimator_new) /\
    (ssrcs_ b' <> ∅ ->
     inter_arrival_ b' = inter_arrival_ b /\ estimator_ b' = estimator_ b) /\
    first_packet_time_ms_ b' = first_packet_time_ms_ b /\
    probes_ b' = probes_ b /\
    total_probes_received_ b' = total_probes_received_ b /\
    incoming_bitrate_ b' = incoming_bitrate_ b /\
    remote_rate_ b' = remote_rate_ b /\
    detector_ b' = detector_ b /\
    last_update_ms_ b' = last_update_ms_ b /\
    (forall send_time_24bits payload_size ssrc probe_cluster_id,
        ssrcs_ (IncomingPacketInfo b now_ms send_time_24bits payload_size ssrc
                                   probe_cluster_id).1
        = <[ssrc := now_ms]> (ssrcs_ b')).
Proof.
  intros b now_ms b'. subst b'.
  split.
  { intros ssrc last_seen. rewrite TimeoutStreams_ssrcs.
    rewrite map_lookup_filter_Some. done. }
  unfold TimeoutStreams.
  destruct (decide _) as [Hempty|Hlive];
    cbn [set_filters set_ssrcs ssrcs_ inter_arrival_ estimator_
         first_packet_time_ms_ probes_ total_probes_received_
         incoming_bitrate_ remote_rate_ detector_ last_update_ms_].
  - repeat split; try done.
    intros. rewrite IncomingPacketInfo_ssrcs, TimeoutStreams_ssrcs.
    by rewrite Hempty.
  - repeat split; try done.
    intros. by rewrite IncomingPacketInfo_ssrcs, TimeoutStreams_ssrcs.
Qed.

(** ** C6 *)

Lemma Keys_spec (m : gmap Z Z) :
  (forall k, k ∈ Keys m <-> is_Some (m !! k)) /\
  NoDup (Keys m) /\ Sorted Z.le (Keys m).
Proof.
  unfold Keys. split; [|split].
  - intros k. rewrite merge_sort_Permutation.
    rewrite list_elem_of_fmap. split.
    + intros ([k' v] & -> & Hkv). apply elem_of_map_to_list in Hkv. by exists v.
    + intros [v Hv]. exists (k, v). split; [done|].
      by apply elem_of_map_to_list.
  - rewrite merge_sort_Permutation. apply NoDup_fst_map_to_list.
  - apply Sorted_merge_sort. apply _.
Qed.

(** C6 (amended): [LatestEstimate] gives no result when the rate
    controller has no valid estimate.  With a valid estimate it gives the
    keys of the SSRC map, each once and in ascending order, and a bitrate
    that is 0 when the map is empty and the latest estimate of the rate
    controller when it is not; so a bitrate of 0 says that the map is empty
    or that this estimate is 0.  The function returns no state: none
    changes. *)
Theorem C6_LatestEstimate_result :
  forall b : Bwe,
    (ValidEstimate (remote_rate_ b) = false -> Bwe_LatestEstimate b = None) /\
    (ValidEstimate (remote_rate_ b) = true ->
     exists bitrate_bps,
       Bwe_LatestEstimate b = Some (Keys (ssrcs_ b), bitrate_bps) /\
       (ssrcs_ b = ∅ -> bitrate_bps = 0 /\ Keys (ssrcs_ b) = []) /\
       (ssrcs_ b <> ∅ -> bitrate_bps = LatestEstimate (remote_rate_ b)) /\
       (bitrate_bps = 0 <->
        ssrcs_ b = ∅ \/ LatestEstimate (remote_rate_ b) = 0)) /\
    (forall ssrc, ssrc ∈ Keys (ssrcs_ b) <-> is_Some (ssrcs_ b !! ssrc)) /\
    NoDup (Keys (ssrcs_ b)) /\ Sorted Z.le (Keys (ssrcs_ b)).
Proof.
  intros b. unfold Bwe_LatestEstimate.
  split; [by intros ->|]. split; [|apply Keys_spec].
  intros ->. cbn [negb]. eexists. split; [done|].
  destruct (decide (ssrcs_ b = ∅)) as [Hempty|Hlive].
  - split; [|split]; [|done|by split; [left|]].
    intros _. split; [done|]. rewrite Hempty. unfold Keys.
    by rewrite map_to_list_empty.
  - split; [done|]. split; [done|]. split; [by right|]. by intros [?|?].
Qed.

End CoordinatorFacts.

(** Closed instances of C10, C4 and C6. *)

Example slow_probes_cluster :
  map (fun c => (count c, GetSendBitrateBps c, GetRecvBitrateBps c))
      (ComputeClusters [] slow_probes) = [(4, 321600, 0)].
Proof. vm_compute. reflexivity. Qed.

(** The cluster of [crawling_probes] passes the test of [FindBestProbe]
    with a bitrate of 0. *)
Example crawling_probes_cluster :
  map (fun c => (zero_mean c, probe_ok c, ends_scan c, probe_bitrate_bps c))
      (ComputeClusters [] crawling_probes)
  = [(false, true, false, 0)].
Proof. vm_compute. reflexivity. Qed.



(** The theorem on a header without extensions. *)
Lemma C4_missing_abs_send_time_dropped_witness :
  IncomingPacket fresh 0 1200 header_init
  = (fresh, [LogWarning missing_abs_send_time_warning]).
Proof.
  apply (C4_missing_abs_send_time_dropped fresh 0 1200 header_init 0).
  reflexivity.
Defined.

(** C6, as stated, fails: with a valid estimate of 0 bps the bitrate
    returned is 0 although a stream is live. *)
Lemma C6_zero_bitrate_with_live_stream :
  ~ (forall ssrcs bitrate_bps,
        Bwe_LatestEstimate zero_rate_bwe = Some (ssrcs, bitrate_bps) ->
        (bitrate_bps = 0 <-> ssrcs_ zero_rate_bwe = ∅)).
Proof.
  intros H. destruct (H [1] 0) as [Hempty _]; [by vm_compute|].
  specialize (Hempty eq_refl).
  apply (f_equal (fun m : gmap Z Z => m !! 1)) in Hempty.
  by vm_compute in Hempty.
Qed.

(** The theorem on the same state. *)
Lemma C6_LatestEstimate_result_witness :
  exists bitrate_bps,
    Bwe_LatestEstimate zero_rate_bwe
    = Some (Keys (ssrcs_ zero_rate_bwe), bitrate_bps) /\
    (bitrate_bps = 0 <->
     ssrcs_ zero_rate_bwe = ∅ \/ LatestEstimate (remote_rate_ zero_rate_bwe) = 0).
Proof.
  destruct (C6_LatestEstimate_result zero_rate_bwe) as (_ & Hvalid & _).
  destruct (Hvalid eq_refl) as (bps & Hres & _ & _ & Hzero).
  by exists bps.
Defined.

(** ** C1 *)

Section ProbeUpdate.
Context {IA OE OD RS RC : Type}.
Context `{!InterArrivalOps IA, !OveruseEstimatorOps OE,
          !OveruseDetectorOps OD, !RateStatisticsOps RS,
          !AimdRateControlOps RC}.

Abbreviation Bwe := (DelayBasedBwe IA OE OD RS RC).

Lemma register_packet_frame (b : Bwe) (t n ssrc : Z) :
  probes_ (register_packet b t n ssrc) = probes_ b /\
  remote_rate_ (register_packet b t n ssrc) = remote_rate_ b.
Proof.
  unfold register_packet, TimeoutStreams.
  by destruct (_ =? _), (decide _).
Qed.



End ProbeUpdate.


(** The packets of S3 do store these probes; the observer is first called
    with the 5th. *)
Example S3_run :
  probes_ (run fresh (S3_packets 4)).1 = S3_probes 4 /\
  (run fresh (S3_packets 4)).2 = [] /\
  probes_ (run fresh (S3_packets 5)).1 = S3_probes 5 /\
  (run fresh (S3_packets 5)).2 = [OnReceiveBitrateChanged [1] 1600000].
Proof. vm_compute. done. Qed.


(** ** C9 on the lists the estimator stores *)

Lemma float_to_int_not_negative x : not_negative x -> 0 <= float_to_int x.
Proof.
  destruct x as [| | |[] m e]; cbn [not_negative float_to_int]; try done.
  intros _. destruct (Z.leb_spec 0 e).
  - pose proof (Z.pow_nonneg 2 e). lia.
  - apply Z.quot_pos; [lia|]. apply Z.pow_pos_nonneg; lia.
Qed.

Lemma binary_round_aux_not_negative prec emax mx ex lx :
  not_negative (binary_round_aux prec emax false mx ex lx).
Proof.
  unfold binary_round_aux.
  destruct (shr_fexp _ _ _ _ _) as [mrs' e'].
  destruct (shr_fexp _ _ _ _ _) as [mrs'' e''].
  destruct (shr_m mrs''); [done| |done].
  by destruct (_ <=? _)%Z.
Qed.

Lemma F64_of_Z_not_negative z : 0 <= z -> not_negative (F64.of_Z z).
Proof.
  intros Hz. unfold F64.of_Z, binary_normalize.
  destruct z as [|m|m]; [done| |lia].
  unfold binary_round. destruct (shl_align _ _ _) as [mz ez].
  apply binary_round_aux_not_negative.
Qed.

Lemma F64_mul_not_negative x my ey :
  not_negative x -> not_negative (F64.mul x (S754_finite false my ey)).
Proof.
  destruct x as [[]|[]| |[] mx ex]; cbn; try done.
  intros _. apply binary_round_aux_not_negative.
Qed.

Lemma send_time_ms_of_nonneg st : 0 <= send_time_ms_of st.
Proof.
  unfold send_time_ms_of. apply float_to_int_not_negative.
  assert (exists m e, kTimestampToMs = S754_finite false m e) as (m & e & ->)
    by (vm_compute; eauto).
  apply F64_mul_not_negative, F64_of_Z_not_negative.
  unfold u32. apply Z.mod_pos_bound. lia.
Qed.

(** ** C9: the loop between two boundaries *)

Lemma last_cons {A} (a d : A) (l : list A) :
  List.last (a :: l) d = List.last l a.
Proof.
  revert a d. induction l as [|x l IH]; intros a d; [done|].
  change (List.last (a :: x :: l) d) with (List.last (x :: l) d).
  by rewrite !IH.
Qed.

Lemma count_above_min_delta_count c prev it :
  count (count_above_min_delta c prev it) = count c.
Proof. unfold count_above_min_delta. by destruct (above_min_delta _ _). Qed.

Lemma add_deltas_count c prev its :
  count (add_deltas c prev its) = count c + Z.of_nat (length its).
Proof.
  revert c prev. induction its as [|it its IH]; intros c prev;
    cbn [add_deltas length]; [lia|].
  rewrite IH. cbn [add_delta count]. rewrite count_above_min_delta_count. lia.
Qed.

(** Probes of the cluster the loop is in are added to [current], and no
    cluster is emitted. *)
Lemma scan_same_cluster qs :
  forall (s : ClusterScan) (prev : Probe),
    prev_send_time s = send_time_ms prev ->
    prev_recv_time s = recv_time_ms prev ->
    0 <= prev_send_time s ->
    Forall (fun x => 0 <= send_time_ms x) qs ->
    Forall (fun x => cluster_id x = last_probe_cluster_id s) qs ->
    last_probe_cluster_id s <> -1 ->
    fold_left scan_step qs s
    = mkScan (scan_clusters s) (add_deltas (current s) prev qs)
             (send_time_ms (List.last qs prev))
             (recv_time_ms (List.last qs prev)) (last_probe_cluster_id s).
Proof.
  induction qs as [|it qs IH]; intros s prev Hs Hr Hpos Hsend Hid Hlast.
  { cbn [fold_left add_deltas List.last]. rewrite <- Hs, <- Hr.
    by destruct s. }
  apply Forall_cons in Hsend as [Hit Hsend].
  apply Forall_cons in Hid as [Hidit Hid].
  cbn [fold_left add_deltas]. rewrite last_cons.
  assert (scan_step s it
          = mkScan (scan_clusters s)
                   (add_delta (count_above_min_delta (current s) prev it)
                              prev it)
                   (send_time_ms it) (recv_time_ms it)
                   (last_probe_cluster_id s)) as Hstep.
  { unfold scan_step.
    destruct (Z.leb_spec 0 (prev_send_time s)); [|lia].
    destruct (Z.eqb_spec (last_probe_cluster_id s) (-1)); [done|].
    destruct (Z.eqb_spec (cluster_id it) (last_probe_cluster_id s)); [|done].
    cbn [negb andb]. rewrite Hs, Hr, Hidit.
    fold (above_min_delta prev it).
    fold (count_above_min_delta (current s) prev it).
    done. }
  rewrite Hstep.
  rewrite (IH _ it); cbn [scan_clusters current prev_send_time prev_recv_time
                          last_probe_cluster_id]; done.
Qed.

(** The clusters emitted so far stay at the front of the result. *)
Lemma scan_grows probes :
  forall s, exists later,
    scan_finish (fold_left scan_step probes s) = scan_clusters s ++ later.
Proof.
  induction probes as [|it probes IH]; intros s.
  { cbn [fold_left]. unfold scan_finish, AddCluster.
    destruct (_ <=? _); [by eexists|]. exists []. by rewrite app_nil_r. }
  cbn [fold_left]. destruct (IH (scan_step s it)) as [later Hlater].
  assert (exists more, scan_clusters (scan_step s it) = scan_clusters s ++ more)
    as [more Hmore].
  { unfold scan_step. destruct (0 <=? prev_send_time s);
      [|exists []; by rewrite app_nil_r].
    cbn zeta. cbn [scan_clusters]. unfold AddCluster.
    destruct (negb _ && _); [by eexists|]. exists []. by rewrite app_nil_r. }
  exists (more ++ later). by rewrite Hlater, Hmore, app_assoc.
Qed.

Section StoredProbes.
Context {IA OE OD RS RC : Type}.
Context `{!InterArrivalOps IA, !OveruseEstimatorOps OE,
          !OveruseDetectorOps OD, !RateStatisticsOps RS,
          !AimdRateControlOps RC}.

Abbreviation Bwe := (DelayBasedBwe IA OE OD RS RC).

Lemma ProcessClusters_probes_Forall (P : Probe -> Prop) (b : Bwe) now_ms :
  Forall P (probes_ b) -> Forall P (probes_ (ProcessClusters b now_ms).1).
Proof.
  intros Hb. unfold ProcessClusters, finish_probing.
  repeat case_match; cbn [fst set_probes set_remote_rate probes_];
    try done; try constructor.
  destruct (probes_ b); [done|]. by inversion Hb.
Qed.

Lemma IncomingPacketInfo_well_formed (b : Bwe) t st n ssrc id :
  Forall well_formed_probe (probes_ b) ->
  Forall well_formed_probe (probes_ (IncomingPacketInfo b t st n ssrc id).1).
Proof.
  intros Hb. rewrite IncomingPacketInfo_probes.
  destruct (is_probe _ _ _ _) eqn:Hgate; [|done].
  apply ProcessClusters_probes_Forall. cbn [push_probe probes_].
  rewrite register_packet_probes. apply Forall_app. split; [done|].
  constructor; [|done]. split; cbn [send_time_ms cluster_id].
  - apply send_time_ms_of_nonneg.
  - unfold is_probe in Hgate.
    apply andb_true_iff in Hgate as [Hgate _].
    apply andb_true_iff in Hgate as [Hid _].
    apply negb_true_iff in Hid. by apply Z.eqb_neq in Hid.
Qed.

Lemma IncomingPacketFeedbackVector_well_formed (v : list PacketInfo) :
  forall (b : Bwe) (evs : list Event),
    Forall well_formed_probe (probes_ b) ->
    Forall well_formed_probe
      (probes_
         (fold_left
            (fun (acc : Bwe * list Event) packet_info =>
               let '(b', evs) :=
                 IncomingPacketInfo acc.1 (pi_arrival_time_ms packet_info)
                   (ConvertMsTo24Bits (pi_send_time_ms packet_info))
                   (pi_payload_size packet_info) 0
                   (pi_probe_cluster_id packet_info) in
               (b', acc.2 ++ evs))
            v (b, evs)).1).
Proof.
  induction v as [|x v IH]; intros b evs Hb; [done|].
  cbn [fold_left fst snd].
  pose proof (IncomingPacketInfo_well_formed b (pi_arrival_time_ms x)
                (ConvertMsTo24Bits (pi_send_time_ms x)) (pi_payload_size x) 0
                (pi_probe_cluster_id x) Hb) as Hx.
  destruct (IncomingPacketInfo _ _ _ _ _ _) as [b' evs']. by apply IH.
Qed.

Lemma deliver_well_formed (b : Bwe) (i : Ingress) :
  Forall well_formed_probe (probes_ b) ->
  Forall well_formed_probe (probes_ (deliver b i).1).
Proof.
  intros Hb. destruct i as [t n h|t n h id|v]; cbn [deliver].
  - unfold IncomingPacket. destruct (negb _); [done|].
    by apply IncomingPacketInfo_well_formed.
  - unfold IncomingPacket_probe. destruct (negb _); [done|].
    by apply IncomingPacketInfo_well_formed.
  - by apply IncomingPacketFeedbackVector_well_formed.
Qed.

Lemma run_well_formed (calls : list Ingress) :
  forall (b : Bwe) (evs : list Event),
    Forall well_formed_probe (probes_ b) ->
    Forall well_formed_probe
      (probes_
         (fold_left
            (fun (acc : Bwe * list Event) i =>
               let '(b', evs) := deliver acc.1 i in (b', acc.2 ++ evs))
            calls (b, evs)).1).
Proof.
  induction calls as [|i calls IH]; intros b evs Hb; [done|].
  cbn [fold_left fst snd].
  pose proof (deliver_well_formed b i Hb) as Hi.
  destruct (deliver b i) as [b' evs']. by apply IH.
Qed.

(** C9: in every probe list that the estimator stores, started empty, let
    [p] and [q] be two consecutive probes of different cluster ids, [qs] the
    probes after [q] that are of the cluster of [q], and [rest] what
    follows, empty or starting with a probe of another cluster.  The loop
    of [ComputeClusters] begins the cluster of [q] from [Cluster()] and adds
    to it the delta between [p] and [q]: its send and receive deltas to the
    sums of the means, the payload size of [q] to the sum of the sizes, and
    one to the count.  The cluster of [q] therefore has one delta for each
    of its probes, [1 + length qs], and when that is at least
    [kMinClusterSize] it is the cluster that [ComputeClusters] emits after
    the clusters it had emitted up to the boundary, with the means and the
    mean size taken over these deltas, the one across the boundary among
    them.  Four probes of a new cluster are enough for it to be emitted.
    Only the test of [num_above_min_delta] for the delta across the
    boundary is made on the old cluster. *)
Theorem C9_cross_boundary_delta_in_new_cluster :
  forall (b : Bwe) (calls : list Ingress) (clusters : list Cluster)
         (ps qs rest : list Probe) (p q : Probe),
    probes_ b = [] ->
    probes_ (run b calls).1 = ps ++ p :: q :: qs ++ rest ->
    cluster_id q <> cluster_id p ->
    Forall (fun x => cluster_id x = cluster_id q) qs ->
    (forall r, head rest = Some r -> cluster_id r <> cluster_id q) ->
    let boundary := fold_left scan_step (ps ++ [p; q]) (scan_init clusters) in
    let new := add_deltas (add_delta Cluster0 p q) q qs in
    let closing :=
      match rest with
      | [] => new
      | r :: _ => count_above_min_delta new (List.last qs q) r
      end in
    current boundary
    = {| send_mean_ms :=
           F32.add F32.zero
             (F32.of_Z (s32 (send_time_ms q - send_time_ms p)));
         recv_mean_ms :=
           F32.add F32.zero
             (F32.of_Z (s32 (recv_time_ms q - recv_time_ms p)));
         mean_size := u64 (payload_size q);
         count := 1;
         num_above_min_delta := 0 |} /\
    current boundary = add_delta Cluster0 p q /\
    count new = 1 + Z.of_nat (length qs) /\
    (exists later,
        ComputeClusters clusters (ps ++ p :: q :: qs ++ rest)
        = (if kMinClusterSize <=? count new
           then AddCluster (scan_clusters boundary) closing
           else scan_clusters boundary) ++ later /\
        (rest = [] -> later = [])) /\
    ((3 <= length qs)%nat ->
     exists c,
       c ∈ ComputeClusters clusters (ps ++ p :: q :: qs ++ rest) /\
       count c = 1 + Z.of_nat (length qs) /\
       send_mean_ms c = F32.div (send_mean_ms new) (F32.of_Z (count new)) /\
       recv_mean_ms c = F32.div (recv_mean_ms new) (F32.of_Z (count new)) /\
       mean_size c = mean_size new `div` u64 (count new)).
Proof.
  intros b calls clusters ps qs rest p q Hb Hrun Hq Hqs Hrest
         boundary new closing.
  assert (Forall well_formed_probe (ps ++ p :: q :: qs ++ rest)) as Hwf.
  { rewrite <- Hrun. apply run_well_formed. rewrite Hb. constructor. }
  apply Forall_app in Hwf as [Hps Hwf].
  apply Forall_cons in Hwf as [Hp Hwf].
  apply Forall_cons in Hwf as [Hq' Hwf].
  apply Forall_app in Hwf as [Hwqs Hwrest].
  assert (Forall (fun x => 0 <= send_time_ms x) (ps ++ [p])) as Hsend.
  { apply Forall_app. split; [|by constructor; [apply Hp|]].
    eapply Forall_impl; [apply Hps|]. by intros x [? _]. }
  assert (current boundary = add_delta Cluster0 p q) as Hcur.
  { subst boundary. by apply scan_boundary_delta; [|apply Hp|]. }
  assert (count new = 1 + Z.of_nat (length qs)) as Hcount.
  { subst new. rewrite add_deltas_count. by cbn. }
  split; [exact Hcur|]. split; [exact Hcur|]. split; [exact Hcount|].
  (* the state at the boundary and after the probes of the new cluster *)
  destruct (scan_after_last clusters (ps ++ [p]) q) as (Hs & Hr & Hl).
  { apply Forall_app. split; [done|]. constructor; [apply Hq'|done]. }
  { apply Hq'. }
  cbv zeta in Hs, Hr, Hl.
  replace ((ps ++ [p]) ++ [q]) with (ps ++ [p; q]) in Hs, Hr, Hl
    by by rewrite <- app_assoc.
  fold boundary in Hs, Hr, Hl.
  assert (fold_left scan_step qs boundary
          = mkScan (scan_clusters boundary) new
                   (send_time_ms (List.last qs q))
                   (recv_time_ms (List.last qs q)) (cluster_id q)) as Hafter.
  { rewrite (scan_same_cluster qs boundary q); try done.
    - subst new. by rewrite Hcur, Hl.
    - rewrite Hs. apply Hq'.
    - eapply Forall_impl; [apply Hwqs|]. by intros x [? _].
    - by rewrite Hl.
    - rewrite Hl. apply Hq'. }
  assert (fold_left scan_step (ps ++ p :: q :: qs ++ rest) (scan_init clusters)
          = fold_left scan_step rest (fold_left scan_step qs boundary))
    as Hsplit.
  { replace (ps ++ p :: q :: qs ++ rest) with ((ps ++ [p; q]) ++ qs ++ rest)
      by by rewrite <- app_assoc.
    subst boundary. by rewrite !fold_left_app. }
  assert (exists later,
             ComputeClusters clusters (ps ++ p :: q :: qs ++ rest)
             = (if kMinClusterSize <=? count new
                then AddCluster (scan_clusters boundary) closing
                else scan_clusters boundary) ++ later /\
             (rest = [] -> later = [])) as Hemit.
  { unfold ComputeClusters. rewrite Hsplit, Hafter.
    destruct rest as [|r rest'].
    - exists []. split; [|done]. rewrite app_nil_r.
      cbn [fold_left]. unfold scan_finish. cbn [current scan_clusters].
      subst closing. done.
    - cbn [fold_left].
      assert (0 <= send_time_ms (List.last qs q)) as Hlast.
      { clear -Hq' Hwqs. revert q Hq'.
        induction Hwqs as [|x qs Hx _ IH]; intros q Hq'; [apply Hq'|].
        rewrite last_cons. by apply IH. }
      assert (scan_clusters
                (scan_step
                   (mkScan (scan_clusters boundary) new
                           (send_time_ms (List.last qs q))
                           (recv_time_ms (List.last qs q)) (cluster_id q)) r)
              = if kMinClusterSize <=? count new
                then AddCluster (scan_clusters boundary) closing
                else scan_clusters boundary) as Hstep.
      { unfold scan_step.
        cbn [scan_clusters current prev_send_time prev_recv_time
             last_probe_cluster_id].
        destruct (Z.leb_spec 0 (send_time_ms (List.last qs q))); [|lia].
        destruct (Z.eqb_spec (cluster_id q) (-1));
          [by destruct Hq' as [_ Hid]|].
        destruct (Z.eqb_spec (cluster_id r) (cluster_id q)) as [Heq|_];
          [by apply (Hrest r eq_refl) in Heq|].
        cbn [negb andb scan_clusters]. subst closing.
        fold (above_min_delta (List.last qs q) r).
        fold (count_above_min_delta new (List.last qs q) r).
        by rewrite count_above_min_delta_count. }
      destruct (scan_grows rest'
                  (scan_step
                     (mkScan (scan_clusters boundary) new
                             (send_time_ms (List.last qs q))
                             (recv_time_ms (List.last qs q)) (cluster_id q)) r))
        as [later Hlater].
      exists later. split; [|done]. by rewrite Hlater, Hstep. }
  split; [exact Hemit|].
  intros Hlen. destruct Hemit as (later & Hout & _).
  destruct (Z.leb_spec kMinClusterSize (count new)) as [_|Hlt];
    [|unfold kMinClusterSize in Hlt; lia].
  unfold AddCluster in Hout.
  match type of Hout with
  | _ = (_ ++ [?c]) ++ _ => exists c
  end.
  split.
  { rewrite Hout. apply elem_of_app. left. apply elem_of_app. right.
    apply list_elem_of_here. }
  assert (count closing = count new /\
          send_mean_ms closing = send_mean_ms new /\
          recv_mean_ms closing = recv_mean_ms new /\
          mean_size closing = mean_size new) as (Hc1 & Hc2 & Hc3 & Hc4).
  { subst closing. destruct rest as [|r rest']; [done|].
    unfold count_above_min_delta. by destruct (above_min_delta _ _). }
  cbn [count send_mean_ms recv_mean_ms mean_size].
  by rewrite Hc1, Hc2, Hc3, Hc4.
Qed.

End StoredProbes.

(** The probes that [two_clusters_of_four] leaves in the list, and their
    one cluster. *)
Example two_clusters_of_four_stored :
  map (fun x => (send_time_ms x, recv_time_ms x, cluster_id x))
      (probes_ (run fresh [FeedbackVector two_clusters_of_four]).1)
  = [(0, 0, 0); (5, 6, 0); (9, 12, 0); (14, 18, 0);
     (20, 24, 1); (25, 30, 1); (29, 36, 1); (34, 42, 1)] /\
  map (fun c => (count c, num_above_min_delta c, mean_size c))
      (ComputeClusters []
         (probes_ (run fresh [FeedbackVector two_clusters_of_four]).1))
  = [(4, 3, 1200)].
Proof. vm_compute. done. Qed.

(** The theorem on these probes: the four probes of cluster 1 give a
    cluster of count 4, whose first delta is the one between the last probe
    of cluster 0 and the first of cluster 1. *)
Lemma C9_cross_boundary_delta_in_new_cluster_witness :
  exists c,
    c ∈ ComputeClusters []
          (probes_ (run fresh [FeedbackVector two_clusters_of_four]).1) /\
    count c = 4 /\ mean_size c = 1200.
Proof.
  destruct (C9_cross_boundary_delta_in_new_cluster fresh
              [FeedbackVector two_clusters_of_four] []
              [mkProbe 0 0 1200 0; mkProbe 5 6 1200 0; mkProbe 9 12 1200 0]
              [mkProbe 25 30 1200 1; mkProbe 29 36 1200 1;
               mkProbe 34 42 1200 1]
              []
              (mkProbe 14 18 1200 0) (mkProbe 20 24 1200 1))
    as (_ & _ & _ & _ & Hemit).
  - reflexivity.
  - vm_compute. reflexivity.
  - cbn. lia.
  - repeat constructor.
  - intros r Hr. discriminate Hr.
  - destruct Hemit as (c & Hin & Hcount & _ & _ & Hsize); [cbn; lia|].
    exists c. split; [|split; [exact Hcount|]].
    + replace (probes_ (run fresh [FeedbackVector two_clusters_of_four]).1)
        with ([mkProbe 0 0 1200 0; mkProbe 5 6 1200 0; mkProbe 9 12 1200 0] ++
              mkProbe 14 18 1200 0 :: mkProbe 20 24 1200 1 ::
              [mkProbe 25 30 1200 1; mkProbe 29 36 1200 1;
               mkProbe 34 42 1200 1] ++ [])
        by (vm_compute; reflexivity).
      exact Hin.
    + rewrite Hsize. vm_compute. reflexivity.
Defined.

(** Four probes of a new cluster are enough for it to be emitted, because
    its first delta is the one across the boundary. *)
Example second_cluster_of_four_probes :
  map count (ComputeClusters [] burst_then_paced) = [4; 4] /\
  length (filter (fun p => bool_decide (cluster_id p = 1)) burst_then_paced)
  = 4%nat.
Proof. vm_compute. done. Qed.

(** Closed instances of C3 and C5. *)

(** The theorem on [congested_then_paced]: the scan ends at the first
    cluster, before anything is selected. *)
Lemma C3_FindBestProbe_selection_witness :
  FindBestProbe (ComputeClusters [] congested_then_paced) = FindBestProbe [].
Proof.
  destruct (C3_FindBestProbe_selection (ComputeClusters [] congested_then_paced))
    as (Hend & _ & _).
  apply (Hend [] (hd Cluster0 (ComputeClusters [] congested_then_paced))
              (tl (ComputeClusters [] congested_then_paced))).
  - vm_compute. reflexivity.
  - vm_compute. reflexivity.
Defined.

(** The theorem at 2500 ms: stream 1 has been silent for more than 2000 ms
    and goes, stream 2 stays, and the filters are kept. *)
Lemma C5_TimeoutStreams_effect_witness :
  ssrcs_ (TimeoutStreams two_streams_bwe 2500) !! 1 = None /\
  ssrcs_ (TimeoutStreams two_streams_bwe 2500) !! 2 = Some 1500 /\
  first_packet_time_ms_ (TimeoutStreams two_streams_bwe 2500) = 0.
Proof.
  destruct (C5_TimeoutStreams_effect two_streams_bwe 2500)
    as (Hlive & _ & _ & Hfirst & _).
  split; [|split].
  - destruct (ssrcs_ (TimeoutStreams two_streams_bwe 2500) !! 1) as [t|] eqn:H1;
      [|done].
    apply Hlive in H1 as [H1 Hrecent]. vm_compute in H1. simplify_eq. lia.
  - apply Hlive. split; [by vm_compute|lia].
  - exact Hfirst.
Defined.

(** * Further properties of rtp_utility.cc *)

Lemma byte_val_range b : 0 <= byte_val b < 256.
Proof. unfold byte_val. pose proof (Byte.to_N_bounded b). lia. Qed.

Lemma at_range ptr i : 0 <= at_ ptr i < 256.
Proof. apply byte_val_range. Qed.

Lemma land_low_bits a n : 0 <= n -> 0 <= Z.land a (Z.ones n) < 2 ^ n.
Proof.
  intros Hn. rewrite Z.land_ones by done. apply Z.mod_pos_bound.
  by apply Z.pow_pos_nonneg.
Qed.

(** ** Word32Align *)

(** X1: for a size that fits [size_t], [Word32Align] returns a multiple
    of 4 which it maps to itself; it is the least multiple of 4 not below
    the size, unless that is 2^64, in which case the sum wraps to 0. *)
Theorem X1_Word32Align_rounds_up :
  forall size : Z,
    0 <= size < 2 ^ 64 ->
    Word32Align size `mod` 4 = 0 /\
    Word32Align (Word32Align size) = Word32Align size /\
    (size <= 2 ^ 64 - 4 -> size <= Word32Align size < size + 4) /\
    (2 ^ 64 - 4 < size -> Word32Align size = 0).
Proof.
  intros size Hsize.
  assert (Hal : forall r, r `mod` 4 = 0 -> Word32Align r = r).
  { intros r Hr. unfold Word32Align. rewrite Hr. done. }
  assert (Hmod : Word32Align size `mod` 4 = 0 /\
                 (size <= 2 ^ 64 - 4 -> size <= Word32Align size < size + 4) /\
                 (2 ^ 64 - 4 < size -> Word32Align size = 0)).
  { unfold Word32Align, u32, u64.
    pose proof (Z.mod_pos_bound size 4 ltac:(lia)) as Hr.
    rewrite (Z.mod_small (size `mod` 4)) by lia.
    destruct (Z.eqb_spec (size `mod` 4) 0) as [H0|Hn0]; cbn [negb].
    - split; [done|]. split; [lia|].
      intros Hbig. exfalso.
      assert (size = 2 ^ 64 - 3 \/ size = 2 ^ 64 - 2 \/ size = 2 ^ 64 - 1)
        as [->|[->| ->]] by lia; by vm_compute in H0.
    - destruct (Z_lt_le_dec (2 ^ 64 - 4) size) as [Hbig|Hsmall].
      + assert (size = 2 ^ 64 - 3 \/ size = 2 ^ 64 - 2 \/ size = 2 ^ 64 - 1)
          as [->|[->| ->]] by lia;
          (split; [reflexivity|split; [intros; lia|intros; reflexivity]]).
      + assert (size <> 2 ^ 64 - 4) by (intros ->; by apply Hn0).
        rewrite (Z.mod_small (size + 4)) by lia.
        rewrite (Z.mod_small (size + 4 - size `mod` 4)) by lia.
        split; [|split; [lia|intros; lia]].
        rewrite (Z.div_mod size 4) at 1 by lia.
        replace (4 * (size `div` 4) + size `mod` 4 + 4 - size `mod` 4)
          with ((size `div` 4 + 1) * 4) by lia.
        apply Z.mod_mul. lia. }
  destruct Hmod as (H4 & Hlow & Hwrap).
  split; [done|]. split; [by apply Hal|]. by split.
Qed.

Lemma X1_Word32Align_rounds_up_witness :
  Word32Align 13 `mod` 4 = 0 /\
  Word32Align (Word32Align 13) = Word32Align 13 /\
  (13 <= 2 ^ 64 - 4 -> 13 <= Word32Align 13 < 13 + 4) /\
  (2 ^ 64 - 4 < 13 -> Word32Align 13 = 0).
Proof. apply (X1_Word32Align_rounds_up 13). lia. Defined.

(** ** RTCP and ParseRtcp *)

Lemma RTCP_true (data : list byte) :
  RTCP data = true <->
  4 <= Z.of_nat (length data) /\ at_ data 0 ≫ 6 = 2 /\
  rtcp_packet_type (at_ data 1).
Proof.
  unfold RTCP, rtcp_packet_type, kRtcpMinHeaderLength, kRtcpExpectedVersion.
  destruct (Z.ltb_spec (Z.of_nat (length data)) 4).
  { split; [done|lia]. }
  destruct (Z.eqb_spec (at_ data 0 ≫ 6) 2); cbn [negb];
    [|split; [done|intros (_ & ? & _); done]].
  pose proof (at_range data 1) as Hpt.
  split.
  - intros Hr. split; [done|]. split; [done|].
    destruct (at_ data 1) as [|p|p]; try done.
    repeat (destruct p as [p|p|]; try done); lia.
  - intros (_ & _ & [->|[->|Hpt']]); try done.
    assert (at_ data 1 = 200 \/ at_ data 1 = 201 \/ at_ data 1 = 202 \/
            at_ data 1 = 203 \/ at_ data 1 = 204 \/ at_ data 1 = 205 \/
            at_ data 1 = 206 \/ at_ data 1 = 207) as Hcases by lia.
    repeat (destruct Hcases as [->|Hcases]; [done|]). by rewrite Hcases.
Qed.

(** X2: [ParseRtcp] succeeds exactly on buffers of at least 8 bytes whose
    version is 2, hence on every such buffer that [RTCP] accepts.  On
    success the header length is 4 * (length field + 1), the packet type
    and SSRC are those of the buffer and the other members are untouched;
    on failure the whole header is untouched. *)
Theorem X2_ParseRtcp_result :
  forall (data : list byte) (header : RTPHeader),
    let len := (at_ data 2 ≪ 8) + at_ data 3 in
    ((ParseRtcp data header).1 = true <->
     8 <= Z.of_nat (length data) /\ at_ data 0 ≫ 6 = 2) /\
    (RTCP data = true -> 8 <= Z.of_nat (length data) ->
     (ParseRtcp data header).1 = true /\
     rtcp_packet_type (payloadType (ParseRtcp data header).2)) /\
    ((ParseRtcp data header).1 = false -> (ParseRtcp data header).2 = header) /\
    ((ParseRtcp data header).1 = true ->
     (ParseRtcp data header).2
     = mkRTPHeader (markerBit header) (at_ data 1) (sequenceNumber header)
         (timestamp header) (ReadBigEndian_u32 (drop 4 data))
         (numCSRCs header) (arrOfCSRCs header) (paddingLength header)
         (4 * (len + 1)) (extension header) /\
     0 <= len < 65536).
Proof.
  intros data header len.
  assert (Hlen : 0 <= len < 65536).
  { subst len. pose proof (at_range data 2). pose proof (at_range data 3).
    rewrite Z.shiftl_mul_pow2 by lia. lia. }
  assert (Hrtcp : RTCP data = true ->
                  at_ data 0 ≫ 6 = 2 /\ rtcp_packet_type (at_ data 1))
    by (intros HR; by apply RTCP_true in HR as (_ & ? & ?)).
  unfold ParseRtcp, kRtcpMinParseLength, kRtcpExpectedVersion.
  destruct (Z.ltb_spec (Z.of_nat (length data)) 8);
    [|destruct (Z.eqb_spec (at_ data 0 ≫ 6) 2)];
    cbn [negb fst snd payloadType].
  - split; [split; [done|lia]|]. split; [lia|]. by split.
  - split; [by split|]. split; [intros HR _; split; [done|by apply Hrtcp]|].
    split; [done|]. intros _. split; [|done].
    fold len. rewrite Z.shiftl_mul_pow2 by lia. f_equal. lia.
  - split; [split; [done|by intros [_ ?]]|].
    split; [intros HR; by apply Hrtcp in HR as [? _]|]. by split.
Qed.

Lemma X2_ParseRtcp_result_witness :
  (ParseRtcp sender_report header_init).1 = true /\
  rtcp_packet_type (payloadType (ParseRtcp sender_report header_init).2).
Proof.
  destruct (X2_ParseRtcp_result sender_report header_init) as (_ & H & _).
  apply H; [by vm_compute|]. vm_compute. discriminate.
Defined.

(** ** Parse *)

Section ParseFacts.
Variable kRtpOneByteHeaderExtensionId : Z.
Variable kInvalidType : RTPExtensionType.
Variable cvo : Z -> VideoRotation.

Abbreviation Parse' := (Parse kRtpOneByteHeaderExtensionId kInvalidType cvo).
Abbreviation OneByte := (ParseOneByteExtensionHeader kInvalidType cvo).

Lemma ParseOneByteExtensionHeader_frame header map ptr :
  with_extension (OneByte header map ptr).1 (extension header) = header.
Proof.
  unfold ParseOneByteExtensionHeader. destruct map as [G|]; [|by destruct header].
  destruct (ParseOneByteExtensionHeader_loop _ _ _ _ _ _) as [e log].
  by destruct header.
Qed.

Lemma ParseOneByteExtensionHeader_lengths header map ptr :
  headerLength (OneByte header map ptr).1 = headerLength header /\
  paddingLength (OneByte header map ptr).1 = paddingLength header /\
  numCSRCs (OneByte header map ptr).1 = numCSRCs header.
Proof.
  unfold ParseOneByteExtensionHeader. destruct map as [G|]; [|done].
  by destruct (ParseOneByteExtensionHeader_loop _ _ _ _ _ _) as [e log].
Qed.

Lemma rtp_CC_range data : 0 <= rtp_CC data <= 15.
Proof.
  unfold rtp_CC. pose proof (land_low_bits (at_ data 0) 4 ltac:(lia)) as H.
  change (Z.ones 4) with 15 in H. lia.
Qed.

Lemma ReadBigEndian_u16_range ptr : 0 <= ReadBigEndian_u16 ptr < 65536.
Proof.
  unfold ReadBigEndian_u16.
  pose proof (at_range ptr 0). pose proof (at_range ptr 1).
  split; [apply Z.lor_nonneg; split; [apply Z.shiftl_nonneg|]; lia|].
  destruct (Z.eq_dec (Z.lor (at_ ptr 0 ≪ 8) (at_ ptr 1)) 0) as [->|Hne]; [lia|].
  assert (0 <= at_ ptr 0 ≪ 8 < 2 ^ 16) as Hs
    by (rewrite Z.shiftl_mul_pow2 by lia; lia).
  assert (0 <= Z.lor (at_ ptr 0 ≪ 8) (at_ ptr 1))
    by (apply Z.lor_nonneg; lia).
  apply (Z.log2_lt_pow2 _ 16); [lia|].
  rewrite Z.log2_lor by lia.
  apply Z.max_lub_lt.
  - destruct (Z.eq_dec (at_ ptr 0 ≪ 8) 0) as [->|?]; [done|].
    apply Z.log2_lt_pow2; lia.
  - destruct (Z.eq_dec (at_ ptr 1) 0) as [->|?]; [done|].
    apply Z.log2_lt_pow2; lia.
Qed.

(** X3: the verdict of [Parse] depends on the fixed header, the length
    word of the extension and the padding byte only: it is [true] exactly
    when the buffer has 12 bytes, version 2, and room for the CSRCs, the
    extension announced and the padding.  On success the header length and
    padding length are these lengths; the header length is a multiple of 4
    and at least 12. *)
Theorem X3_Parse_verdict :
  forall (data : list byte) (header : RTPHeader)
         (map : option (Z -> RTPExtensionType)),
    let r := Parse' data header map in
    (r.1.1 = true <->
     12 <= Z.of_nat (length data) /\ at_ data 0 ≫ 6 = 2 /\
     rtp_header_length data + rtp_padding data <= Z.of_nat (length data)) /\
    (r.1.1 = true ->
     headerLength r.1.2 = rtp_header_length data /\
     paddingLength r.1.2 = rtp_padding data /\
     numCSRCs r.1.2 = rtp_CC data /\
     12 <= headerLength r.1.2 /\ headerLength r.1.2 `mod` 4 = 0).
Proof.
  intros data header map r. subst r.
  pose proof (rtp_CC_range data) as HCC.
  pose proof (ReadBigEndian_u16_range (drop 2 (rtp_extension_block data))) as HX.
  assert (0 <= rtp_padding data < 256) as Hpad.
  { unfold rtp_padding. destruct (rtp_P data); [apply at_range|lia]. }
  assert (rtp_header_length data `mod` 4 = 0) as Hmod.
  { unfold rtp_header_length. destruct (rtp_X data).
    - replace (12 + rtp_CC data * 4 +
               (4 + ReadBigEndian_u16 (drop 2 (rtp_extension_block data)) * 4))
        with ((4 + rtp_CC data +
               ReadBigEndian_u16 (drop 2 (rtp_extension_block data))) * 4)
        by lia.
      apply Z.mod_mul. lia.
    - replace (12 + rtp_CC data * 4 + 0) with ((3 + rtp_CC data) * 4) by lia.
      apply Z.mod_mul. lia. }
  assert (12 <= rtp_header_length data) as H12.
  { unfold rtp_header_length. destruct (rtp_X data); lia. }
  unfold Parse, kRtpMinParseLength, kRtpExpectedVersion.
  fold (rtp_CC data) (rtp_X data) (rtp_P data).
  fold (rtp_padding data). fold (rtp_extension_block data).
  unfold rtp_header_length in *.
  destruct (Z.ltb_spec (Z.of_nat (length data)) 12); [cbn; split; [split|]; [done|lia|done]|].
  destruct (Z.eqb_spec (at_ data 0 ≫ 6) 2); cbn [negb];
    [|cbn; split; [split|]; [done|by intros (_ & ? & _)|done]].
  destruct (Z.ltb_spec (Z.of_nat (length data)) (12 + rtp_CC data * 4)).
  { cbn. split; [split|]; [done| |done]. destruct (rtp_X data); lia. }
  destruct (rtp_X data).
  - destruct (Z.ltb_spec (Z.of_nat (length data) - (12 + rtp_CC data * 4)) 4).
    { cbn. split; [split|]; [done|lia|done]. }
    destruct (Z.ltb_spec (Z.of_nat (length data) - (12 + rtp_CC data * 4))
                (4 + ReadBigEndian_u16 (drop 2 (rtp_extension_block data)) * 4)).
    { cbn. split; [split|]; [done|lia|done]. }
    match goal with
    | |- context [if ?c then OneByte ?h ?m ?p else _] =>
        pose proof (ParseOneByteExtensionHeader_lengths h m p) as (Hl & Hp & Hc);
        destruct c; [destruct (OneByte h m p) as [h3 log]|]
    end;
      cbn [fst snd with_headerLength headerLength paddingLength numCSRCs] in *;
      match goal with
      | |- context [if ?a <? ?b then _ else _] => destruct (Z.ltb_spec a b)
      end;
      cbn [fst snd with_headerLength headerLength paddingLength numCSRCs];
      rewrite ?Hl, ?Hp, ?Hc in *;
      (split; [split; [done || lia|done || lia]|]); try done;
      intros _; repeat split; try done; try lia;
      rewrite <- Hmod; f_equal; lia.
  - cbn [headerLength paddingLength].
    destruct (Z.ltb_spec (Z.of_nat (length data))
                (12 + rtp_CC data * 4 + rtp_padding data));
      cbn [fst snd headerLength paddingLength numCSRCs];
      (split; [split; [done || lia|done || lia]|]); try done;
      intros _; repeat split; try done; try lia;
      rewrite <- Hmod; f_equal; lia.
Qed.

Lemma lor_bound a b n :
  0 <= a < 2 ^ n -> 0 <= b < 2 ^ n -> 0 <= Z.lor a b < 2 ^ n.
Proof.
  intros Ha Hb.
  assert (0 <= Z.lor a b) by (apply Z.lor_nonneg; lia).
  split; [done|].
  destruct (Z.eq_dec (Z.lor a b) 0) as [->|Hne]; [lia|].
  destruct (Z_lt_le_dec n 0) as [Hn|Hn].
  { rewrite Z.pow_neg_r in Ha by done. lia. }
  apply Z.log2_lt_pow2; [lia|].
  rewrite Z.log2_lor by lia.
  assert (forall x, 0 <= x < 2 ^ n -> x <> 0 -> Z.log2 x < n) as Hlog
    by (intros x Hx Hx0; apply Z.log2_lt_pow2; lia).
  destruct (Z.eq_dec a 0) as [->|?], (Z.eq_dec b 0) as [->|?].
  - done.
  - rewrite Z.max_r by (cbn; apply Z.log2_nonneg). by apply Hlog.
  - rewrite Z.max_l by (cbn; apply Z.log2_nonneg). by apply Hlog.
  - apply Z.max_lub_lt; by apply Hlog.
Qed.

Lemma shiftl_bound a k n :
  0 <= k -> 0 <= n -> 0 <= a < 2 ^ n -> 0 <= a ≪ k < 2 ^ (n + k).
Proof.
  intros Hk Hn Ha. rewrite Z.shiftl_mul_pow2, Z.pow_add_r by done.
  pose proof (Z.pow_pos_nonneg 2 k ltac:(lia) Hk). nia.
Qed.

Lemma ReadBigEndian_u24_range ptr : 0 <= ReadBigEndian_u24 ptr < 2 ^ 24.
Proof.
  unfold ReadBigEndian_u24.
  pose proof (at_range ptr 0). pose proof (at_range ptr 1).
  pose proof (at_range ptr 2).
  pose proof (shiftl_bound (at_ ptr 0) 16 8 ltac:(lia) ltac:(lia) ltac:(lia)).
  pose proof (shiftl_bound (at_ ptr 1) 8 8 ltac:(lia) ltac:(lia) ltac:(lia)).
  repeat apply lor_bound; cbn in *; lia.
Qed.

Lemma ReadBigEndian_s24_range ptr : - 2 ^ 23 <= ReadBigEndian_s24 ptr < 2 ^ 23.
Proof.
  unfold ReadBigEndian_s24. pose proof (ReadBigEndian_u24_range ptr) as Hu.
  destruct (Z.testbit _ 23) eqn:Hbit.
  - apply Z.testbit_true in Hbit; [|lia].
    assert (ReadBigEndian_u24 ptr `div` 2 ^ 23 <> 0) by (intros E; by rewrite E in Hbit).
    assert (2 ^ 23 <= ReadBigEndian_u24 ptr); [|lia].
    destruct (Z_lt_le_dec (ReadBigEndian_u24 ptr) (2 ^ 23)); [|done].
    rewrite Z.div_small in * by lia. done.
  - apply Z.testbit_false in Hbit; [|lia].
    assert (ReadBigEndian_u24 ptr < 2 ^ 23); [|lia].
    destruct (Z_lt_le_dec (ReadBigEndian_u24 ptr) (2 ^ 23)); [done|].
    assert (ReadBigEndian_u24 ptr `div` 2 ^ 23 = 1) as Hq;
      [|by rewrite Hq in Hbit].
    symmetry.
    apply (Z.div_unique _ _ 1 (ReadBigEndian_u24 ptr - 2 ^ 23)); lia.
Qed.

(** A property of the extension that every case of the [switch] keeps is
    kept by the whole loop. *)
Lemma ParseOneByteExtensionHeader_loop_invariant
    (Q : RTPHeaderExtension -> Prop) :
  (forall type len ptr e e',
      ParseElement cvo type len ptr e = inl e' -> Q e -> Q e') ->
  forall fuel GetType e ptr,
    Q e ->
    Q (ParseOneByteExtensionHeader_loop kInvalidType cvo fuel GetType e ptr).1.
Proof.
  intros Hstep. induction fuel as [|fuel IH]; intros GetType e ptr He;
    [by destruct ptr|].
  destruct ptr as [|b ptr]; [done|].
  cbn [ParseOneByteExtensionHeader_loop].
  destruct (_ =? 0); [by apply IH|].
  destruct (_ =? 15); [done|].
  destruct (_ <? _); [done|].
  destruct (decide _).
  - specialize (IH GetType e (drop (Z.to_nat (Z.land (byte_val b) 15 + 1)) ptr) He).
    by destruct (ParseOneByteExtensionHeader_loop _ _ _ _ _ _).
  - destruct (ParseElement _ _ _ _ _) as [e'|[w|]] eqn:HPE; [|done..].
    apply IH. by eapply Hstep.
Qed.

Lemma ParseOneByteExtensionHeader_invariant (Q : RTPHeaderExtension -> Prop) :
  (forall type len ptr e e',
      ParseElement cvo type len ptr e = inl e' -> Q e -> Q e') ->
  forall header map ptr,
    Q (extension header) -> Q (extension (OneByte header map ptr).1).
Proof.
  intros Hstep header map ptr He. unfold ParseOneByteExtensionHeader.
  destruct map as [G|]; [|done].
  pose proof (ParseOneByteExtensionHeader_loop_invariant Q Hstep
                (length ptr) G (extension header) ptr He) as HQ.
  by destruct (ParseOneByteExtensionHeader_loop _ _ _ _ _ _).
Qed.

Lemma ParseElement_in_range type len ptr e e' :
  ParseElement cvo type len ptr e = inl e' ->
  extension_in_range e -> extension_in_range e'.
Proof.
  unfold extension_in_range.
  intros HPE (Habs & Hoff & Htsn & Haud & Hmin & Hmax).
  pose proof (ReadBigEndian_u24_range ptr) as Hu24.
  pose proof (ReadBigEndian_s24_range ptr) as Hs24.
  pose proof (at_range ptr 0) as Hb0. pose proof (at_range ptr 1) as Hb1.
  pose proof (at_range ptr 2) as Hb2.
  destruct type; cbn [ParseElement] in HPE;
    try (destruct (negb _); [done|]); try done;
    try (destruct (_ && _); [done|]);
    simplify_eq; cbn; repeat split; try done; try lia.
  - pose proof (land_low_bits (at_ ptr 0) 7 ltac:(lia)) as H.
    change (Z.ones 7) with 127 in H. lia.
  - pose proof (land_low_bits (at_ ptr 0) 7 ltac:(lia)) as H.
    change (Z.ones 7) with 127 in H. lia.
  - apply Z.mod_pos_bound. lia.
  - apply Z.mod_pos_bound. lia.
  - right.
    pose proof (shiftl_bound (at_ ptr 0) 4 8 ltac:(lia) ltac:(lia) ltac:(lia)).
    pose proof (land_low_bits (at_ ptr 1 ≫ 4) 4 ltac:(lia)) as Hl.
    change (Z.ones 4) with 15 in Hl.
    pose proof (lor_bound (at_ ptr 0 ≪ 4) (Z.land (at_ ptr 1 ≫ 4) 15) 12
                  ltac:(cbn in *; lia) ltac:(cbn; lia)) as Hb.
    unfold kPlayoutDelayGranularityMs. split; [cbn in Hb; lia|].
    apply Z.mod_mul. lia.
  - right.
    pose proof (land_low_bits (at_ ptr 1) 4 ltac:(lia)) as Hl.
    change (Z.ones 4) with 15 in Hl.
    pose proof (shiftl_bound (Z.land (at_ ptr 1) 15) 8 4
                  ltac:(lia) ltac:(lia) ltac:(cbn; lia)).
    pose proof (lor_bound (Z.land (at_ ptr 1) 15 ≪ 8) (at_ ptr 2) 12
                  ltac:(cbn in *; lia) ltac:(cbn; lia)) as Hb.
    unfold kPlayoutDelayGranularityMs. split; [cbn in Hb; lia|].
    apply Z.mod_mul. lia.
Qed.

(** X4: every value that the one-byte parser decodes is in the range of
    its wire field: the absolute send time has 24 bits, the transmission
    offset is a signed 24-bit value, the transport sequence number has 16
    bits, the audio level has 7, and the playout delays are -1 or multiples
    of 10 ms up to 40950.  A header that is in these ranges stays in them,
    whatever the bytes. *)
Theorem X4_one_byte_extension_values_in_range :
  forall (header : RTPHeader) (map : option (Z -> RTPExtensionType))
         (ptr : list byte),
    extension_in_range (extension header) ->
    extension_in_range (extension (OneByte header map ptr).1).
Proof.
  intros header map ptr.
  apply ParseOneByteExtensionHeader_invariant.
  intros type len p e e'. apply ParseElement_in_range.
Qed.

Lemma OneByte_null_map header ptr : OneByte header None ptr = (header, []).
Proof. done. Qed.

(** The extension that a successful [Parse] returns: the reset one, or the
    result of the one-byte parser started from the reset one. *)
Lemma Parse_extension_cases data header map :
  (Parse' data header map).1.1 = true ->
  (extension (Parse' data header map).1.2 = reset_extension (extension header) /\
   (rtp_X data = false \/
    ReadBigEndian_u16 (rtp_extension_block data) <> kRtpOneByteHeaderExtensionId)) \/
  (rtp_X data = true /\
   ReadBigEndian_u16 (rtp_extension_block data) = kRtpOneByteHeaderExtensionId /\
   exists h2 ptr,
     extension h2 = reset_extension (extension header) /\
     extension (Parse' data header map).1.2 = extension (OneByte h2 map ptr).1).
Proof.
  unfold Parse.
  fold (rtp_CC data) (rtp_X data) (rtp_P data). fold (rtp_extension_block data).
  destruct (_ <? kRtpMinParseLength); [done|].
  destruct (negb _); [done|].
  destruct (_ <? 12 + _); [done|].
  destruct (rtp_X data).
  - destruct (_ <? 4); [done|]. destruct (_ <? 4 + _); [done|].
    destruct (Z.eqb_spec (ReadBigEndian_u16 (rtp_extension_block data))
                kRtpOneByteHeaderExtensionId) as [Hid|Hid].
    + match goal with
      | |- context [OneByte ?h ?m ?p] =>
          destruct (OneByte h m p) as [h3 log] eqn:HOB;
          intros Hok; right; split; [done|]; split; [done|];
          exists h, p; split; [done|]; rewrite HOB
      end.
      by destruct (_ <? _).
    + intros Hok. left. split; [|by right]. by destruct (_ <? _).
  - intros Hok. left. split; [|by left]. by destruct (_ <? _).
Qed.

(** X5: a successful [Parse] that runs no one-byte parser (no extension
    bit, another profile, or no extension map) returns the flags of the
    time offset, absolute send time, audio level and video rotation cleared
    and the playout delay at -1, whatever the header held; the transport
    sequence number, its flag and the frame marks are those the header held
    before the call. *)
Theorem X5_Parse_without_one_byte_block :
  forall (data : list byte) (header : RTPHeader)
         (map : option (Z -> RTPExtensionType)),
    (Parse' data header map).1.1 = true ->
    rtp_X data = false \/
    ReadBigEndian_u16 (rtp_extension_block data) <> kRtpOneByteHeaderExtensionId \/
    map = None ->
    extension (Parse' data header map).1.2
    = mkExtension false 0 false 0
        (hasTransportSequenceNumber (extension header))
        (transportSequenceNumber (extension header))
        false false 0 false kVideoRotation_0 (mkPlayoutDelay (-1) (-1))
        (frameMarks (extension header)).
Proof.
  intros data header map Hok Hnone.
  destruct (Parse_extension_cases data header map Hok)
    as [[-> _]|(HX & Hid & h2 & ptr & Hh2 & ->)]; [done|].
  destruct Hnone as [?|[?| ->]]; [congruence|done|].
  by rewrite OneByte_null_map.
Qed.

Lemma ParseElement_keeps_transport_sequence_number type len ptr e e' :
  ParseElement cvo type len ptr e = inl e' ->
  hasTransportSequenceNumber e = true -> hasTransportSequenceNumber e' = true.
Proof.
  intros HPE He.
  destruct type; cbn [ParseElement] in HPE;
    try (destruct (negb _); [done|]); try done;
    try (destruct (_ && _); [done|]);
    by simplify_eq.
Qed.

Lemma ParseElement_abs_send_time type len ptr e e' :
  ParseElement cvo type len ptr e = inl e' ->
  0 <= absoluteSendTime e < 2 ^ 24 -> 0 <= absoluteSendTime e' < 2 ^ 24.
Proof.
  intros HPE He. pose proof (ReadBigEndian_u24_range ptr).
  destruct type; cbn [ParseElement] in HPE;
    try (destruct (negb _); [done|]); try done;
    try (destruct (_ && _); [done|]);
    by simplify_eq.
Qed.

(** X6: [Parse] never clears a transport sequence number: when the header
    passed in has the flag set, the header of a successful [Parse] has it
    set as well, also for a packet that carries no such element. *)
Theorem X6_Parse_keeps_transport_sequence_number_flag :
  forall (data : list byte) (header : RTPHeader)
         (map : option (Z -> RTPExtensionType)),
    (Parse' data header map).1.1 = true ->
    hasTransportSequenceNumber (extension header) = true ->
    hasTransportSequenceNumber (extension (Parse' data header map).1.2) = true.
Proof.
  intros data header map Hok Htsn.
  destruct (Parse_extension_cases data header map Hok)
    as [[-> _]|(HX & Hid & h2 & ptr & Hh2 & ->)]; [done|].
  apply (ParseOneByteExtensionHeader_invariant
           (fun e => hasTransportSequenceNumber e = true)).
  - apply ParseElement_keeps_transport_sequence_number.
  - by rewrite Hh2.
Qed.

(** X7: the absolute send time of a header that [Parse] returns has 24
    bits, whatever the header held before, and its flag is only set for a
    packet with the extension bit, the one-byte profile and a non-null
    extension map. *)
Theorem X7_Parse_absolute_send_time :
  forall (data : list byte) (header : RTPHeader)
         (map : option (Z -> RTPExtensionType)),
    (Parse' data header map).1.1 = true ->
    0 <= absoluteSendTime (extension (Parse' data header map).1.2) < 2 ^ 24 /\
    (hasAbsoluteSendTime (extension (Parse' data header map).1.2) = true ->
     rtp_X data = true /\
     ReadBigEndian_u16 (rtp_extension_block data) = kRtpOneByteHeaderExtensionId /\
     map <> None).
Proof.
  intros data header map Hok.
  destruct (Parse_extension_cases data header map Hok)
    as [[-> _]|(HX & Hid & h2 & ptr & Hh2 & ->)]; [by cbn|].
  split.
  - apply (ParseOneByteExtensionHeader_invariant
             (fun e => 0 <= absoluteSendTime e < 2 ^ 24)).
    + apply ParseElement_abs_send_time.
    + rewrite Hh2. cbn. lia.
  - intros Hhas. split; [done|]. split; [done|]. intros ->.
    rewrite OneByte_null_map in Hhas. cbn [fst] in Hhas.
    by rewrite Hh2 in Hhas.
Qed.

End ParseFacts.

(** ** The elements of a one-byte block in sequence *)

Lemma lor_shiftl_add a b k :
  0 <= k -> 0 <= b < 2 ^ k -> Z.lor (a ≪ k) b = a * 2 ^ k + b.
Proof.
  intros Hk Hb. rewrite <- Z.shiftl_mul_pow2 by done.
  assert (Z.land (a ≪ k) b = 0) as Hdisjoint.
  { apply Z.bits_inj'. intros n Hn. rewrite Z.land_spec, Z.bits_0.
    destruct (Z_lt_le_dec n k).
    - by rewrite Z.shiftl_spec_low.
    - destruct (Z.eq_dec b 0) as [->|?];
        [by rewrite Z.bits_0, andb_false_r|].
      rewrite (Z.bits_above_log2 b n), andb_false_r; [done|lia|].
      assert (Z.log2 b < k) by (apply Z.log2_lt_pow2; lia). lia. }
  rewrite Z.add_nocarry_lxor by done. by rewrite Z.lxor_lor.
Qed.

Lemma ReadBigEndian_u24_sum ptr :
  ReadBigEndian_u24 ptr = at_ ptr 0 * 2 ^ 16 + at_ ptr 1 * 2 ^ 8 + at_ ptr 2.
Proof.
  unfold ReadBigEndian_u24.
  pose proof (at_range ptr 0). pose proof (at_range ptr 1).
  pose proof (at_range ptr 2).
  rewrite <- Z.lor_assoc.
  rewrite (lor_shiftl_add (at_ ptr 1) (at_ ptr 2) 8) by lia.
  rewrite (lor_shiftl_add (at_ ptr 0)) by lia. lia.
Qed.

Section OneByteSequencing.
Variable kInvalidType : RTPExtensionType.
Variable cvo : Z -> VideoRotation.

Abbreviation OneByte := (ParseOneByteExtensionHeader kInvalidType cvo).
Abbreviation loop := (ParseOneByteExtensionHeader_loop kInvalidType cvo).

Lemma loop_after_element GetType e (ptr : list byte) (n : nat) :
  loop (length ptr) GetType e (drop n ptr)
  = loop (length (drop n ptr)) GetType e (drop n ptr).
Proof.
  apply ParseOneByteExtensionHeader_loop_fuel. rewrite length_drop. lia.
Qed.

(** X8: what the one-byte parser passes over.  A byte whose id nibble is 0
    is padding, whatever its length nibble, and the parsing goes on with the
    next byte.  An element whose id the map does not know is passed over
    with its [len + 1] bytes of data and a warning, and the elements after
    it are parsed.  An element of id 15 ends the parsing: nothing after it
    is looked at. *)
Theorem X8_one_byte_skipped_bytes :
  forall (header : RTPHeader) (GetType : Z -> RTPExtensionType)
         (b : byte) (ptr : list byte),
    let id := Z.land (byte_val b) 0xf0 ≫ 4 in
    let len := Z.land (byte_val b) 0x0f in
    (id = 0 ->
     OneByte header (Some GetType) (b :: ptr)
     = OneByte header (Some GetType) ptr) /\
    (id = 15 ->
     OneByte header (Some GetType) (b :: ptr)
     = (header, [Verbose_Terminate])) /\
    (id <> 0 -> id <> 15 -> len + 1 <= Z.of_nat (length ptr) ->
     GetType id = kInvalidType ->
     OneByte header (Some GetType) (b :: ptr)
     = ((OneByte header (Some GetType) (drop (Z.to_nat (len + 1)) ptr)).1,
        Warning_UnknownId id ::
        (OneByte header (Some GetType) (drop (Z.to_nat (len + 1)) ptr)).2)).
Proof.
  intros header GetType b ptr id len.
  unfold ParseOneByteExtensionHeader.
  cbn [length ParseOneByteExtensionHeader_loop]. fold id len.
  split; [|split].
  - intros ->. done.
  - intros ->. cbn. by destruct header.
  - intros H0 H15 Hlen Hunknown.
    destruct (Z.eqb_spec id 0); [done|]. destruct (Z.eqb_spec id 15); [done|].
    destruct (Z.ltb_spec (Z.of_nat (length ptr)) (len + 1)); [lia|].
    destruct (decide _); [|done].
    rewrite loop_after_element.
    by destruct (ParseOneByteExtensionHeader_loop _ _ _ _ _ _).
Qed.

(** X9: an absolute-send-time element with length field 2 sets the flag
    and the 24-bit value read from its three bytes, most significant first,
    and the parsing goes on after these bytes with the other members of the
    extension as they were. *)
Theorem X9_one_byte_absolute_send_time_element :
  forall (header : RTPHeader) (GetType : Z -> RTPExtensionType)
         (b : byte) (ptr : list byte),
    let id := Z.land (byte_val b) 0xf0 ≫ 4 in
    let e := extension header in
    id <> 0 -> id <> 15 ->
    Z.land (byte_val b) 0x0f = 2 ->
    (3 <= length ptr)%nat ->
    GetType id = kRtpExtensionAbsoluteSendTime ->
    kInvalidType <> kRtpExtensionAbsoluteSendTime ->
    OneByte header (Some GetType) (b :: ptr)
    = OneByte
        (with_extension header
           (mkExtension
              (hasTransmissionTimeOffset e) (transmissionTimeOffset e)
              true (at_ ptr 0 * 2 ^ 16 + at_ ptr 1 * 2 ^ 8 + at_ ptr 2)
              (hasTransportSequenceNumber e) (transportSequenceNumber e)
              (hasAudioLevel e) (voiceActivity e) (audioLevel e)
              (hasVideoRotation e) (videoRotation e)
              (playout_delay e) (frameMarks e)))
        (Some GetType) (drop 3 ptr).
Proof.
  intros header GetType b ptr id e H0 H15 Hlen Hptr Htype Hvalid.
  unfold ParseOneByteExtensionHeader.
  cbn [length ParseOneByteExtensionHeader_loop]. fold id. rewrite Hlen.
  destruct (Z.eqb_spec id 0); [done|]. destruct (Z.eqb_spec id 15); [done|].
  destruct (Z.ltb_spec (Z.of_nat (length ptr)) (2 + 1)); [lia|].
  rewrite Htype. destruct (decide _); [done|].
  cbn [ParseElement Z.eqb Pos.eqb negb]. change (Z.to_nat (2 + 1)) with 3%nat.
  rewrite loop_after_element, ReadBigEndian_u24_sum.
  cbn [with_extension extension]. fold e.
  by destruct (ParseOneByteExtensionHeader_loop _ _ _ _ _ _).
Qed.

End OneByteSequencing.

(** * Further properties of delay_based_bwe.cc *)

(** ** ConvertMsTo24Bits *)

Lemma ConvertMsTo24Bits_mod time_ms :
  0 <= time_ms < 2 ^ 45 ->
  ConvertMsTo24Bits time_ms = ((time_ms * 2 ^ 18 + 500) `div` 1000) `mod` 2 ^ 24.
Proof.
  intros Hms. unfold ConvertMsTo24Bits, u32, u64, kAbsSendTimeFraction.
  rewrite (Z.mod_small time_ms) by lia.
  rewrite Z.shiftl_mul_pow2 by lia.
  rewrite (Z.mod_small (time_ms * 2 ^ 18)) by lia.
  rewrite (Z.mod_small (time_ms * 2 ^ 18 + 500)) by lia.
  change 0x00FFFFFF with (Z.ones 24). rewrite Z.land_ones by lia.
  set (q := (time_ms * 2 ^ 18 + 500) `div` 1000).
  change (2 ^ 32) with (2 ^ 24 * 2 ^ 8).
  rewrite Z.rem_mul_r by lia.
  rewrite Z.mul_comm, Z.mod_add by lia. apply Z.mod_mod. lia.
Qed.

(** X10: for a send time of less than 64 s, [ConvertMsTo24Bits] is the
    time in units of 2^-18 s rounded to the nearest unit, a 24-bit value:
    it differs from the exact quotient [time_ms * 2^18 / 1000] by at most
    half a unit. *)
Theorem X10_ConvertMsTo24Bits_rounds :
  forall time_ms : Z,
    0 <= time_ms < 64000 ->
    0 <= ConvertMsTo24Bits time_ms < 2 ^ 24 /\
    - 500 <= 1000 * ConvertMsTo24Bits time_ms - time_ms * 2 ^ 18 < 500.
Proof.
  intros time_ms Hms.
  rewrite ConvertMsTo24Bits_mod by lia.
  pose proof (Z.div_mod (time_ms * 2 ^ 18 + 500) 1000 ltac:(lia)) as Hdm.
  pose proof (Z.mod_pos_bound (time_ms * 2 ^ 18 + 500) 1000 ltac:(lia)) as Hr.
  assert (0 <= (time_ms * 2 ^ 18 + 500) `div` 1000 < 2 ^ 24) as Hq.
  { split; [apply Z.div_pos; lia|]. apply Z.div_lt_upper_bound; lia. }
  rewrite Z.mod_small by done. split; [done|lia].
Qed.

Lemma X10_ConvertMsTo24Bits_rounds_witness :
  0 <= ConvertMsTo24Bits 10 < 2 ^ 24 /\
  - 500 <= 1000 * ConvertMsTo24Bits 10 - 10 * 2 ^ 18 < 500.
Proof. apply (X10_ConvertMsTo24Bits_rounds 10). lia. Defined.

(** X11: the 24-bit send time wraps every 64 s: two send times that are
    64000 ms apart convert to the same value. *)
Theorem X11_ConvertMsTo24Bits_wraps :
  forall time_ms : Z,
    0 <= time_ms < 2 ^ 44 ->
    ConvertMsTo24Bits (time_ms + 64000) = ConvertMsTo24Bits time_ms.
Proof.
  intros time_ms Hms.
  rewrite !ConvertMsTo24Bits_mod by lia.
  replace ((time_ms + 64000) * 2 ^ 18 + 500)
    with (time_ms * 2 ^ 18 + 500 + 2 ^ 24 * 1000) by lia.
  rewrite Z.div_add by lia.
  rewrite <- Zplus_mod_idemp_r, Z.mod_same by lia.
  by rewrite Z.add_0_r.
Qed.

Lemma X11_ConvertMsTo24Bits_wraps_witness :
  ConvertMsTo24Bits (63995 + 64000) = ConvertMsTo24Bits 63995.
Proof. apply X11_ConvertMsTo24Bits_wraps. lia. Defined.

(** ** ComputeClusters *)

Lemma AddCluster_app clusters0 clusters c :
  AddCluster (clusters0 ++ clusters) c = clusters0 ++ AddCluster clusters c.
Proof. unfold AddCluster. by rewrite app_assoc. Qed.

Lemma scan_step_prefix clusters0 s it :
  scan_step (mkScan (clusters0 ++ scan_clusters s) (current s)
                    (prev_send_time s) (prev_recv_time s)
                    (last_probe_cluster_id s)) it
  = let s' := scan_step s it in
    mkScan (clusters0 ++ scan_clusters s') (current s')
           (prev_send_time s') (prev_recv_time s') (last_probe_cluster_id s').
Proof.
  unfold scan_step. cbn [scan_clusters current prev_send_time prev_recv_time
                         last_probe_cluster_id].
  destruct (0 <=? prev_send_time s); [|done].
  cbn zeta. rewrite AddCluster_app.
  by destruct (negb _ && _).
Qed.

(** X12: [ComputeClusters] appends to the list it is given and leaves the
    clusters already there as they are: the result is that list followed by
    the clusters computed for an empty one. *)
Theorem X12_ComputeClusters_appends :
  forall (clusters : list Cluster) (probes : list Probe),
    ComputeClusters clusters probes = clusters ++ ComputeClusters [] probes.
Proof.
  intros clusters probes. unfold ComputeClusters.
  assert (forall s,
             fold_left scan_step probes
               (mkScan (clusters ++ scan_clusters s) (current s)
                       (prev_send_time s) (prev_recv_time s)
                       (last_probe_cluster_id s))
             = let s' := fold_left scan_step probes s in
               mkScan (clusters ++ scan_clusters s') (current s')
                      (prev_send_time s') (prev_recv_time s')
                      (last_probe_cluster_id s')) as Hfold.
  { induction probes as [|p probes IH]; intros s; [done|].
    cbn [fold_left]. rewrite scan_step_prefix. cbn zeta. apply IH. }
  specialize (Hfold (scan_init [])). cbn [scan_init scan_clusters current
    prev_send_time prev_recv_time last_probe_cluster_id] in Hfold.
  rewrite app_nil_r in Hfold. unfold scan_init at 1. rewrite Hfold.
  cbn zeta. unfold scan_finish. cbn [current scan_clusters].
  destruct (_ <=? _); [apply AddCluster_app|done].
Qed.

Lemma deltas_held_AddCluster clusters c :
  foldr (fun c n => count c + n) 0 (AddCluster clusters c)
  = foldr (fun c n => count c + n) 0 clusters + count c.
Proof.
  unfold AddCluster. rewrite foldr_app. cbn [foldr count].
  induction clusters as [|x clusters IH]; cbn [foldr]; lia.
Qed.

Lemma scan_step_deltas s it :
  Forall (fun c => kMinClusterSize <= count c) (scan_clusters s) ->
  0 <= count (current s) ->
  Forall (fun c => kMinClusterSize <= count c) (scan_clusters (scan_step s it)) /\
  0 <= count (current (scan_step s it)) /\
  deltas_held (scan_step s it)
  <= deltas_held s + (if 0 <=? prev_send_time s then 1 else 0).
Proof.
  intros Hall Hcur. unfold deltas_held, scan_step.
  destruct (0 <=? prev_send_time s);
    [|cbn [scan_clusters current]; split; [done|]; split; [done|lia]].
  cbn zeta.
  set (cur1 := if _ && _ then _ else current s).
  assert (count cur1 = count (current s)) as Hc
    by (subst cur1; by destruct (_ && _)).
  destruct (negb _); cbn [andb scan_clusters current count Cluster0].
  - destruct (Z.leb_spec kMinClusterSize (count cur1)).
    + split; [|split; [lia|rewrite deltas_held_AddCluster; lia]].
      unfold AddCluster. apply Forall_app. split; [done|].
      by repeat constructor.
    + split; [done|]. split; lia.
  - split; [done|]. split; lia.
Qed.

Lemma scan_deltas (probes : list Probe) :
  forall s,
    Forall (fun c => kMinClusterSize <= count c) (scan_clusters s) ->
    0 <= count (current s) ->
    let s' := fold_left scan_step probes s in
    Forall (fun c => kMinClusterSize <= count c) (scan_clusters s') /\
    0 <= count (current s') /\
    deltas_held s'
    <= deltas_held s +
       (if 0 <=? prev_send_time s then Z.of_nat (length probes)
        else Z.max 0 (Z.of_nat (length probes) - 1)).
Proof.
  induction probes as [|p probes IH]; intros s Hall Hcur.
  { cbn. split; [done|]. split; [done|]. destruct (_ <=? _); lia. }
  cbn [fold_left length].
  destruct (scan_step_deltas s p Hall Hcur) as (Hall' & Hcur' & Hd).
  destruct (IH (scan_step s p) Hall' Hcur') as (Hall'' & Hcur'' & Hd').
  split; [done|]. split; [done|].
  cbv zeta in Hd'.
  destruct (0 <=? prev_send_time s), (0 <=? prev_send_time (scan_step s p)); lia.
Qed.

(** X13: every cluster that [ComputeClusters] computes holds at least
    [kMinClusterSize] = 4 deltas, and all clusters together hold at most one
    delta for each probe after the first: a list of [n] probes gives at most
    [(n - 1) / 4] clusters, none when there are fewer than five probes. *)
Theorem X13_ComputeClusters_sizes :
  forall probes : list Probe,
    Forall (fun c => 4 <= count c) (ComputeClusters [] probes) /\
    4 * Z.of_nat (length (ComputeClusters [] probes))
    <= Z.max 0 (Z.of_nat (length probes) - 1) /\
    ((length probes < 5)%nat -> ComputeClusters [] probes = []).
Proof.
  intros probes.
  destruct (scan_deltas probes (scan_init [])) as (Hall & Hcur & Hd);
    [constructor|done|].
  cbv zeta in Hd. cbn [scan_init prev_send_time Z.leb Z.compare] in Hd.
  unfold deltas_held at 2 in Hd.
  cbn [scan_init scan_clusters current foldr count Cluster0] in Hd.
  set (s := fold_left scan_step probes (scan_init [])) in *.
  assert (Forall (fun c => 4 <= count c) (ComputeClusters [] probes) /\
          foldr (fun c n => count c + n) 0 (ComputeClusters [] probes)
          <= deltas_held s) as [Hfin Hsum].
  { unfold ComputeClusters. fold s. unfold scan_finish, deltas_held.
    destruct (Z.leb_spec kMinClusterSize (count (current s))).
    - split; [|rewrite deltas_held_AddCluster; lia].
      unfold AddCluster. apply Forall_app. split; [done|]. by repeat constructor.
    - split; [done|lia]. }
  assert (forall l : list Cluster,
             Forall (fun c => 4 <= count c) l ->
             4 * Z.of_nat (length l) <= foldr (fun c n => count c + n) 0 l)
    as Hcount.
  { induction l as [|c l IH]; intros Hl; [cbn; lia|].
    apply Forall_cons in Hl as [Hc Hl]. specialize (IH Hl).
    cbn [foldr length]. lia. }
  specialize (Hcount _ Hfin).
  split; [done|]. split; [lia|].
  intros Hshort. destruct (ComputeClusters [] probes); [done|].
  cbn [length] in Hcount. lia.
Qed.

(** ** The per-packet pipeline *)

Section PipelineFacts.
Context {IA OE OD RS RC : Type}.
Context `{!InterArrivalOps IA, !OveruseEstimatorOps OE,
          !OveruseDetectorOps OD, !RateStatisticsOps RS,
          !AimdRateControlOps RC}.

Abbreviation Bwe := (DelayBasedBwe IA OE OD RS RC).

(** [ProcessClusters] writes [probes_] and [remote_rate_] only. *)
Lemma ProcessClusters_frame (b : Bwe) (now_ms : Z) :
  let b' := (ProcessClusters b now_ms).1 in
  inter_arrival_ b' = inter_arrival_ b /\ estimator_ b' = estimator_ b /\
  detector_ b' = detector_ b /\ incoming_bitrate_ b' = incoming_bitrate_ b /\
  total_probes_received_ b' = total_probes_received_ b /\
  first_packet_time_ms_ b' = first_packet_time_ms_ b /\
  last_update_ms_ b' = last_update_ms_ b /\ ssrcs_ b' = ssrcs_ b.
Proof.
  unfold ProcessClusters, finish_probing.
  repeat case_match; by cbn.
Qed.

Lemma register_packet_fields (b : Bwe) (t n ssrc : Z) :
  let b4 := register_packet b t n ssrc in
  first_packet_time_ms_ b4
  = (if first_packet_time_ms_ b =? -1 then t else first_packet_time_ms_ b) /\
  last_update_ms_ b4 = last_update_ms_ b /\
  total_probes_received_ b4 = total_probes_received_ b /\
  detector_ b4 = detector_ b.
Proof.
  unfold register_packet, TimeoutStreams.
  destruct (_ =? _), (decide _); by cbn.
Qed.

(** The members that the tail of [IncomingPacketInfo], from the call of
    [ComputeDeltas] on, does not write. *)
Lemma IncomingPacketInfo_tail_frame (b : Bwe) t st n ssrc id :
  let b4 := register_packet b t n ssrc in
  let b5 :=
    if is_probe b4 t n id
    then (ProcessClusters
            (push_probe b4 (mkProbe (send_time_ms_of st) t n id)) t).1
    else b4 in
  let r := IncomingPacketInfo b t st n ssrc id in
  first_packet_time_ms_ r.1 = first_packet_time_ms_ b5 /\
  total_probes_received_ r.1 = total_probes_received_ b5 /\
  ssrcs_ r.1 = ssrcs_ b5 /\
  ((r.2 = [] /\ last_update_ms_ r.1 = last_update_ms_ b5) \/
   (exists bitrate_bps,
       r.2 = [OnReceiveBitrateChanged (Keys (ssrcs_ r.1)) bitrate_bps] /\
       ValidEstimate (remote_rate_ r.1) = true /\
       last_update_ms_ r.1 = t)).
Proof.
  unfold IncomingPacketInfo.
  fold (register_packet b t n ssrc). fold (send_time_ms_of st).
  set (b4 := register_packet b t n ssrc).
  set (p := mkProbe _ t n id).
  unfold is_probe.
  destruct (_ && _ && _);
    [destruct (ProcessClusters (push_probe b4 p) t) as [bq r]|];
    cbn [fst];
    destruct (ComputeDeltas _ _ _ _) as [ia [[[ts_delta t_delta] size_delta]|]];
    repeat (case_match; simplify_eq);
    cbn [fst snd set_filters set_incoming_bitrate set_remote_rate
         set_last_update_ms first_packet_time_ms_ total_probes_received_
         ssrcs_ last_update_ms_ remote_rate_];
    (split; [done|]); (split; [done|]); (split; [done|]);
    first [by left | right; eexists; by repeat split].
Qed.

(** X14: a packet causes at most one call of the observer.  When the
    observer is called, the list it receives is the list of the streams in
    the map, which contains the stream of the packet, the rate controller
    has a valid estimate, and [last_update_ms_] is the arrival time; when it
    is not called, [last_update_ms_] is unchanged. *)
Theorem X14_IncomingPacketInfo_observer_call :
  forall (b : Bwe) (arrival_time_ms send_time_24bits payload_size ssrc
          probe_cluster_id : Z),
    let r := IncomingPacketInfo b arrival_time_ms send_time_24bits payload_size
                                ssrc probe_cluster_id in
    (r.2 = [] /\ last_update_ms_ r.1 = last_update_ms_ b) \/
    (exists bitrate_bps,
        r.2 = [OnReceiveBitrateChanged (Keys (ssrcs_ r.1)) bitrate_bps] /\
        ssrc ∈ Keys (ssrcs_ r.1) /\
        ValidEstimate (remote_rate_ r.1) = true /\
        last_update_ms_ r.1 = arrival_time_ms).
Proof.
  intros b t st n ssrc id r. subst r.
  destruct (IncomingPacketInfo_tail_frame b t st n ssrc id)
    as (_ & _ & _ & [[Hev Hlast]|(bitrate & Hev & Hvalid & Hlast)]).
  - left. split; [done|]. rewrite Hlast.
    destruct (register_packet_fields b t n ssrc) as (_ & Hl & _).
    destruct (is_probe _ _ _ _); [|done].
    destruct (ProcessClusters_frame
                (push_probe (register_packet b t n ssrc)
                            (mkProbe (send_time_ms_of st) t n id)) t)
      as (_ & _ & _ & _ & _ & _ & -> & _).
    done.
  - right. exists bitrate. split; [done|]. split; [|done].
    apply Keys_spec. rewrite IncomingPacketInfo_ssrcs.
    by rewrite lookup_insert_eq.
Qed.

(** X15: after any packet the stream of the packet is in the map with the
    arrival time as its last-seen time, so that the map is not empty and
    [LatestEstimate], when the estimate is valid, returns the estimate of the
    rate controller and a list that contains the stream. *)
Theorem X15_IncomingPacketInfo_registers_stream :
  forall (b : Bwe) (arrival_time_ms send_time_24bits payload_size ssrc
          probe_cluster_id : Z),
    let b' := (IncomingPacketInfo b arrival_time_ms send_time_24bits
                                  payload_size ssrc probe_cluster_id).1 in
    ssrcs_ b' !! ssrc = Some arrival_time_ms /\
    ssrcs_ b' <> ∅ /\
    ssrc ∈ Keys (ssrcs_ b') /\
    (ValidEstimate (remote_rate_ b') = true ->
     Bwe_LatestEstimate b'
     = Some (Keys (ssrcs_ b'), LatestEstimate (remote_rate_ b'))).
Proof.
  intros b t st n ssrc id b'. subst b'.
  set (b' := (IncomingPacketInfo b t st n ssrc id).1).
  assert (ssrcs_ b' !! ssrc = Some t) as Hin.
  { subst b'. rewrite IncomingPacketInfo_ssrcs. by rewrite lookup_insert_eq. }
  assert (ssrcs_ b' <> ∅) as Hne.
  { intros Hempty. rewrite Hempty in Hin. by rewrite lookup_empty in Hin. }
  split; [done|]. split; [done|]. split; [apply Keys_spec; by rewrite Hin|].
  intros Hvalid. unfold Bwe_LatestEstimate. rewrite Hvalid. cbn [negb].
  by destruct (decide _).
Qed.

Lemma IncomingPacketInfo_first_packet_time (b : Bwe) t st n ssrc id :
  first_packet_time_ms_ (IncomingPacketInfo b t st n ssrc id).1
  = if first_packet_time_ms_ b =? -1 then t else first_packet_time_ms_ b.
Proof.
  destruct (IncomingPacketInfo_tail_frame b t st n ssrc id) as (-> & _).
  destruct (register_packet_fields b t n ssrc) as (Hf & _).
  destruct (is_probe _ _ _ _); [|done].
  destruct (ProcessClusters_frame
              (push_probe (register_packet b t n ssrc)
                          (mkProbe (send_time_ms_of st) t n id)) t)
    as (_ & _ & _ & _ & _ & -> & _).
  done.
Qed.

Lemma IncomingPacketInfo_first_packet_time_set (b : Bwe) t st n ssrc id :
  first_packet_time_ms_ b <> -1 ->
  first_packet_time_ms_ (IncomingPacketInfo b t st n ssrc id).1
  = first_packet_time_ms_ b.
Proof.
  intros Hset. rewrite IncomingPacketInfo_first_packet_time.
  by destruct (Z.eqb_spec (first_packet_time_ms_ b) (-1)).
Qed.

Lemma IncomingPacketFeedbackVector_first_packet_time (v : list PacketInfo) :
  forall (b : Bwe) (evs : list Event),
    first_packet_time_ms_ b <> -1 ->
    first_packet_time_ms_
      (fold_left
         (fun (acc : Bwe * list Event) packet_info =>
            let '(b', evs) :=
              IncomingPacketInfo acc.1 (pi_arrival_time_ms packet_info)
                (ConvertMsTo24Bits (pi_send_time_ms packet_info))
                (pi_payload_size packet_info) 0
                (pi_probe_cluster_id packet_info) in
            (b', acc.2 ++ evs))
         v (b, evs)).1
    = first_packet_time_ms_ b.
Proof.
  induction v as [|x v IH]; intros b evs Hset; [done|].
  cbn [fold_left fst snd].
  pose proof (IncomingPacketInfo_first_packet_time_set b (pi_arrival_time_ms x)
                (ConvertMsTo24Bits (pi_send_time_ms x)) (pi_payload_size x) 0
                (pi_probe_cluster_id x) Hset) as Hx.
  destruct (IncomingPacketInfo _ _ _ _ _ _) as [b' evs']. cbn [fst] in Hx.
  rewrite IH; [done|]. by rewrite Hx.
Qed.

Lemma deliver_first_packet_time (b : Bwe) (i : Ingress) :
  first_packet_time_ms_ b <> -1 ->
  first_packet_time_ms_ (deliver b i).1 = first_packet_time_ms_ b.
Proof.
  intros Hset. destruct i as [t n h|t n h id|v]; cbn [deliver].
  - unfold IncomingPacket. destruct (negb _); [done|].
    by apply IncomingPacketInfo_first_packet_time_set.
  - unfold IncomingPacket_probe. destruct (negb _); [done|].
    by apply IncomingPacketInfo_first_packet_time_set.
  - by apply IncomingPacketFeedbackVector_first_packet_time.
Qed.

(** X16: the first packet that enters [IncomingPacketInfo] sets
    [first_packet_time_ms_] to its arrival time, and from then on no call
    changes it, not even one that finds every stream timed out. *)
Theorem X16_first_packet_time_set_once :
  forall (b : Bwe) (calls : list Ingress),
    (forall t st n ssrc id,
        first_packet_time_ms_ b = -1 ->
        first_packet_time_ms_ (IncomingPacketInfo b t st n ssrc id).1 = t) /\
    (first_packet_time_ms_ b <> -1 ->
     first_packet_time_ms_ (run b calls).1 = first_packet_time_ms_ b).
Proof.
  intros b calls. split.
  - intros t st n ssrc id Hfirst.
    by rewrite IncomingPacketInfo_first_packet_time, Hfirst.
  - unfold run. generalize (@nil Event). revert b.
    induction calls as [|i calls IH]; intros b evs Hset; [done|].
    cbn [fold_left fst snd].
    pose proof (deliver_first_packet_time b i Hset) as Hi.
    destruct (deliver b i) as [b' evs']. cbn [fst] in Hi.
    rewrite <- Hi. apply IH. by rewrite Hi.
Qed.

(** X17: a packet is stored as a probe, and counted in
    [total_probes_received_], only if it carries a probe cluster id, has more
    than 200 bytes of payload, and arrives while there is no valid estimate
    or within 2000 ms of the first packet.  Any other packet leaves the probe
    list and the counter as they were. *)
Theorem X17_probe_admission :
  forall (b : Bwe) (arrival_time_ms send_time_24bits payload_size ssrc
          probe_cluster_id : Z),
    let r := IncomingPacketInfo b arrival_time_ms send_time_24bits payload_size
                                ssrc probe_cluster_id in
    let first :=
      if first_packet_time_ms_ b =? -1 then arrival_time_ms
      else first_packet_time_ms_ b in
    (probe_cluster_id = kNotAProbe \/ payload_size <= 200 \/
     (ValidEstimate (remote_rate_ b) = true /\
      2000 <= arrival_time_ms - first) ->
     probes_ r.1 = probes_ b /\
     total_probes_received_ r.1 = total_probes_received_ b) /\
    (probe_cluster_id <> kNotAProbe -> 200 < payload_size ->
     ValidEstimate (remote_rate_ b) = false \/ arrival_time_ms - first < 2000 ->
     total_probes_received_ r.1 = u64 (total_probes_received_ b + 1)).
Proof.
  intros b t st n ssrc id r first. subst r.
  destruct (IncomingPacketInfo_tail_frame b t st n ssrc id) as (_ & -> & _).
  rewrite IncomingPacketInfo_probes.
  destruct (register_packet_fields b t n ssrc) as (Hfirst & _ & Htotal & _).
  destruct (register_packet_frame b t n ssrc) as [_ Hrc].
  fold first in Hfirst.
  unfold is_probe. rewrite Hfirst, Hrc.
  unfold kMinProbePacketSize, kInitialProbingIntervalMs.
  split.
  - intros Hno.
    assert (negb (id =? kNotAProbe) && (200 <? n) &&
            (negb (ValidEstimate (remote_rate_ b)) || (t - first <? 2000))
            = false) as ->; [|done].
    destruct Hno as [->|[Hn|[Hv Ht]]].
    + by rewrite Z.eqb_refl.
    + destruct (Z.ltb_spec 200 n); [lia|]. by rewrite andb_false_r.
    + rewrite Hv. destruct (Z.ltb_spec (t - first) 2000); [lia|].
      by rewrite !andb_false_r.
  - intros Hid Hn Hv.
    assert (negb (id =? kNotAProbe) && (200 <? n) &&
            (negb (ValidEstimate (remote_rate_ b)) || (t - first <? 2000))
            = true) as ->.
    { destruct (Z.eqb_spec id kNotAProbe); [done|].
      destruct (Z.ltb_spec 200 n); [|lia]. cbn [negb andb].
      destruct Hv as [->|Ht]; [done|].
      destruct (Z.ltb_spec (t - first) 2000); [|lia]. apply orb_true_r. }
    destruct (ProcessClusters_frame
                (push_probe (register_packet b t n ssrc)
                            (mkProbe (send_time_ms_of st) t n id)) t)
      as (_ & _ & _ & _ & -> & _).
    cbn [push_probe total_probes_received_]. by rewrite Htotal.
Qed.

Lemma ProcessClusters_probes_suffix (b : Bwe) now_ms :
  probes_ (ProcessClusters b now_ms).1 `suffix_of` probes_ b.
Proof.
  unfold ProcessClusters, finish_probing.
  repeat case_match; cbn [fst set_probes set_remote_rate probes_];
    try done; try apply suffix_nil.
  destruct (probes_ b) as [|x l]; [done|]. by exists [x].
Qed.

(** X18: after a packet the probe list is the old list, or an end piece of
    the old list with the probe of the packet appended: probes are only
    dropped from the front, the list keeps the order of arrival and grows by
    one probe at most. *)
Theorem X18_probe_list_keeps_arrival_order :
  forall (b : Bwe) (arrival_time_ms send_time_24bits payload_size ssrc
          probe_cluster_id : Z),
    let r := IncomingPacketInfo b arrival_time_ms send_time_24bits payload_size
                                ssrc probe_cluster_id in
    (probes_ r.1 = probes_ b \/
     probes_ r.1
       `suffix_of`
       (probes_ b ++ [mkProbe (send_time_ms_of send_time_24bits)
                              arrival_time_ms payload_size probe_cluster_id])) /\
    (length (probes_ r.1) <= length (probes_ b) + 1)%nat.
Proof.
  intros b t st n ssrc id r. subst r.
  rewrite IncomingPacketInfo_probes.
  destruct (is_probe _ _ _ _); [|split; [by left|lia]].
  pose proof (ProcessClusters_probes_suffix
                (push_probe (register_packet b t n ssrc)
                            (mkProbe (send_time_ms_of st) t n id)) t) as Hs.
  cbn [push_probe probes_] in Hs. rewrite register_packet_probes in Hs.
  split; [by right|].
  apply suffix_length in Hs. rewrite length_app in Hs. cbn [length] in Hs. lia.
Qed.

(** X19: [RemoveStream] takes the stream, and no other, out of the map and
    out of the list that [LatestEstimate] returns; the other streams keep
    their last-seen times.  It writes nothing but the map: every other
    member is as it was, and unlike a timeout it does not renew the filters
    when the map becomes empty.  With a valid estimate, removing the only
    stream makes [LatestEstimate] return the empty list and 0 bps. *)
Theorem X19_RemoveStream_effect :
  forall (b : Bwe) (ssrc : Z),
    let b' := RemoveStream b ssrc in
    (forall k, k ∈ Keys (ssrcs_ b') <-> k ∈ Keys (ssrcs_ b) /\ k <> ssrc) /\
    inter_arrival_ b' = inter_arrival_ b /\ estimator_ b' = estimator_ b /\
    remote_rate_ b' = remote_rate_ b /\ probes_ b' = probes_ b /\
    ((forall k, k ∈ Keys (ssrcs_ b) -> k = ssrc) ->
     ValidEstimate (remote_rate_ b) = true ->
     Bwe_LatestEstimate b' = Some ([], 0)) /\
    (forall k, ssrcs_ b' !! k
               = if decide (k = ssrc) then None else ssrcs_ b !! k) /\
    b' = mkBwe (inter_arrival_ b) (estimator_ b) (detector_ b)
               (incoming_bitrate_ b) (remote_rate_ b) (probes_ b)
               (total_probes_received_ b) (first_packet_time_ms_ b)
               (last_update_ms_ b) (ssrcs_ b').
Proof.
  intros b ssrc b'. subst b'. unfold RemoveStream.
  cbn [set_ssrcs ssrcs_ inter_arrival_ estimator_ remote_rate_ probes_].
  assert (forall k, k ∈ Keys (delete ssrc (ssrcs_ b))
                    <-> k ∈ Keys (ssrcs_ b) /\ k <> ssrc) as Hkeys.
  { intros k. rewrite !(proj1 (Keys_spec _)).
    destruct (decide (k = ssrc)) as [->|Hne].
    - rewrite lookup_delete_eq. split; [by intros [? ?]|by intros [_ ?]].
    - rewrite lookup_delete_ne by done. split; [by intros ?|by intros [? _]]. }
  split; [done|]. repeat (split; [done|]).
  split; [|split; [|done]].
  - intros Honly Hvalid. unfold Bwe_LatestEstimate.
    cbn [set_ssrcs ssrcs_ remote_rate_]. rewrite Hvalid. cbn [negb].
    assert (delete ssrc (ssrcs_ b) = ∅) as ->.
    { apply map_empty. intros k.
      destruct (delete ssrc (ssrcs_ b) !! k) as [v|] eqn:Hk; [|done].
      assert (k ∈ Keys (delete ssrc (ssrcs_ b))) as Hin
        by (apply Keys_spec; by rewrite Hk).
      apply Hkeys in Hin as [Hin Hne]. by apply Honly in Hin. }
    destruct (decide _); [|done]. unfold Keys. by rewrite map_to_list_empty.
  - intros k. destruct (decide (k = ssrc)) as [->|Hne].
    + apply lookup_delete_eq.
    + by apply lookup_delete_ne.
Qed.

Lemma IncomingPacketInfo_inter_arrival (b : Bwe) t st n ssrc id :
  inter_arrival_ (IncomingPacketInfo b t st n ssrc id).1
  = (ComputeDeltas (inter_arrival_ (TimeoutStreams b t))
                   (u32 (st ≪ kAbsSendTimeInterArrivalUpshift)) t n).1.
Proof.
  assert (inter_arrival_ (register_packet b t n ssrc)
          = inter_arrival_ (TimeoutStreams b t)) as H4.
  { unfold register_packet, TimeoutStreams.
    cbn [set_ssrcs set_incoming_bitrate set_first_packet_time_ms ssrcs_
         inter_arrival_].
    destruct (_ =? _); cbn [set_first_packet_time_ms ssrcs_];
      by destruct (decide _). }
  unfold IncomingPacketInfo.
  fold (register_packet b t n ssrc). fold (send_time_ms_of st).
  set (b4 := register_packet b t n ssrc) in *.
  set (p := mkProbe _ t n id).
  pose proof (ProcessClusters_frame (push_probe b4 p) t) as (HF & _).
  destruct (ProcessClusters (push_probe b4 p) t) as [bq r].
  cbn [fst push_probe inter_arrival_] in HF.
  rewrite <- H4.
  destruct (_ && _ && _); rewrite <- ?HF;
    destruct (ComputeDeltas _ _ _ _) as [ia [[[ts_delta t_delta] size_delta]|]];
    repeat (case_match; simplify_eq); by cbn.
Qed.

(** X20: a packet that finds no live stream, because the map is empty or
    every stream in it has been silent for more than 2000 ms, is passed to a
    newly constructed [InterArrival]: the filter of the estimator after the
    packet is the new filter after one call of [ComputeDeltas], with the
    24-bit send time shifted up by 8 bits as timestamp. *)
Theorem X20_packet_without_live_stream :
  forall (b : Bwe) (arrival_time_ms send_time_24bits payload_size ssrc
          probe_cluster_id : Z),
    (forall k last_seen,
        ssrcs_ b !! k = Some last_seen -> 2000 < arrival_time_ms - last_seen) ->
    inter_arrival_
      (IncomingPacketInfo b arrival_time_ms send_time_24bits payload_size ssrc
                          probe_cluster_id).1
    = (ComputeDeltas
         (InterArrival_new ((5 ≪ 26) `quot` 1000) kTimestampToMs true)
         (u32 (send_time_24bits ≪ 8)) arrival_time_ms payload_size).1.
Proof.
  intros b t st n ssrc id Hsilent.
  rewrite IncomingPacketInfo_inter_arrival.
  unfold TimeoutStreams.
  assert (filter (fun kv : Z * Z => ¬ (kStreamTimeOutMs < t - kv.2)) (ssrcs_ b)
          = ∅) as ->.
  { apply map_empty. intros k. apply map_lookup_filter_None. right.
    intros v Hv Hlive. apply Hsilent in Hv. cbn in Hlive.
    unfold kStreamTimeOutMs in Hlive. lia. }
  destruct (decide _); [|done]. done.
Qed.

Lemma feedback_fold_events (v : list PacketInfo) :
  forall (b : Bwe) (evs : list Event),
    fold_left
      (fun (acc : Bwe * list Event) packet_info =>
         let '(b', evs) :=
           IncomingPacketInfo acc.1 (pi_arrival_time_ms packet_info)
             (ConvertMsTo24Bits (pi_send_time_ms packet_info))
             (pi_payload_size packet_info) 0
             (pi_probe_cluster_id packet_info) in
         (b', acc.2 ++ evs))
      v (b, evs)
    = ((IncomingPacketFeedbackVector b v).1,
       evs ++ (IncomingPacketFeedbackVector b v).2).
Proof.
  unfold IncomingPacketFeedbackVector.
  induction v as [|x v IH]; intros b evs; [by rewrite app_nil_r|].
  cbn [fold_left fst snd].
  destruct (IncomingPacketInfo _ _ _ _ _ _) as [b' evs'].
  rewrite (IH b' (evs ++ evs')), (IH b' ([] ++ evs')). cbn [fst snd app].
  by rewrite app_assoc.
Qed.

(** X21: a feedback vector is handled packet by packet, in order: the
    vector [v1 ++ v2] has the effect of [v1] followed by [v2], with the
    observer calls of [v1] before those of [v2], and every packet is handled
    as a packet of stream 0 whose send time is converted to 24 bits.  After
    a vector that is not empty, stream 0 is in the stream table with the
    arrival time of the last packet. *)
Theorem X21_IncomingPacketFeedbackVector_in_order :
  forall (b : Bwe) (v1 v2 : list PacketInfo) (x : PacketInfo),
    IncomingPacketFeedbackVector b (v1 ++ v2)
    = ((IncomingPacketFeedbackVector
          (IncomingPacketFeedbackVector b v1).1 v2).1,
       (IncomingPacketFeedbackVector b v1).2 ++
       (IncomingPacketFeedbackVector
          (IncomingPacketFeedbackVector b v1).1 v2).2) /\
    IncomingPacketFeedbackVector b [x]
    = IncomingPacketInfo b (pi_arrival_time_ms x)
        (ConvertMsTo24Bits (pi_send_time_ms x)) (pi_payload_size x) 0
        (pi_probe_cluster_id x) /\
    ssrcs_ (IncomingPacketFeedbackVector b (v1 ++ [x])).1 !! 0
    = Some (pi_arrival_time_ms x).
Proof.
  intros b v1 v2 x.
  assert (forall v, IncomingPacketFeedbackVector b (v1 ++ v)
    = ((IncomingPacketFeedbackVector
          (IncomingPacketFeedbackVector b v1).1 v).1,
       (IncomingPacketFeedbackVector b v1).2 ++
       (IncomingPacketFeedbackVector
          (IncomingPacketFeedbackVector b v1).1 v).2)) as Happ.
  { intros v. unfold IncomingPacketFeedbackVector at 1. rewrite fold_left_app.
    fold (IncomingPacketFeedbackVector b v1).
    destruct (IncomingPacketFeedbackVector b v1) as [b1 evs1].
    apply feedback_fold_events. }
  assert (forall b0 : Bwe, IncomingPacketFeedbackVector b0 [x]
    = IncomingPacketInfo b0 (pi_arrival_time_ms x)
        (ConvertMsTo24Bits (pi_send_time_ms x)) (pi_payload_size x) 0
        (pi_probe_cluster_id x)) as Hone.
  { intros b0. unfold IncomingPacketFeedbackVector. cbn [fold_left fst snd app].
    by destruct (IncomingPacketInfo _ _ _ _ _ _). }
  split; [apply Happ|]. split; [apply Hone|].
  rewrite Happ. cbn [fst]. rewrite Hone, IncomingPacketInfo_ssrcs.
  by rewrite lookup_insert_eq.
Qed.

End PipelineFacts.

(** ** The fixed fields that Parse decodes *)

Lemma ReadBigEndian_u32_sum ptr :
  ReadBigEndian_u32 ptr
  = at_ ptr 0 * 2 ^ 24 + at_ ptr 1 * 2 ^ 16 + at_ ptr 2 * 2 ^ 8 + at_ ptr 3.
Proof.
  unfold ReadBigEndian_u32.
  pose proof (at_range ptr 0). pose proof (at_range ptr 1).
  pose proof (at_range ptr 2). pose proof (at_range ptr 3).
  rewrite <- !Z.lor_assoc.
  rewrite (lor_shiftl_add (at_ ptr 2) (at_ ptr 3) 8) by lia.
  rewrite (lor_shiftl_add (at_ ptr 1)) by lia.
  rewrite (lor_shiftl_add (at_ ptr 0)) by lia. lia.
Qed.

Lemma at_drop (n : nat) : forall (ptr : list byte) (i : nat),
  at_ (drop n ptr) i = at_ ptr (n + i).
Proof.
  unfold at_. induction n as [|n IH]; intros ptr i; [done|].
  destruct ptr as [|b ptr]; [by destruct i|]. cbn [drop Nat.add nth]. apply IH.
Qed.

Lemma read_CSRCs_length CC : forall i ptr arr,
  length (read_CSRCs CC i ptr arr) = length arr.
Proof.
  induction CC as [|CC IH]; intros i ptr arr; [done|].
  cbn [read_CSRCs]. by rewrite IH, length_insert.
Qed.

Lemma read_CSRCs_lookup CC : forall (i : nat) ptr (arr : list Z) (k : nat),
  (i + CC <= length arr)%nat ->
  read_CSRCs CC i ptr arr !! k
  = if decide (i <= k < i + CC)%nat
    then Some (ReadBigEndian_u32 (drop (4 * (k - i)) ptr))
    else arr !! k.
Proof.
  induction CC as [|CC IH]; intros i ptr arr k Hlen.
  { cbn [read_CSRCs]. destruct (decide _); [lia|done]. }
  cbn [read_CSRCs]. rewrite IH by (rewrite length_insert; lia).
  destruct (decide (S i <= k < S i + CC)%nat) as [Hin|Hout].
  - destruct (decide _); [|lia]. rewrite drop_drop.
    by replace (4 + 4 * (k - S i))%nat with (4 * (k - i))%nat by lia.
  - destruct (decide (k = i)) as [->|Hne].
    + rewrite list_lookup_insert_eq by lia.
      destruct (decide _); [|lia]. by rewrite Nat.sub_diag.
    + rewrite list_lookup_insert_ne by done.
      destruct (decide _); [lia|done].
Qed.

(** The marker bit is the top bit of its byte. *)
Lemma top_bit a :
  0 <= a < 256 -> negb (Z.land a 0x80 =? 0) = true <-> 128 <= a.
Proof.
  intros Ha.
  destruct (Z.eqb_spec (Z.land a 128) 0) as [Hbit|Hbit]; cbn [negb].
  - split; [done|]. intros Hge. exfalso.
    assert (Z.testbit (Z.land a 128) 7 = true) as Ht.
    { rewrite Z.land_spec. change 128 with (2 ^ 7) at 1.
      rewrite Z.pow2_bits_true by lia. rewrite andb_true_r.
      apply Z.testbit_true; [lia|].
      assert (a `div` 2 ^ 7 = 1) as ->; [|done].
      symmetry. apply (Z.div_unique _ _ 1 (a - 128)); lia. }
    rewrite Hbit in Ht. by rewrite Z.bits_0 in Ht.
  - split; [|done]. intros _.
    destruct (Z_lt_le_dec a 128) as [Hlt|]; [|done].
    exfalso. apply Hbit. apply Z.bits_inj'. intros n Hn.
    rewrite Z.land_spec, Z.bits_0.
    destruct (Z.eq_dec n 7) as [->|Hn7].
    + rewrite (proj2 (Z.testbit_false a 7 ltac:(lia))); [done|].
      rewrite Z.div_small by lia. done.
    + change 128 with (2 ^ 7). rewrite Z.pow2_bits_false by lia.
      apply andb_false_r.
Qed.

Section ParseFields.
Variable kRtpOneByteHeaderExtensionId : Z.
Variable kInvalidType : RTPExtensionType.
Variable cvo : Z -> VideoRotation.

Abbreviation Parse' := (Parse kRtpOneByteHeaderExtensionId kInvalidType cvo).

(** The members other than the extension and the header length, as a
    successful [Parse] writes them. *)
Lemma Parse_fixed_part data header map :
  (Parse' data header map).1.1 = true ->
  let h := (Parse' data header map).1.2 in
  markerBit h = negb (Z.land (at_ data 1) 0x80 =? 0) /\
  payloadType h = Z.land (at_ data 1) 0x7f /\
  sequenceNumber h = ((at_ data 2 ≪ 8) + at_ data 3) `mod` 2 ^ 16 /\
  timestamp h = ReadBigEndian_u32 (drop 4 data) /\
  ssrc h = ReadBigEndian_u32 (drop 8 data) /\
  arrOfCSRCs h
  = read_CSRCs (Z.to_nat (rtp_CC data)) 0 (drop 12 data) (arrOfCSRCs header).
Proof.
  unfold Parse. fold (rtp_CC data).
  destruct (_ <? kRtpMinParseLength); [done|].
  destruct (negb (_ =? kRtpExpectedVersion)); [done|].
  destruct (_ <? 12 + _); [done|].
  destruct (negb (Z.land (at_ data 0) 16 =? 0)).
  - destruct (_ <? 4); [done|]. destruct (_ <? 4 + _); [done|].
    match goal with
    | |- context [if ?c then ParseOneByteExtensionHeader ?k ?v ?h ?m ?p else _] =>
        pose proof (ParseOneByteExtensionHeader_frame k v h m p) as HF;
        destruct c; [destruct (ParseOneByteExtensionHeader k v h m p) as [h3 log]|]
    end.
    + cbn [fst] in HF. destruct h3 as [m pt sq ts ss nc arr pl hl ex].
      cbn [with_extension with_headerLength markerBit payloadType
           sequenceNumber timestamp ssrc numCSRCs arrOfCSRCs paddingLength
           headerLength extension] in HF.
      injection HF as -> -> -> -> -> -> -> -> ->.
      match goal with
      | |- context [if ?a <? ?b then _ else _] => destruct (a <? b)
      end; [done|]. intros _. by cbn.
    + match goal with
      | |- context [if ?a <? ?b then _ else _] => destruct (a <? b)
      end; [done|]. intros _. by cbn.
  - match goal with
    | |- context [if ?a <? ?b then _ else _] => destruct (a <? b)
    end; [done|]. intros _. by cbn.
Qed.

(** X22: the fixed fields of a packet that [Parse] accepts, as numbers: the
    marker is the top bit of the second byte and the payload type its other
    seven bits, the sequence number, timestamp and SSRC are the big-endian
    values of bytes 2-3, 4-7 and 8-11, and for a header whose CSRC array has
    its 15 entries, entry [k] is the big-endian word at offset [12 + 4 k]
    for [k] below the CSRC count and is left as it was from there on. *)
Theorem X22_Parse_fixed_fields :
  forall (data : list byte) (header : RTPHeader)
         (map : option (Z -> RTPExtensionType)),
    (Parse' data header map).1.1 = true ->
    length (arrOfCSRCs header) = 15%nat ->
    let h := (Parse' data header map).1.2 in
    (markerBit h = true <-> 128 <= at_ data 1) /\
    payloadType h = at_ data 1 `mod` 128 /\
    sequenceNumber h = at_ data 2 * 256 + at_ data 3 /\
    timestamp h
    = at_ data 4 * 2 ^ 24 + at_ data 5 * 2 ^ 16 + at_ data 6 * 2 ^ 8 + at_ data 7 /\
    ssrc h
    = at_ data 8 * 2 ^ 24 + at_ data 9 * 2 ^ 16 + at_ data 10 * 2 ^ 8 + at_ data 11 /\
    numCSRCs h = at_ data 0 `mod` 16 /\
    length (arrOfCSRCs h) = 15%nat /\
    forall k : nat,
      arrOfCSRCs h !! k
      = if decide (Z.of_nat k < numCSRCs h)
        then Some (at_ data (12 + 4 * k) * 2 ^ 24
                   + at_ data (13 + 4 * k) * 2 ^ 16
                   + at_ data (14 + 4 * k) * 2 ^ 8 + at_ data (15 + 4 * k))
        else arrOfCSRCs header !! k.
Proof.
  intros data header map Hok Harr h. subst h.
  destruct (Parse_fixed_part data header map Hok)
    as (HM & HPT & Hseq & Hts & Hssrc & Hcsrc).
  cbv zeta in HM, HPT, Hseq, Hts, Hssrc, Hcsrc.
  assert (numCSRCs (Parse' data header map).1.2 = rtp_CC data) as HCC.
  { revert Hok. unfold Parse. fold (rtp_CC data).
    destruct (_ <? kRtpMinParseLength); [done|].
    destruct (negb (_ =? kRtpExpectedVersion)); [done|].
    destruct (_ <? 12 + _); [done|].
    destruct (negb (Z.land (at_ data 0) 16 =? 0)).
    - destruct (_ <? 4); [done|]. destruct (_ <? 4 + _); [done|].
      match goal with
      | |- context [if ?c then ParseOneByteExtensionHeader ?k ?v ?h ?m ?p else _] =>
          pose proof (ParseOneByteExtensionHeader_lengths k v h m p)
            as (_ & _ & Hc);
          destruct c; [destruct (ParseOneByteExtensionHeader k v h m p) as [h3 log]|]
      end;
        match goal with
        | |- context [if ?a <? ?b then _ else _] => destruct (a <? b)
        end; try done; intros _; cbn in *; done.
    - match goal with
      | |- context [if ?a <? ?b then _ else _] => destruct (a <? b)
      end; [done|]. intros _. by cbn. }
  pose proof (at_range data 1). pose proof (at_range data 2).
  pose proof (at_range data 3).
  rewrite HM, HPT, Hseq, Hts, Hssrc, HCC, Hcsrc.
  rewrite !ReadBigEndian_u32_sum, !at_drop. cbn [Nat.add].
  split.
  { destruct (Z.eqb_spec (Z.land (at_ data 1) 128) 0) as [Hbit|Hbit];
      cbn [negb].
    - split; [done|]. intros Hge. exfalso.
      assert (Z.testbit (Z.land (at_ data 1) 128) 7 = true) as Ht.
      { rewrite Z.land_spec. change 128 with (2 ^ 7) at 1.
        rewrite Z.pow2_bits_true by lia. rewrite andb_true_r.
        apply Z.testbit_true; [lia|].
        assert (at_ data 1 `div` 2 ^ 7 = 1) as ->; [|done].
        symmetry. apply (Z.div_unique _ _ 1 (at_ data 1 - 128)); lia. }
      rewrite Hbit in Ht. by rewrite Z.bits_0 in Ht.
    - split; [|done]. intros _.
      destruct (Z_lt_le_dec (at_ data 1) 128) as [Hlt|]; [|done].
      exfalso. apply Hbit. apply Z.bits_inj'. intros n Hn.
      rewrite Z.land_spec, Z.bits_0.
      destruct (Z.eq_dec n 7) as [->|Hn7].
      + rewrite (proj2 (Z.testbit_false (at_ data 1) 7 ltac:(lia))); [done|].
        rewrite Z.div_small by lia. done.
      + change 128 with (2 ^ 7). rewrite Z.pow2_bits_false by lia.
        apply andb_false_r. }
  split.
  { change 127 with (Z.ones 7). by rewrite Z.land_ones by lia. }
  split.
  { rewrite Z.shiftl_mul_pow2 by lia. rewrite Z.mod_small; lia. }
  split; [done|]. split; [done|].
  split.
  { unfold rtp_CC. change 15 with (Z.ones 4). by rewrite Z.land_ones by lia. }
  split; [by rewrite read_CSRCs_length|].
  intros k. pose proof (rtp_CC_range data) as Hcc.
  rewrite read_CSRCs_lookup by (rewrite Harr; lia).
  destruct (decide (0 <= k < 0 + Z.to_nat (rtp_CC data))%nat),
           (decide (Z.of_nat k < rtp_CC data)); try lia; [|done].
  rewrite ReadBigEndian_u32_sum, !at_drop. repeat f_equal; lia.
Qed.

(** The three checks that [Parse] makes before it writes anything. *)
Lemma Parse_early_checks data header map :
  Z.of_nat (length data) < 12 \/ at_ data 0 ≫ 6 <> 2 \/
  Z.of_nat (length data) < 12 + rtp_CC data * 4 ->
  Parse' data header map = (false, header, []).
Proof.
  intros Hfail. unfold Parse. fold (rtp_CC data).
  destruct (Z.ltb_spec (Z.of_nat (length data)) kRtpMinParseLength) as [|Hl];
    [done|].
  destruct (Z.eqb_spec (at_ data 0 ≫ 6) kRtpExpectedVersion) as [HV|];
    cbn [negb]; [|done].
  destruct (Z.ltb_spec (Z.of_nat (length data)) (12 + rtp_CC data * 4));
    [done|].
  unfold kRtpMinParseLength in Hl. unfold kRtpExpectedVersion in HV. lia.
Qed.

(** Once the three checks have passed the fixed fields are written,
    whatever the verdict. *)
Lemma Parse_written data header map :
  12 <= Z.of_nat (length data) -> at_ data 0 ≫ 6 = 2 ->
  12 + rtp_CC data * 4 <= Z.of_nat (length data) ->
  let h := (Parse' data header map).1.2 in
  markerBit h = negb (Z.land (at_ data 1) 0x80 =? 0) /\
  payloadType h = Z.land (at_ data 1) 0x7f /\
  sequenceNumber h = ((at_ data 2 ≪ 8) + at_ data 3) `mod` 2 ^ 16 /\
  timestamp h = ReadBigEndian_u32 (drop 4 data) /\
  ssrc h = ReadBigEndian_u32 (drop 8 data) /\
  numCSRCs h = rtp_CC data.
Proof.
  intros Hlen HV HCC. unfold Parse. fold (rtp_CC data).
  destruct (Z.ltb_spec (Z.of_nat (length data)) kRtpMinParseLength) as [Hl|_].
  { unfold kRtpMinParseLength in Hl. lia. }
  destruct (Z.eqb_spec (at_ data 0 ≫ 6) kRtpExpectedVersion) as [_|Hne];
    cbn [negb]; [|done].
  destruct (Z.ltb_spec (Z.of_nat (length data)) (12 + rtp_CC data * 4));
    [lia|].
  destruct (negb (Z.land (at_ data 0) 16 =? 0)).
  - destruct (_ <? 4); [by cbn|]. destruct (_ <? 4 + _); [by cbn|].
    match goal with
    | |- context [if ?c then ParseOneByteExtensionHeader ?k ?v ?h ?m ?p else _] =>
        pose proof (ParseOneByteExtensionHeader_frame k v h m p) as HF;
        destruct c; [destruct (ParseOneByteExtensionHeader k v h m p) as [h3 log]|]
    end.
    + cbn [fst] in HF. destruct h3 as [m pt sq ts ss nc arr pl hl ex].
      cbn [with_extension with_headerLength markerBit payloadType
           sequenceNumber timestamp ssrc numCSRCs arrOfCSRCs paddingLength
           headerLength extension] in HF.
      injection HF as -> -> -> -> -> -> -> -> ->.
      match goal with
      | |- context [if ?a <? ?b then _ else _] => destruct (a <? b)
      end; by cbn.
    + match goal with
      | |- context [if ?a <? ?b then _ else _] => destruct (a <? b)
      end; by cbn.
  - match goal with
    | |- context [if ?a <? ?b then _ else _] => destruct (a <? b)
    end; by cbn.
Qed.

(** X23: the two classifiers overlap.  A buffer that [Parse] accepts is
    taken for an RTCP packet by [RTCP] exactly when [Parse] reports it with
    the marker bit set and a payload type of 64, 67 or 72 to 79: an RTP
    packet with the marker bit and one of these payload types is taken for
    RTCP. *)
Theorem X23_RTCP_and_Parse_overlap :
  forall (data : list byte) (header : RTPHeader)
         (map : option (Z -> RTPExtensionType)),
    (Parse' data header map).1.1 = true ->
    RTCP data = true <->
    markerBit (Parse' data header map).1.2 = true /\
    (payloadType (Parse' data header map).1.2 = 64 \/
     payloadType (Parse' data header map).1.2 = 67 \/
     72 <= payloadType (Parse' data header map).1.2 <= 79).
Proof.
  intros data header map Hok.
  destruct (Parse_fixed_part data header map Hok) as (-> & -> & _).
  assert (12 <= Z.of_nat (length data) /\ at_ data 0 ≫ 6 = 2) as [Hlen HV].
  { destruct (Z.lt_ge_cases (Z.of_nat (length data)) 12) as [Hl|Hl].
    { rewrite Parse_early_checks in Hok by (by left). done. }
    split; [done|].
    destruct (Z.eq_dec (at_ data 0 ≫ 6) 2) as [|Hne]; [done|].
    rewrite Parse_early_checks in Hok by (right; by left). done. }
  pose proof (at_range data 1) as Hrange.
  pose proof (top_bit _ Hrange) as Htop.
  rewrite RTCP_true. unfold rtcp_packet_type.
  change 127 with (Z.ones 7). rewrite Z.land_ones by lia.
  change (2 ^ 7) with 128.
  split.
  - intros (_ & _ & Hpt). split; [apply Htop; lia|].
    Z.div_mod_to_equations. lia.
  - intros [Hm Hpt]. apply Htop in Hm. split; [lia|]. split; [done|].
    Z.div_mod_to_equations. lia.
Qed.

(** X25: [Parse] fails before it writes anything only for a buffer of
    fewer than 12 bytes, another version than 2, or too short for its
    CSRCs.  Past these checks the marker bit, payload type, sequence number,
    timestamp, SSRC and CSRC count are those of the packet whatever the
    verdict: a [Parse] that fails on the extension or on the padding
    returns [false] with these members of the header overwritten. *)
Theorem X25_Parse_failure_leaves_partial_header :
  forall (data : list byte) (header : RTPHeader)
         (map : option (Z -> RTPExtensionType)),
    let r := Parse' data header map in
    (Z.of_nat (length data) < 12 \/ at_ data 0 ≫ 6 <> 2 \/
     Z.of_nat (length data) < 12 + rtp_CC data * 4 ->
     r = (false, header, [])) /\
    (12 <= Z.of_nat (length data) -> at_ data 0 ≫ 6 = 2 ->
     12 + rtp_CC data * 4 <= Z.of_nat (length data) ->
     (markerBit r.1.2 = true <-> 128 <= at_ data 1) /\
     payloadType r.1.2 = at_ data 1 `mod` 128 /\
     sequenceNumber r.1.2 = at_ data 2 * 256 + at_ data 3 /\
     ssrc r.1.2 = ReadBigEndian_u32 (drop 8 data) /\
     numCSRCs r.1.2 = rtp_CC data).
Proof.
  intros data header map r. subst r. split; [apply Parse_early_checks|].
  intros Hlen HV HCC.
  destruct (Parse_written data header map Hlen HV HCC)
    as (Hm & Hpt & Hsq & _ & Hss & Hcc).
  rewrite Hm, Hpt, Hsq, Hss, Hcc.
  pose proof (at_range data 1) as H1. pose proof (at_range data 2) as H2.
  pose proof (at_range data 3) as H3.
  split; [|split; [|split; [|done]]].
  - by apply top_bit.
  - change 127 with (Z.ones 7). by rewrite Z.land_ones by lia.
  - rewrite Z.shiftl_mul_pow2 by lia. change (2 ^ 8) with 256.
    apply Z.mod_small. change (2 ^ 16) with 65536. lia.
Qed.

End ParseFields.

(** ** From the parser to the estimator *)

Section ParsedPacketDelivery.
Variable kRtpOneByteHeaderExtensionId : Z.
Variable kInvalidType : RTPExtensionType.
Variable cvo : Z -> VideoRotation.
Context {IA OE OD RS RC : Type}.
Context `{!InterArrivalOps IA, !OveruseEstimatorOps OE,
          !OveruseDetectorOps OD, !RateStatisticsOps RS,
          !AimdRateControlOps RC}.

Abbreviation Parse' := (Parse kRtpOneByteHeaderExtensionId kInvalidType cvo).
Abbreviation Bwe := (DelayBasedBwe IA OE OD RS RC).

(** X24: what [IncomingPacket] does with a header that [Parse] returned.
    For a packet without the extension bit the call is the drop with the
    warning, whatever the header held before [Parse].  When the header has
    an absolute send time, the call is [IncomingPacketInfo] on a value below
    2^24, as its assertion requires, with the SSRC of bytes 8 to 11 and no
    probe cluster, and the probe list is not touched. *)
Theorem X24_IncomingPacket_of_parsed_header :
  forall (b : Bwe) (arrival_time_ms payload_size : Z) (data : list byte)
         (header : RTPHeader) (map : option (Z -> RTPExtensionType)),
    (Parse' data header map).1.1 = true ->
    let h := (Parse' data header map).1.2 in
    (rtp_X data = false ->
     IncomingPacket b arrival_time_ms payload_size h
     = (b, [LogWarning missing_abs_send_time_warning])) /\
    (hasAbsoluteSendTime (extension h) = true ->
     IncomingPacket b arrival_time_ms payload_size h
     = IncomingPacketInfo b arrival_time_ms (absoluteSendTime (extension h))
                          payload_size (ReadBigEndian_u32 (drop 8 data))
                          kNotAProbe /\
     0 <= absoluteSendTime (extension h) < 2 ^ 24 /\
     probes_ (IncomingPacket b arrival_time_ms payload_size h).1 = probes_ b).
Proof.
  intros b t n data header map Hok h. subst h.
  destruct (Parse_fixed_part _ _ _ data header map Hok)
    as (_ & _ & _ & _ & Hssrc & _). cbv zeta in Hssrc.
  pose proof (Parse_extension_cases _ _ _ data header map Hok) as Hext.
  unfold IncomingPacket. rewrite Hssrc. split.
  - intros HX.
    destruct Hext as [[-> _]|(HX' & _)]; [done|congruence].
  - intros Hhas. rewrite Hhas. cbn [negb]. split; [done|]. split.
    + destruct Hext as [[Hreset _]|(_ & _ & h2 & ptr & Hh2 & ->)].
      * rewrite Hreset. cbn. lia.
      * apply (ParseOneByteExtensionHeader_invariant _ _
                 (fun e => 0 <= absoluteSendTime e < 2 ^ 24)).
        -- apply ParseElement_abs_send_time.
        -- rewrite Hh2. cbn. lia.
    + rewrite IncomingPacketInfo_probes.
      unfold is_probe. by rewrite Z.eqb_refl.
Qed.

End ParsedPacketDelivery.

(** * Closed instances of the further properties *)

Example Parse_abs_send_time_packet :
  (Parse_BEDE abs_send_time_packet header_init).1.1 = true /\
  headerLength (Parse_BEDE abs_send_time_packet header_init).1.2 = 20 /\
  hasAbsoluteSendTime
    (extension (Parse_BEDE abs_send_time_packet header_init).1.2) = true /\
  absoluteSendTime
    (extension (Parse_BEDE abs_send_time_packet header_init).1.2) = 0x00051f /\
  ssrc (Parse_BEDE abs_send_time_packet header_init).1.2 = 0x01020304.
Proof. vm_compute. done. Qed.

Lemma X3_Parse_verdict_witness :
  headerLength (Parse_BEDE csrc_packet header_init).1.2
  = rtp_header_length csrc_packet /\
  numCSRCs (Parse_BEDE csrc_packet header_init).1.2 = 1.
Proof.
  destruct (X3_Parse_verdict 0xBEDE kRtpExtensionNone cvo_rotation
              csrc_packet header_init (Some GetType_123)) as [_ H].
  destruct H as (Hl & _ & Hc & _); [by vm_compute|]. split; [exact Hl|].
  unfold Parse_BEDE. rewrite Hc. by vm_compute.
Defined.

Lemma X4_one_byte_extension_values_in_range_witness :
  extension_in_range
    (extension
       (ParseOneByteExtensionHeader kRtpExtensionNone cvo_rotation header_init
          (Some GetType_123) [x22; xff; xff; xff; x12; x80; x00; x01]).1).
Proof.
  apply X4_one_byte_extension_values_in_range.
  unfold extension_in_range, playout_value. cbn. repeat split; lia || by left.
Defined.

Lemma X5_Parse_without_one_byte_block_witness :
  hasAbsoluteSendTime (extension (Parse_BEDE plain_packet used_header).1.2)
  = false /\
  transportSequenceNumber (extension (Parse_BEDE plain_packet used_header).1.2)
  = 1234.
Proof.
  unfold Parse_BEDE.
  rewrite (X5_Parse_without_one_byte_block 0xBEDE kRtpExtensionNone cvo_rotation
             plain_packet used_header (Some GetType_123)).
  - by cbn.
  - by vm_compute.
  - left. by vm_compute.
Defined.

Lemma X6_Parse_keeps_transport_sequence_number_flag_witness :
  hasTransportSequenceNumber
    (extension (Parse_BEDE abs_send_time_packet used_header).1.2) = true.
Proof.
  apply (X6_Parse_keeps_transport_sequence_number_flag 0xBEDE
           kRtpExtensionNone cvo_rotation abs_send_time_packet used_header
           (Some GetType_123)).
  - by vm_compute.
  - reflexivity.
Defined.

Lemma X7_Parse_absolute_send_time_witness :
  0 <= absoluteSendTime
         (extension (Parse_BEDE abs_send_time_packet used_header).1.2) < 2 ^ 24 /\
  rtp_X abs_send_time_packet = true.
Proof.
  destruct (X7_Parse_absolute_send_time 0xBEDE kRtpExtensionNone cvo_rotation
              abs_send_time_packet used_header (Some GetType_123))
    as [Hrange Hflag]; [by vm_compute|].
  split; [exact Hrange|]. apply Hflag. by vm_compute.
Defined.

Lemma X8_one_byte_skipped_bytes_witness :
  ParseOneByteExtensionHeader kRtpExtensionNone cvo_rotation header_init
    (Some GetType_123) [x07; x22; x00; x05; x1f]
  = ParseOneByteExtensionHeader kRtpExtensionNone cvo_rotation header_init
      (Some GetType_123) [x22; x00; x05; x1f] /\
  ParseOneByteExtensionHeader kRtpExtensionNone cvo_rotation header_init
    (Some GetType_123) [x51; xaa; xbb; x22; x00; x05; x1f]
  = ((ParseOneByteExtensionHeader kRtpExtensionNone cvo_rotation header_init
        (Some GetType_123) [x22; x00; x05; x1f]).1,
     Warning_UnknownId 5 ::
     (ParseOneByteExtensionHeader kRtpExtensionNone cvo_rotation header_init
        (Some GetType_123) [x22; x00; x05; x1f]).2).
Proof.
  split.
  - apply (X8_one_byte_skipped_bytes kRtpExtensionNone cvo_rotation header_init
             GetType_123 x07 [x22; x00; x05; x1f]). reflexivity.
  - apply (X8_one_byte_skipped_bytes kRtpExtensionNone cvo_rotation header_init
             GetType_123 x51 [xaa; xbb; x22; x00; x05; x1f]);
      by vm_compute.
Defined.

Lemma X9_one_byte_absolute_send_time_element_witness :
  hasAbsoluteSendTime
    (extension
       (ParseOneByteExtensionHeader kRtpExtensionNone cvo_rotation header_init
          (Some GetType_123) [x22; x00; x05; x1f; x00]).1) = true /\
  absoluteSendTime
    (extension
       (ParseOneByteExtensionHeader kRtpExtensionNone cvo_rotation header_init
          (Some GetType_123) [x22; x00; x05; x1f; x00]).1) = 5 * 256 + 31.
Proof.
  rewrite (X9_one_byte_absolute_send_time_element kRtpExtensionNone
             cvo_rotation header_init GetType_123 x22 [x00; x05; x1f; x00]);
    try (by vm_compute).
  cbn [length]. lia.
Defined.

Lemma X13_ComputeClusters_sizes_witness :
  ComputeClusters [] (S3_probes 4) = [].
Proof.
  destruct (X13_ComputeClusters_sizes (S3_probes 4)) as (_ & _ & Hnone).
  apply Hnone. cbn. lia.
Defined.

Lemma X15_IncomingPacketInfo_registers_stream_witness :
  Bwe_LatestEstimate (IncomingPacketInfo zero_rate_bwe 100 0 1200 7 (-1)).1
  = Some (Keys (ssrcs_ (IncomingPacketInfo zero_rate_bwe 100 0 1200 7 (-1)).1),
          LatestEstimate
            (remote_rate_ (IncomingPacketInfo zero_rate_bwe 100 0 1200 7 (-1)).1)).
Proof.
  destruct (X15_IncomingPacketInfo_registers_stream zero_rate_bwe 100 0 1200 7 (-1))
    as (_ & _ & _ & H).
  apply H. by vm_compute.
Defined.

Lemma X16_first_packet_time_set_once_witness :
  first_packet_time_ms_ (IncomingPacketInfo fresh 40 0 1200 1 (-1)).1 = 40 /\
  first_packet_time_ms_ (run two_streams_bwe (S3_packets 5)).1 = 0.
Proof.
  split.
  - destruct (X16_first_packet_time_set_once fresh []) as [H _].
    apply H. reflexivity.
  - destruct (X16_first_packet_time_set_once two_streams_bwe (S3_packets 5))
      as [_ H].
    apply H. cbn. lia.
Defined.

Lemma X17_probe_admission_witness :
  probes_ (IncomingPacketInfo fresh 0 0 150 1 0).1 = probes_ fresh /\
  total_probes_received_ (IncomingPacketInfo fresh 0 0 1200 1 0).1 = u64 (0 + 1).
Proof.
  split.
  - destruct (X17_probe_admission fresh 0 0 150 1 0) as [H _].
    apply H. right. left. lia.
  - destruct (X17_probe_admission fresh 0 0 1200 1 0) as [_ H].
    apply H; [unfold kNotAProbe; lia|lia|by left].
Defined.

Lemma X19_RemoveStream_effect_witness :
  Bwe_LatestEstimate (RemoveStream zero_rate_bwe 1) = Some ([], 0).
Proof.
  destruct (X19_RemoveStream_effect zero_rate_bwe 1) as (_ & _ & _ & _ & _ & H).
  apply H; [|reflexivity].
  intros k Hk. apply Keys_spec in Hk as [v Hk].
  cbn [zero_rate_bwe ssrcs_] in Hk.
  by apply lookup_singleton_Some in Hk as [? _].
Defined.

Lemma X20_packet_without_live_stream_witness :
  inter_arrival_ (IncomingPacketInfo two_streams_bwe 4000 0 1200 3 (-1)).1
  = (ComputeDeltas
       (InterArrival_new ((5 ≪ 26) `quot` 1000) kTimestampToMs true)
       (u32 (0 ≪ 8)) 4000 1200).1.
Proof.
  apply (X20_packet_without_live_stream two_streams_bwe 4000 0 1200 3 (-1)).
  intros k last_seen Hk. cbn [two_streams_bwe ssrcs_] in Hk.
  apply lookup_insert_Some in Hk as [[_ <-]|[_ Hk]]; [lia|].
  apply lookup_singleton_Some in Hk as [_ <-]. lia.
Defined.

Lemma X22_Parse_fixed_fields_witness :
  ssrc (Parse_BEDE csrc_packet used_header).1.2
  = 1 * 2 ^ 24 + 2 * 2 ^ 16 + 3 * 2 ^ 8 + 4 /\
  arrOfCSRCs (Parse_BEDE csrc_packet used_header).1.2 !! 0%nat
  = Some (10 * 2 ^ 24 + 11 * 2 ^ 16 + 12 * 2 ^ 8 + 13).
Proof.
  destruct (X22_Parse_fixed_fields 0xBEDE kRtpExtensionNone cvo_rotation
              csrc_packet used_header (Some GetType_123))
    as (_ & _ & _ & _ & Hssrc & Hcc & _ & Hcsrc);
    [by vm_compute|reflexivity|].
  split; [exact Hssrc|].
  unfold Parse_BEDE. rewrite (Hcsrc 0%nat), Hcc.
  reflexivity.
Defined.

Lemma X23_RTCP_and_Parse_overlap_witness :
  RTCP sender_report = true <->
  markerBit (Parse_BEDE sender_report header_init).1.2 = true /\
  (payloadType (Parse_BEDE sender_report header_init).1.2 = 64 \/
   payloadType (Parse_BEDE sender_report header_init).1.2 = 67 \/
   72 <= payloadType (Parse_BEDE sender_report header_init).1.2 <= 79).
Proof.
  apply (X23_RTCP_and_Parse_overlap 0xBEDE kRtpExtensionNone cvo_rotation
           sender_report header_init (Some GetType_123)). by vm_compute.
Defined.

Lemma X24_IncomingPacket_of_parsed_header_witness :
  IncomingPacket fresh 10 1200 (Parse_BEDE plain_packet used_header).1.2
  = (fresh, [LogWarning missing_abs_send_time_warning]) /\
  probes_ (IncomingPacket fresh 10 1200
             (Parse_BEDE abs_send_time_packet used_header).1.2).1
  = probes_ fresh.
Proof.
  split.
  - apply (X24_IncomingPacket_of_parsed_header 0xBEDE kRtpExtensionNone
             cvo_rotation fresh 10 1200 plain_packet used_header
             (Some GetType_123)); by vm_compute.
  - apply (X24_IncomingPacket_of_parsed_header 0xBEDE kRtpExtensionNone
             cvo_rotation fresh 10 1200 abs_send_time_packet used_header
             (Some GetType_123)); by vm_compute.
Defined.

Example Parse_truncated_packet :
  (Parse_BEDE truncated_packet header_init).1.1 = false /\
  ssrc (Parse_BEDE truncated_packet header_init).1.2 = 0x01020304.
Proof. vm_compute. done. Qed.

Lemma X25_Parse_failure_leaves_partial_header_witness :
  Parse_BEDE [x80; x60; x00] used_header = (false, used_header, []) /\
  ssrc (Parse_BEDE truncated_packet header_init).1.2
  = ReadBigEndian_u32 (drop 8 truncated_packet).
Proof.
  split.
  - apply (X25_Parse_failure_leaves_partial_header 0xBEDE kRtpExtensionNone
             cvo_rotation [x80; x60; x00] used_header (Some GetType_123)).
    left. cbn. lia.
  - apply (X25_Parse_failure_leaves_partial_header 0xBEDE kRtpExtensionNone
             cvo_rotation truncated_packet header_init (Some GetType_123));
      by vm_compute.
Defined.
